(* ===== verification/_CoqProject ===== *)
-Q . S2P
Prelude.v
Data.v
Store.v
Seed.v
Json.v
Toast.v
Grid.v
Component.v
Invariant.v
Pages.v
Response.v
Markup.v
Behaviour.v
Spec.v
Scenarios.v
Similar.v
Lifecycle.v
Objects.v
PageObjects.v
Untyped.v
