(* ===== verification/Prelude.v ===== *)
(** * Task List Manager: a verification development for [src/src/TaskManager.jsx]

    ** The program

    [TaskManager.jsx] is one React function component.  It keeps three pieces
    of component state ([tasks], [filterStatus], [newTask]) and one ref
    ([tableRef]); it has three effects (the seed fetch, the construction of
    the Tabulator grid, the application of the status filter), one click
    handler of the form ([handleAddTask]), one click handler inside the grid
    (the [cellClick] of the Actions column), one helper that touches the DOM
    ([showToast]) and the JSX it returns.  The parts the specification names
    and the files that model them:

    - Data model (Task, Draft Task, remote record): [Data.v], modules [Task],
      [Draft], [Todo] and [Status].  A task is the object literal of lines
      20-25 and 69-72; statuses are JavaScript strings, as in the code, and
      membership in the enumeration ["To Do"], ["In Progress"], ["Done"] is an
      invariant that is proved, not a type.
    - Task Store: [Store.v], module [Store].  The store is the array held by
      [useState([])]; its writers are the expressions of lines 52 and 73
      ([remove_by_id], [append_one]) and the seed of line 26; [next_id] is
      line 70.
    - Remote Seed Loader: [Seed.v], module [Seed]: the mapping of lines 20-25
      ([seed_task], [initialTasks]) on typed records ([Todo.t]).  The source
      has no types: [Json.v] holds the values of JavaScript the callback can
      be handed ([Js.value]) with the operations it applies to them
      ([Js.slice], [Js.map], [Js.get], [Js.truthy]; a [TypeError] is
      [None]), and [Response.v] runs the callback of lines 19-27 on any
      parsed body ([seed_task_js], [initialTasks_js]), reads a body as
      typed records ([decode]) and gives the event of the page a response
      stands for ([settle]).
    - Notification Service: [Toast.v], module [Toast]: [showToast] (lines
      94-100) over a model of [document.body], the timer queue and a clock;
      [Toast.pending] says that a toast is on screen with its timeout still
      to come.
    - Grid widget: [Grid.v].  Tabulator is a library the component only calls;
      it is modelled from the interface the specification gives (section 9)
      as the class [GridWidget] (operations and laws) with one instance
      [ListGrid]; the registry behind [Tabulator.findTable] and [destroy] is
      the module [Registry].
    - The component: [Component.v].  [Hooks] is the component state, [Cmd] the
      calls a handler makes ([setTasks], [setNewTask], [setFilterStatus],
      [showToast], [alert]); each handler is a function from the values its
      closure captures to the list of calls it makes, in program order
      ([handleAddTask], [cellClick], [fetch_then], the four [onChange]
      handlers).  [commit] is React's part: it applies the setters, re-renders
      and runs the effects whose dependency changed ([table_effect] with its
      cleanup for [[tasks]], [filter_effect] for [[filterStatus]]); [late]
      is what React makes of the calls of a callback that runs after the
      component has been removed (the setters are dropped, the calls on the
      document are made).  [World]
      is the page: the component state, the ref, the tables registered on
      the element, the pending cleanup, the state of the request and the
      DOM of the notifications.  [step] is the reaction of the page to one
      event ([Event]); [enabled] says which events the browser can deliver in
      a state; [reachable] is the inductive closure from [World.init].
      The handlers, the effects, the columns and the initial state are
      translated from the lines of the source; [World], [Event], [commit],
      [mount], [late], [step] and [enabled] are the runtime (React, the
      browser, the user) as the specification and React's documentation
      describe it, and are marked so in the map of the manifest.
    - The markup: [Markup.v].  [jsx] is the JSX of lines 102-160 as a tree
      ([Jsx.node], [Jsx.attr]): every element with its props, class names
      and texts, each handler as the closure of the render.  [view_of]
      reads the values and options of the controls from the tree, [fire]
      delivers an event of the form to the handler of its element.
    - [Invariant.v]: the invariant [ok] of reachable pages, the normal form
      [mounted] of a mounted page and the closed form of every step on it.
    - [Pages.v]: concrete pages on the list grid, for the witnesses.
    - [Behaviour.v]: the theorems on single events and on reachable pages.
    - [Spec.v]: the contract of the specification as an abstract machine
      ([Spec.step], [Spec.view]), the abstraction [abs] from pages to its
      states, and the refinement theorems.
    - [Scenarios.v]: the theorems on runs of several events, with the time
      a run takes ([elapsed]).
    - [Similar.v]: the partial equivalence [similar] of pages that differ
      only in the identity of their table instances and in the internal
      state of the grid, with the [Proper] instances that make the component
      a morphism for it.
    - [Lifecycle.v]: the three phases of the component ([fresh] before the
      first commit, [live] on the page, [removed] after React has unmounted
      it), read off the ref and the state of the request ([phase]), the
      removal, and the bound on the size of the store.
    - Task objects and in-grid edits: [Objects.v].  The files above hold
      tasks as values; JavaScript holds them as objects, and the [tasks]
      array, the [data] of the table (line 34) and the array the [cellClick]
      closure captured (line 52) are arrays of references.  [Obj] is the
      heap of task objects (a location is an index), [Ref.t] the part of
      the page that holds references, and [Ref.handleAddTask_refs],
      [Ref.cellClick_refs], [Ref.fetch_then_refs] are the three writers of
      the store, allocating the objects of lines 20-25 and 69-72 and
      building the arrays of lines 52 and 73; [Ref.table_effect_refs] is
      the rebuild of lines 31-64.  What the grid does with the objects it
      is given is the interface [RowPolicy], with the instances
      [shares_rows] (the rows are the objects of the store) and
      [copies_rows] (the rows are copies).  [Ref.edit] is an edit of a
      cell: with the editor of the column ([editor_of], lines 37-44) it
      writes a field of the row object, and no line of the component runs.
      [Ref.absr] reads the store as values, [vstep] is the run of the
      handlers of [Component.v] on those values.
    - The page over its objects: [PageObjects.v].  [op_of] gives the
      operation on objects an event of the page stands for (the click on
      Add Task with the draft of the render, the click on Delete with the
      position of the clicked row in the data, the response of the seed
      request), [ops_of] the operations of a run.
    - The writers of the store on untyped tasks: [Untyped.v].
      [cellClick_js] is the [filter] of line 52 on the task objects the
      callback builds ([JsTask.t]), with the comparison [!==] of JavaScript
      on their ids ([Js.strict_ne]; the comparison of two arrays or two
      objects depends on their identity and is left undetermined), and
      [handleAddTask_js] is lines 68-73 on the same objects.

    ** How the parts interact

    An event runs a handler with the values of the current render; the
    handler's setter calls are applied after it returns; the component
    re-renders; the effects whose dependencies changed run in the order they
    are declared, a cleanup before its effect.  Every [setTasks] call of the
    source passes a freshly built array ([slice]/[map], [filter], a spread), so
    the [[tasks]] dependency changes at each call and the grid is destroyed
    and rebuilt; [filterStatus] is a string and is compared by value.  The
    grid's [cellClick] closure and its [data] option are the [tasks] of the
    render that built it, which the model keeps in the column ([click_delete
    tasks]), so that a click on a stale table would be visible.  The filter
    effect reaches the table through the registry ([Tabulator.findTable]),
    which returns the first table registered on the element, while the
    element displays the last one built: a table that is not destroyed is
    visible too.  A method call on a missing table throws; the model records
    it in the [crashed] flag of the page, which the invariant shows false.

    The component is mounted once ([Mount], the first commit: the ref is
    attached and the three effects run in order) and removed once
    ([Unmount]: React runs the cleanup of the table effect, lines 60-62, and
    detaches the ref).  No field is added to the page for this: a page is
    fresh when the ref is detached and the request idle, live when the ref
    is attached, removed when the ref is detached and the request has been
    issued.  The request is not cancelled by the removal (the effect of
    lines 16-28 returns no cleanup); when its response arrives afterwards
    the [then] callback still runs ([late (fetch_then data)]), and its
    [setTasks] does nothing, the component being gone; a call of
    [showToast] in it would still put a toast on the page.  The toasts are
    children of [document.body], not of the component: they stay after the removal and
    their timers still remove them.

    ** What the theorems show

    - [Store.v]: what append and remove-by-id do on every store (length,
      membership, order, the ids), when ids stay unique and when they do not
      (the [length + 1] rule collides after a deletion).
    - [Seed.v]: the seed has [min 20 n] tasks, is the image of the first 20
      records, keeps ids and their uniqueness, and only produces statuses of
      the enumeration.
    - [Json.v]: induction on values through arrays and objects, decidable
      equality, the last occurrence of a repeated key wins, the integers
      among the numbers.
    - [Response.v]: the callback throws exactly on a body that is not an
      array or has [null] among its first 20 elements, and otherwise
      returns one task per element with the placeholder description and a
      status Done or To Do, without checking [id] or [title]; on a body
      that decodes it returns the tasks of [Seed.initialTasks], and only
      then are its tasks typed; on the page a failure, a failed parse and
      a throw only settle the request, and a body that decodes seeds the
      store.
    - [Markup.v]: [render] is the projection of the tree; the tree has five
      handlers and the form events of [step] are the firing of each
      followed by a commit; the shape of the tree does not depend on the
      state, the element of the ref has no children of React's, ids are
      distinct, and each select displays one of its options.
    - [Toast.v]: the invariants of the notifications (each toast has exactly
      one timer, due within 3000 ms, in the order of the queue) and their
      preservation.  The lemmas on one toast (stays
      while less than 3000 ms have passed, is gone afterwards, toasts stack)
      carry the theorems of [Scenarios.v] on pages.
    - [Grid.v]: the list instance satisfies the widget laws.
    - [Behaviour.v]: the behaviour of each event on every branch (add with
      and without the required fields, delete with and without unique ids,
      filter, fetch resolved, the form inputs and the round trip of their
      values through the state), and the invariants of reachable pages:
      one live table
      built from the current tasks, valid statuses, toasts paired with
      timers, rows on display drawn from the store.  One theorem states a
      behaviour that differs from the specification: the filter is lost when
      the grid is rebuilt.
    - [Spec.v]: every run of enabled events from a reachable page is matched
      by the run of the abstract machine on the actions the events stand
      for, on the state and on the notices; the rows on display are those of
      the contract, or all the rows.
    - [Scenarios.v]: the end-to-end scenario of the specification (seed 25
      records, add, delete the first), the default status of an added task,
      and the runs on which two tasks get the same id (delete then add; a
      seed whose ids are not 1..n) with what a click on Delete does then
      (it removes both); and on the page, a toast stays on screen for its
      3000 ms whatever events occur meanwhile, and toasts are gone once
      3000 ms have passed and the timers have run.
    - [Similar.v]: an accepted submission followed by the deletion of the
      added row leads to a page similar to the one before, which behaves
      as that page under every later run (the [Proper] instances carry the
      similarity through [step] and [run]).
    - [Lifecycle.v]: the removal releases the table and keeps the state; a
      removed page is inert (after any run it is the page of the removal
      but for the request and the notifications: the callback of a late
      response runs and leaves no trace, its one call being [setTasks]);
      the store never holds more than
      [max 20 n + a] tasks after a run with [a] clicks on Add Task from a
      store of [n], so the ids the rule computes are safe integers.
    - [Objects.v]: for any grid, runs without edits on references are the
      runs of the handlers on values and the table shows the store (the
      value-level files lose nothing by forgetting identity); with a grid
      that keeps its objects an accepted edit
      writes through to the store, an empty title included, and the table
      and the store stay the same array; with a grid that copies, edits
      never reach the store and the next rebuild shows the unedited tasks.
    - [Untyped.v]: on typed tasks the two handlers are those of
      [Component.v]; on the tasks of a response without ids, which all have
      the id [undefined], a click on Delete in any row removes every
      seeded task.
    - [PageObjects.v]: the two levels agree on every run of the page: the
      [tasks] state of [Component.v] after a run of events is the contents
      of the array of references after the operations of the run, and the
      rows of the table on display are the contents of the rows on objects,
      for every grid widget and both policies; with a grid that copies,
      the first holds also when cells are edited between the events.

    Theorems are stated over any grid that satisfies the laws of
    [GridWidget]; their witnesses evaluate them on the instance [ListGrid].

    ** Bounds

    Ids and the clock are [Z]: the source uses JavaScript numbers, and every
    number it computes is an array length plus one or a sum of a timestamp
    and 3000.  The numbers of a response are rationals ([Qc]): the callback
    passes them on and tests them against zero, nothing more; the typed
    model holds the responses whose ids are integers.  [Lifecycle.store_size_bounded] bounds the length of the store
    by the number of submissions plus 20, so the ids computed stay below
    2^53 ([MAX_SAFE_INTEGER]) and no rounding occurs.  No definition needs
    fuel: every loop of the source is a [map], [filter] or [slice] over a
    finite array, and the timer drain recurses on the queue
    ([Toast.run_due]); the one-at-a-time loop of the browser
    ([Toast.fire_next]) reaches the same page within as many turns as there
    are timers ([fire_next_iter]).

    ** Not modelled

    - The network transport of [fetch]: the model starts from a failure or
      a parsed body ([Response.response]); the HTTP exchange, the status of
      the response (which the source does not look at) and the parsing of
      the text are not modelled.
    - What the page looks like: the class names are in the tree of
      [Markup.v] as the strings they are; the style sheets behind them
      (line 3 and the utility classes) are not modelled.
    - Pages whose tasks have an [id] or a [title] that is not an integer
      or a string: the callback builds such tasks from a body that does
      not decode ([Response.seed_callback_outcome]) and [Untyped.v] runs
      the two handlers on them, but the page model has no event for such
      a body ([settle] gives none), its store holding typed tasks; what
      the grid displays for such tasks is Tabulator's business.
    - The internals of Tabulator beyond the interface above: sorting,
      pagination, rendering and the [layout] option of line 35.  The click
      that deletes is the [cellClick] of the Actions column (line 50): the
      event [DeleteClick] is a click in that cell, on the button or beside
      it.
    - Which of the two policies the grid has.  The component registers no
      edit callback and never reads the table's data back, so whether an
      edit reaches the [tasks] array is decided inside Tabulator, whose
      source and version are not part of the repository; the specification
      leaves the same question open.  [Objects.v] proves what follows from
      each answer and does not choose.  Edits are not events of the page
      model ([Component.v]): its theorems hold of pages whose cells are not
      edited, or whose grid copies its data.  In [Objects.v] a row is
      addressed by its position in the table's data; the status filter,
      and whether a row edited out of the selected status stays on
      display, are not part of that file.
    - React's double invocation of effects in development (StrictMode): the
      file that mounts the component is not part of the sources.
    - A second mounting of the component after its removal: React would
      create a new instance with the initial state, which is a run of the
      model from [World.init].

    ** This file

    The shared prelude: the JavaScript notions the components need
    (truthiness of strings, strict equality as a decidable proposition), the
    scope [js_scope], the tactics and the hint database of the development,
    and the lemmas on lists filtered by a key that the store, the grid and
    the notification service share. *)

From stdpp Require Export base tactics strings numbers list.

Declare Scope js_scope.
Delimit Scope js_scope with js.

(** ** JavaScript values used by the component *)

(** [if (s)] on a string: true exactly when the string is not empty. *)
Definition truthy (s : string) : bool := bool_decide (s ≠ "").

(** [a === b] and [a !== b] on values of a type with decidable equality
    (strings and numbers without NaN). *)
Notation "a === b" := (bool_decide (a = b)) (at level 70, no associativity) : js_scope.
Notation "a !== b" := (bool_decide (a ≠ b)) (at level 70, no associativity) : js_scope.

(** [c ? a : b] *)
Notation "c '?:' a '|:' b" := (if c then a else b)
  (at level 90, a at level 89, b at level 89, only parsing) : js_scope.

(** ** Tactics *)

(** Case analysis on every truthiness test in the goal. *)
Ltac case_truthy :=
  repeat match goal with
  | |- context [truthy ?s] => destruct (truthy s) eqn:?
  end.

(** Invert a hypothesis and substitute. *)
Ltac inv_subst H := inversion H; subst; clear H.

(** Turn the boolean tests of the hypotheses into propositions. *)
Ltac reflect_bools :=
  repeat match goal with
  | H : truthy _ = true |- _ => apply bool_decide_eq_true in H
  | H : truthy _ = false |- _ => apply bool_decide_eq_false in H
  | H : bool_decide _ = true |- _ => apply bool_decide_eq_true in H
  | H : bool_decide _ = false |- _ => apply bool_decide_eq_false in H
  | H : _ && _ = true |- _ => apply andb_true_iff in H; destruct H
  | H : _ && _ = false |- _ => apply andb_false_iff in H
  end.

Create HintDb tm discriminated.
Create Rewrite HintDb tm_len.
Create Rewrite HintDb tm_step.

(** ** Truthiness *)

Lemma truthy_true s : truthy s = true ↔ s ≠ "".
Proof. apply bool_decide_eq_true. Qed.

Lemma truthy_false s : truthy s = false ↔ s = "".
Proof.
  unfold truthy. rewrite bool_decide_eq_false.
  destruct (decide (s = "")); naive_solver.
Qed.

Lemma truthy_and a b :
  truthy a && truthy b = true ↔ a ≠ "" ∧ b ≠ "".
Proof. by rewrite andb_true_iff, !truthy_true. Qed.

Lemma truthy_and_false a b :
  truthy a && truthy b = false ↔ a = "" ∨ b = "".
Proof. by rewrite andb_false_iff, !truthy_false. Qed.

(** ** Filters keep what holds of every element *)

Lemma Forall_filter_keep {A} (P Q : A → Prop) `{!∀ x, Decision (P x)} (l : list A) :
  Forall Q l → Forall Q (filter P l).
Proof.
  rewrite !Forall_forall. intros HQ x [_ Hx]%list_elem_of_filter. by apply HQ.
Qed.

(** ** Lists filtered by a key

    [l.filter(x => x.key !== k)] on a list whose elements carry a key. *)

Section keyed.
Context {A K : Type} `{EqDecision K} (key : A → K).
Implicit Types (l : list A) (k : K) (x : A).

Lemma filter_key_elem_of k l x :
  x ∈ filter (λ y, key y ≠ k) l ↔ x ∈ l ∧ key x ≠ k.
Proof. rewrite list_elem_of_filter. tauto. Qed.

Lemma filter_key_absent k l :
  k ∉ key <$> l → filter (λ y, key y ≠ k) l = l.
Proof.
  induction l as [|x l IH]; [done|].
  rewrite fmap_cons, not_elem_of_cons. intros [? ?].
  rewrite filter_cons_True by done. by rewrite IH.
Qed.

Lemma filter_key_fmap k l :
  key <$> filter (λ y, key y ≠ k) l = filter (λ j, j ≠ k) (key <$> l).
Proof.
  induction l as [|x l IH]; [done|].
  rewrite fmap_cons, !filter_cons. case_decide; csimpl; by rewrite IH.
Qed.

Lemma filter_key_gone k l : k ∉ key <$> filter (λ y, key y ≠ k) l.
Proof.
  rewrite list_elem_of_fmap. intros (x & Hk & Hx).
  apply filter_key_elem_of in Hx as [_ Hne]. by apply Hne.
Qed.

Lemma filter_key_NoDup k l :
  NoDup (key <$> l) → NoDup (key <$> filter (λ y, key y ≠ k) l).
Proof. rewrite filter_key_fmap. apply NoDup_filter. Qed.

(** With unique keys, filtering out the key of the element at position [i]
    deletes exactly that position. *)
Lemma filter_key_delete l i x :
  NoDup (key <$> l) → l !! i = Some x →
  filter (λ y, key y ≠ key x) l = delete i l.
Proof.
  revert i. induction l as [|y l IH]; intros i Hnd Hi; [done|].
  rewrite fmap_cons, NoDup_cons in Hnd. destruct Hnd as [Hy Hnd].
  destruct i as [|i]; simplify_eq/=.
  - rewrite filter_cons_False by naive_solver. by apply filter_key_absent.
  - rewrite filter_cons_True.
    + by rewrite (IH i).
    + intros Heq. apply Hy. rewrite Heq. apply list_elem_of_fmap_2.
      by eapply list_elem_of_lookup_2.
Qed.

Lemma filter_key_length l x :
  NoDup (key <$> l) → x ∈ l →
  S (length (filter (λ y, key y ≠ key x) l)) = length l.
Proof.
  intros Hnd [i Hi]%list_elem_of_lookup_1.
  rewrite (filter_key_delete l i x) by done.
  rewrite length_delete by eauto. apply lookup_lt_Some in Hi. lia.
Qed.

(** Filtering out a key drops every element that carries it: two of them
    at different positions shorten the list by two at least. *)
Lemma filter_key_skip k l i x :
  l !! i = Some x → key x = k →
  filter (λ y, key y ≠ k) l = filter (λ y, key y ≠ k) (delete i l).
Proof.
  revert i. induction l as [|y l IH]; intros i Hi Hk; [done|].
  destruct i as [|i]; simplify_eq/=; [by rewrite filter_cons_False by naive_solver|].
  by rewrite !filter_cons, (IH i).
Qed.

Lemma filter_key_length_two k l i j x y :
  i ≠ j → l !! i = Some x → l !! j = Some y → key x = k → key y = k →
  length (filter (λ z, key z ≠ k) l) + 2 ≤ length l.
Proof.
  intros Hij Hi Hj Hx Hy. rewrite (filter_key_skip k l i x) by done.
  assert (y ∈ delete i l) as Hin.
  { destruct (decide (j < i)) as [Hlt|Hge].
    - apply (list_elem_of_lookup_2 _ j). by rewrite list_lookup_delete_lt.
    - apply (list_elem_of_lookup_2 _ (pred j)). rewrite list_lookup_delete_ge by lia.
      by replace (S (pred j)) with j by lia. }
  pose proof (length_filter_lt (λ z, key z ≠ k) _ y Hin) as Hlt.
  pose proof (length_delete l i (ex_intro _ x Hi)) as Hd.
  apply lookup_lt_Some in Hi. naive_solver lia.
Qed.

Lemma filter_key_idemp k l :
  filter (λ y, key y ≠ k) (filter (λ y, key y ≠ k) l) = filter (λ y, key y ≠ k) l.
Proof. apply filter_key_absent, filter_key_gone. Qed.

End keyed.

(** Out of range, [alter] leaves the list as it is. *)
Lemma list_alter_ge {A} (f : A → A) (l : list A) (i : nat) :
  length l ≤ i → alter f i l = l.
Proof.
  intros Hi. apply list_eq. intros j. rewrite list_lookup_alter.
  case_decide; [subst; by rewrite lookup_ge_None_2|done].
Qed.

#[export] Hint Resolve filter_key_gone filter_key_NoDup : tm.
#[export] Hint Rewrite @length_app @length_take @length_fmap : tm_len.
