(* ===== verification/Data.v ===== *)
(** * Data model of [TaskManager.jsx]

    The three object shapes the component handles, each a record in a module
    of its own so that fields keep the names of the source: [Task.t] (an
    element of the [tasks] array), [Draft.t] (the [newTask] form state) and
    [Todo.t] (a record of the remote API), and [Status], the three status
    strings.  Statuses stay strings, as in the source: that every status in
    the store is one of the three is an invariant, proved in [Store.v],
    [Seed.v] and [Invariant.v]. *)

From S2P Require Import Prelude.

(** ** Statuses *)

Module Status.

(** The values offered by the grid's select editor (line 44) and by the
    form's select (lines 127-129). *)
Definition values : list string := ["To Do"; "In Progress"; "Done"].

(** The options of the filter select (lines 150-153): "All" has the empty
    value. *)
Definition filter_values : list string := [""; "To Do"; "In Progress"; "Done"].

Definition valid (s : string) : Prop := s ∈ values.

#[global] Instance valid_dec s : Decision (valid s).
Proof. unfold valid. apply _. Defined.

End Status.

(** ** Tasks *)

Module Task.

(** The object literal of lines 20-25 and 69-72. *)
Record t := mk {
  id : Z;
  title : string;
  description : string;
  status : string
}.

#[global] Instance eq_dec : EqDecision t.
Proof. solve_decision. Defined.

(** The data invariant of the specification on one task. *)
Definition wf (task : t) : Prop := Status.valid (status task).

#[global] Instance wf_dec task : Decision (wf task).
Proof. unfold wf. apply _. Defined.

End Task.

(** ** The form's draft *)

Module Draft.

(** The state object of lines 9-13. *)
Record t := mk {
  title : string;
  description : string;
  status : string
}.

#[global] Instance eq_dec : EqDecision t.
Proof. solve_decision. Defined.

(** [{ title: '', description: '', status: 'To Do' }] (lines 9-13 and 74). *)
Definition blank : t :=
  {| title := ""; description := ""; status := "To Do" |}.

(** [{ ...newTask, title: v }] (line 113). *)
Definition with_title (v : string) (newTask : t) : t :=
  {| title := v; description := description newTask; status := status newTask |}.

(** [{ ...newTask, description: v }] (line 120). *)
Definition with_description (v : string) (newTask : t) : t :=
  {| title := title newTask; description := v; status := status newTask |}.

(** [{ ...newTask, status: v }] (line 125). *)
Definition with_status (v : string) (newTask : t) : t :=
  {| title := title newTask; description := description newTask; status := v |}.

(** [{ id: n, ...newTask }] (lines 69-72): the draft has no [id] key, so
    the spread leaves [id] as given. *)
Definition to_task (n : Z) (newTask : t) : Task.t :=
  {| Task.id := n;
     Task.title := title newTask;
     Task.description := description newTask;
     Task.status := status newTask |}.

Definition wf (newTask : t) : Prop := Status.valid (status newTask).

#[global] Instance wf_dec d : Decision (wf d).
Proof. unfold wf. apply _. Defined.

End Draft.

(** ** Records of the remote API *)

Module Todo.

(** The fields the seed loader reads (lines 21, 22 and 24). *)
Record t := mk {
  id : Z;
  title : string;
  completed : bool
}.

#[global] Instance eq_dec : EqDecision t.
Proof. solve_decision. Defined.

End Todo.

(** ** Facts *)

Lemma Status_valid_iff s :
  Status.valid s ↔ s = "To Do" ∨ s = "In Progress" ∨ s = "Done".
Proof.
  unfold Status.valid, Status.values.
  rewrite !elem_of_cons, elem_of_nil. tauto.
Qed.

Lemma Status_values_NoDup : NoDup Status.values.
Proof. apply (bool_decide_unpack _). by vm_compute. Qed.

Lemma Status_filter_values_spec s :
  s ∈ Status.filter_values ↔ s = "" ∨ Status.valid s.
Proof.
  rewrite Status_valid_iff. unfold Status.filter_values.
  rewrite !elem_of_cons, elem_of_nil. tauto.
Qed.

Lemma Status_valid_truthy s : Status.valid s → truthy s = true.
Proof.
  rewrite Status_valid_iff, truthy_true. by intros [->|[->| ->]].
Qed.

Lemma Draft_blank_wf : Draft.wf Draft.blank.
Proof. apply (bool_decide_unpack _). by vm_compute. Qed.

Lemma Draft_to_task_wf n d : Task.wf (Draft.to_task n d) ↔ Draft.wf d.
Proof. done. Qed.

Lemma Draft_with_title_wf v d : Draft.wf (Draft.with_title v d) ↔ Draft.wf d.
Proof. done. Qed.

Lemma Draft_with_description_wf v d :
  Draft.wf (Draft.with_description v d) ↔ Draft.wf d.
Proof. done. Qed.

Lemma Draft_with_status_wf v d :
  Draft.wf (Draft.with_status v d) ↔ Status.valid v.
Proof. done. Qed.

#[export] Hint Resolve Draft_blank_wf : tm.
