(* ===== verification/Store.v ===== *)
(** * The Task Store

    The store is the array held by [const [tasks, setTasks] = useState([])]
    (line 7).  The source never mutates it in place: each writer builds a new
    array and passes it to [setTasks].  The seed replaces the array (line
    26, in [Component.v]); the two writers that compute the new array from
    the old one are [remove_by_id] (line 52) and [append_one] (line 73), and
    [next_id] is the id rule of line 70.  The data model of the
    specification asks for unique ids ([unique_ids]) and statuses of the
    enumeration ([wf]); [dense] is the shape of a store the id rule is made
    for, and the theorem at the end shows where the rule holds and where it
    breaks. *)

From S2P Require Import Prelude Data.

Module Store.

(** [useState([])] (line 7). *)
Definition empty : list Task.t := [].

(** [tasks.length + 1] (line 70). *)
Definition next_id (tasks : list Task.t) : Z := Z.of_nat (length tasks) + 1.

(** [[...tasks, task]] (line 73). *)
Definition append_one (task : Task.t) (tasks : list Task.t) : list Task.t := tasks ++ [task].

(** [tasks.filter((task) => task.id !== k)] (line 52). *)
Definition remove_by_id (k : Z) (tasks : list Task.t) : list Task.t :=
  filter (λ task, Task.id task ≠ k) tasks.

(** The ids in store order. *)
Definition ids (tasks : list Task.t) : list Z := Task.id <$> tasks.

(** The invariants of the specification's data model. *)
Definition unique_ids (tasks : list Task.t) : Prop := NoDup (ids tasks).
Definition wf (tasks : list Task.t) : Prop := Forall Task.wf tasks.

(** Ids are exactly [1..n] in order: what a seed from the remote API gives,
    and what [append_one] with [next_id] maintains. *)
Definition dense (tasks : list Task.t) : Prop :=
  ids tasks = Z.of_nat <$> seq 1 (length tasks).

#[global] Instance unique_ids_dec tasks : Decision (unique_ids tasks).
Proof. unfold unique_ids. apply _. Defined.

#[global] Instance wf_dec tasks : Decision (wf tasks).
Proof. unfold wf. apply _. Defined.

#[global] Instance dense_dec tasks : Decision (dense tasks).
Proof. unfold dense. apply _. Defined.

End Store.

(** ** Append *)

Section append.
Implicit Types (tasks : list Task.t) (task : Task.t).

Lemma append_one_length task tasks :
  length (Store.append_one task tasks) = S (length tasks).
Proof. unfold Store.append_one. rewrite length_app. simpl. lia. Qed.

Lemma append_one_lookup_old task tasks i :
  i < length tasks → Store.append_one task tasks !! i = tasks !! i.
Proof. intros. by apply lookup_app_l. Qed.

Lemma append_one_lookup_new task tasks :
  Store.append_one task tasks !! length tasks = Some task.
Proof. unfold Store.append_one. by rewrite list_lookup_middle. Qed.

Lemma append_one_elem_of task tasks x :
  x ∈ Store.append_one task tasks ↔ x ∈ tasks ∨ x = task.
Proof. unfold Store.append_one. rewrite elem_of_app, list_elem_of_singleton. tauto. Qed.

Lemma append_one_ids task tasks :
  Store.ids (Store.append_one task tasks) = Store.ids tasks ++ [Task.id task].
Proof. unfold Store.ids, Store.append_one. by rewrite fmap_app. Qed.

Lemma append_one_wf task tasks :
  Store.wf (Store.append_one task tasks) ↔ Store.wf tasks ∧ Task.wf task.
Proof.
  unfold Store.wf, Store.append_one.
  by rewrite Forall_app, Forall_singleton.
Qed.

Lemma append_one_unique task tasks :
  Store.unique_ids (Store.append_one task tasks) ↔
  Store.unique_ids tasks ∧ Task.id task ∉ Store.ids tasks.
Proof.
  unfold Store.unique_ids. rewrite append_one_ids, NoDup_app.
  split.
  - intros (? & Hd & _). split; [done|]. intros Hin. apply (Hd _ Hin). by apply list_elem_of_singleton.
  - intros [? Hn]. split_and!; [done| |apply NoDup_singleton].
    intros x Hx ->%list_elem_of_singleton. done.
Qed.

End append.

(** ** Remove by id *)

Section remove.
Implicit Types (tasks : list Task.t) (task : Task.t) (k : Z).

Lemma remove_by_id_elem_of k tasks x :
  x ∈ Store.remove_by_id k tasks ↔ x ∈ tasks ∧ Task.id x ≠ k.
Proof. apply filter_key_elem_of. Qed.

Lemma remove_by_id_sublist k tasks :
  Store.remove_by_id k tasks `sublist_of` tasks.
Proof. apply sublist_filter. Qed.

Lemma remove_by_id_gone k tasks : k ∉ Store.ids (Store.remove_by_id k tasks).
Proof. apply (filter_key_gone Task.id). Qed.

Lemma remove_by_id_absent k tasks :
  k ∉ Store.ids tasks → Store.remove_by_id k tasks = tasks.
Proof. apply (filter_key_absent Task.id). Qed.

Lemma remove_by_id_append_new task tasks :
  Task.id task ∉ Store.ids tasks →
  Store.remove_by_id (Task.id task) (Store.append_one task tasks) = tasks.
Proof.
  intros Hfresh. unfold Store.remove_by_id, Store.append_one.
  rewrite filter_app, filter_cons_False, filter_nil, app_nil_r by naive_solver.
  by apply remove_by_id_absent.
Qed.

Lemma remove_by_id_unique k tasks :
  Store.unique_ids tasks → Store.unique_ids (Store.remove_by_id k tasks).
Proof. apply (filter_key_NoDup Task.id). Qed.

Lemma remove_by_id_wf k tasks :
  Store.wf tasks → Store.wf (Store.remove_by_id k tasks).
Proof. apply Forall_filter_keep. Qed.

Lemma remove_by_id_delete tasks i task :
  Store.unique_ids tasks → tasks !! i = Some task →
  Store.remove_by_id (Task.id task) tasks = delete i tasks.
Proof. apply (filter_key_delete Task.id). Qed.

Lemma remove_by_id_length tasks task :
  Store.unique_ids tasks → task ∈ tasks →
  S (length (Store.remove_by_id (Task.id task) tasks)) = length tasks.
Proof. apply (filter_key_length Task.id). Qed.

Lemma remove_by_id_ids k tasks :
  Store.ids (Store.remove_by_id k tasks) = filter (λ j, j ≠ k) (Store.ids tasks).
Proof. apply (filter_key_fmap Task.id). Qed.

End remove.

(** ** Dense stores and the id rule *)

Section dense.
Implicit Types (tasks : list Task.t) (task : Task.t) (k : Z).

Lemma dense_elem_of tasks k :
  Store.dense tasks → k ∈ Store.ids tasks ↔ (1 ≤ k ≤ Z.of_nat (length tasks))%Z.
Proof.
  intros ->. rewrite list_elem_of_fmap. setoid_rewrite elem_of_seq. split.
  - intros (n & -> & ?). lia.
  - intros ?. exists (Z.to_nat k). lia.
Qed.

Lemma dense_unique tasks : Store.dense tasks → Store.unique_ids tasks.
Proof.
  unfold Store.unique_ids. intros ->.
  apply NoDup_fmap_2; [apply Nat2Z.inj'|apply NoDup_seq].
Qed.

Lemma dense_next_id_fresh tasks :
  Store.dense tasks → Store.next_id tasks ∉ Store.ids tasks.
Proof. intros Hd. rewrite (dense_elem_of _ _ Hd). unfold Store.next_id. lia. Qed.

Lemma dense_append tasks d :
  Store.dense tasks →
  Store.dense (Store.append_one (Draft.to_task (Store.next_id tasks) d) tasks).
Proof.
  unfold Store.dense. intros Hd.
  rewrite append_one_ids, append_one_length, seq_S, fmap_app, <-Hd. simpl.
  unfold Store.next_id. do 2 f_equal. lia.
Qed.

(** After the deletion of any task but the last of a dense store, the id
    rule of line 70 yields an id that is still in the store. *)
Lemma next_id_collides tasks k :
  Store.dense tasks → (1 ≤ k < Z.of_nat (length tasks))%Z →
  Store.next_id (Store.remove_by_id k tasks) ∈ Store.ids (Store.remove_by_id k tasks).
Proof.
  intros Hd Hk.
  assert (Hlen : S (length (Store.remove_by_id k tasks)) = length tasks).
  { assert (k ∈ Store.ids tasks) as (task & -> & Hin)%list_elem_of_fmap
      by (apply dense_elem_of; [done|lia]).
    apply remove_by_id_length; [by apply dense_unique|done]. }
  rewrite remove_by_id_ids, list_elem_of_filter. unfold Store.next_id. split; [lia|].
  apply dense_elem_of; [done|lia].
Qed.
End dense.

(** ** Properties of the store *)

(** Removing by id from a store whose ids are unique removes exactly the
    entry at the position of the task with that id: the result is the store
    before that position followed by the store after it, so every other task
    keeps its fields and its place relative to the others, and the length
    drops by one. *)
Lemma store_remove_exactly_one (tasks : list Task.t) (i : nat) (task : Task.t) :
  Store.unique_ids tasks → tasks !! i = Some task →
  Store.remove_by_id (Task.id task) tasks = take i tasks ++ drop (S i) tasks
  ∧ S (length (Store.remove_by_id (Task.id task) tasks)) = length tasks
  ∧ Task.id task ∉ Store.ids (Store.remove_by_id (Task.id task) tasks).
Proof.
  intros Hu Hi. split_and!.
  - rewrite (remove_by_id_delete _ i) by done. apply delete_take_drop.
  - apply remove_by_id_length; [done|]. by eapply list_elem_of_lookup_2.
  - apply remove_by_id_gone.
Qed.

(** C2: The id rule [tasks.length + 1] is safe without deletions and not
    after one.  Appending a task with the next id to a store with ids 1..n
    gives a store with ids 1..n+1, so ids stay unique.  After the deletion
    of any task but the last, the ids are still unique but the next id is
    already the id of a task of the store, so the append that follows breaks
    the uniqueness of ids. *)
Theorem store_id_rule_collides (tasks : list Task.t) (k : Z) (d : Draft.t) :
  Store.dense tasks → (1 ≤ k < Z.of_nat (length tasks))%Z →
  let tasks' := Store.remove_by_id k tasks in
  Store.dense (Store.append_one (Draft.to_task (Store.next_id tasks) d) tasks)
  ∧ Store.unique_ids tasks'
  ∧ ¬ Store.unique_ids (Store.append_one (Draft.to_task (Store.next_id tasks') d) tasks').
Proof.
  intros Hd Hk tasks'. split_and!.
  - by apply dense_append.
  - by apply remove_by_id_unique, dense_unique.
  - rewrite append_one_unique. intros [_ Hfresh]. apply Hfresh.
    by apply next_id_collides.
Qed.

Lemma store_id_rule_collides_witness :
  let tasks := [Task.mk 1 "a" "x" "To Do"; Task.mk 2 "b" "y" "Done"; Task.mk 3 "c" "z" "To Do"] in
  ¬ Store.unique_ids
      (Store.append_one (Draft.to_task 3 Draft.blank) (Store.remove_by_id 1 tasks)).
Proof.
  intros tasks.
  exact (proj2 (proj2 (store_id_rule_collides tasks 1 Draft.blank
    ltac:(apply (bool_decide_unpack _); by vm_compute) ltac:(simpl; lia)))).
Defined.

