(* ===== verification/Seed.v ===== *)
(** * The Remote Seed Loader

    The first effect of the component (lines 16-28) requests the todo list of
    a fixed endpoint once, on mount, and on success replaces the store by the
    image of the first 20 records.  This file holds the mapping ([seed_task],
    [initialTasks]) and what it guarantees of the seeded store; the effect
    itself and the two outcomes of the request are in [Component.v]. *)

From S2P Require Import Prelude Data Store.

Module Seed.

(** The arrow function of lines 20-25. *)
Definition seed_task (task : Todo.t) : Task.t :=
  {| Task.id := Todo.id task;
     Task.title := Todo.title task;
     Task.description := "No description provided";
     Task.status := if Todo.completed task then "Done" else "To Do" |}.

(** [data.slice(0, 20).map(...)] (lines 20-25). *)
Definition initialTasks (data : list Todo.t) : list Task.t :=
  seed_task <$> take 20 data.

End Seed.

(** ** Helper lemmas *)

Section seed.
Implicit Types (data : list Todo.t) (task : Todo.t).

Lemma seed_task_wf task : Task.wf (Seed.seed_task task).
Proof.
  unfold Task.wf. apply Status_valid_iff. simpl.
  destruct (Todo.completed task); auto.
Qed.

Lemma initialTasks_length data :
  length (Seed.initialTasks data) = 20 `min` length data.
Proof. unfold Seed.initialTasks. by rewrite length_fmap, length_take. Qed.

Lemma initialTasks_lookup data i :
  Seed.initialTasks data !! i =
  if decide (i < 20) then Seed.seed_task <$> data !! i else None.
Proof.
  unfold Seed.initialTasks. rewrite list_lookup_fmap.
  case_decide; [by rewrite lookup_take_lt|by rewrite lookup_take_ge by lia].
Qed.

Lemma initialTasks_ids data :
  Store.ids (Seed.initialTasks data) = take 20 (Todo.id <$> data).
Proof.
  unfold Store.ids, Seed.initialTasks.
  by rewrite <-list_fmap_compose, fmap_take.
Qed.

Lemma initialTasks_wf data : Store.wf (Seed.initialTasks data).
Proof.
  unfold Store.wf, Seed.initialTasks. apply Forall_fmap, Forall_true.
  intros task. apply seed_task_wf.
Qed.

Lemma initialTasks_unique data :
  NoDup (Todo.id <$> data) → Store.unique_ids (Seed.initialTasks data).
Proof.
  unfold Store.unique_ids. rewrite initialTasks_ids.
  intros Hnd. eapply sublist_NoDup; [done|apply sublist_take].
Qed.

Lemma initialTasks_dense data :
  Todo.id <$> data = Z.of_nat <$> seq 1 (length data) →
  Store.dense (Seed.initialTasks data).
Proof.
  unfold Store.dense. rewrite initialTasks_ids, initialTasks_length. intros ->.
  rewrite <-fmap_take. f_equal. apply take_seq.
Qed.

End seed.

#[export] Hint Resolve initialTasks_wf seed_task_wf : tm.

(** ** Properties of the seed *)

(** C3: The seeded store holds the first 20 records and no more: its length
    is the smaller of 20 and the number of records received, and its i-th
    task, for i below 20, is the image of the i-th record: the same id and
    title, the placeholder description, and status Done when the record is
    completed and To Do when it is not.  So every task of a seeded store has
    a status of the enumeration, the ids of the store are the ids of the
    first 20 records in order, and when the remote ids are distinct, so are
    the ids of the store. *)
Theorem seed_first_twenty (data : list Todo.t) :
  length (Seed.initialTasks data) = 20 `min` length data
  ∧ (∀ i task, i < 20 → data !! i = Some task →
      Seed.initialTasks data !! i =
        Some {| Task.id := Todo.id task;
                Task.title := Todo.title task;
                Task.description := "No description provided";
                Task.status := if Todo.completed task then "Done" else "To Do" |})
  ∧ Store.wf (Seed.initialTasks data)
  ∧ Store.ids (Seed.initialTasks data) = take 20 (Todo.id <$> data)
  ∧ (NoDup (Todo.id <$> data) → Store.unique_ids (Seed.initialTasks data)).
Proof.
  split_and!;
    [apply initialTasks_length| |apply initialTasks_wf|apply initialTasks_ids
    |apply initialTasks_unique].
  intros i task Hi Hl. rewrite initialTasks_lookup, decide_True, Hl; done.
Qed.
