(* ===== verification/Json.v ===== *)
(** * JavaScript values, as the seed callback meets them

    The [then] callback of the seed request (lines 19-27) receives whatever
    [response.json()] produced: any JSON value.  It calls [slice] and [map]
    on it, reads the properties [id], [title] and [completed] of each
    element and tests the last for truthiness.  This file holds the values
    and exactly those operations, with what JavaScript does on every value:

    - [Js.value]: the values [JSON.parse] builds, and [undefined], which a
      read of a missing property gives;
    - [Js.truthy]: the test of a conditional ([ToBoolean]);
    - [Js.own] and [Js.get]: a property read [v.key];
    - [Js.slice] and [Js.map]: the two methods the callback calls;
    - [Js.strict_eq]: the comparison [===], which the delete handler makes
      on the ids (line 52).

    An operation that throws a [TypeError] returns [None]; so does a
    comparison the values do not determine (two arrays or two objects are
    equal when they are one object, and values carry no identity).
    Numbers are
    rationals: the callback does no arithmetic, it passes a number on and
    tests it against zero.  The infinity a literal out of range parses to
    is not a value of its own here: for the callback it is one more number
    that is neither zero nor an integer. *)

From Stdlib Require Import QArith Qcanon.
From S2P Require Import Prelude.

Module Js.

Unset Elimination Schemes.

Inductive value :=
| undefined
| null
| boolean (b : bool)
| number (q : Qc)
| text (s : string)
| array (vs : list value)
| object (fields : list (string * value)).

Set Elimination Schemes.

(** [ToBoolean]: [undefined], [null], [false], zero and the empty string
    are falsy, every other value is truthy (arrays and objects included,
    empty or not). *)
Definition truthy (v : value) : bool :=
  match v with
  | undefined | null => false
  | boolean b => b
  | number q => bool_decide (q ≠ 0%Qc)
  | text s => Prelude.truthy s
  | array _ | object _ => true
  end.

(** The own property [key] of an object built by [JSON.parse]: when the
    text repeats a key the last occurrence is the one kept. *)
Definition own (key : string) (fields : list (string * value)) : option value :=
  snd <$> last (filter (λ kv, kv.1 = key) fields).

(** [v.key], for a key that no prototype defines ([id], [title] and
    [completed] are such keys): reading a property of [undefined] or
    [null] throws, a missing property reads as [undefined]. *)
Definition get (key : string) (v : value) : option value :=
  match v with
  | undefined | null => None
  | object fields => Some (default undefined (own key fields))
  | _ => Some undefined
  end.

(** [v.slice(0, n)]: a method of arrays and of strings; any other value
    has no [slice], and calling it throws. *)
Definition slice (n : nat) (v : value) : option value :=
  match v with
  | array vs => Some (array (take n vs))
  | text s => Some (text (String.substring 0 n s))
  | _ => None
  end.

(** [v.map(f)]: a method of arrays only.  The callback runs on the
    elements in order and the first throw ends the call. *)
Definition map {A} (f : value → option A) (v : value) : option (list A) :=
  match v with
  | array vs => mapM f vs
  | _ => None
  end.

(** The integer a number is, if it is one. *)
Definition int_of (q : Qc) : option Z :=
  if decide (Qden q = 1%positive) then Some (Qnum q) else None.

(** Structural equality of values. *)
Fixpoint eqb (x y : value) : bool :=
  match x, y with
  | undefined, undefined | null, null => true
  | boolean a, boolean b => bool_decide (a = b)
  | number p, number q => bool_decide (p = q)
  | text s, text t => bool_decide (s = t)
  | array xs, array ys =>
      (fix go xs ys :=
         match xs, ys with
         | [], [] => true
         | x :: xs, y :: ys => eqb x y && go xs ys
         | _, _ => false
         end) xs ys
  | object fs, object gs =>
      (fix go fs gs :=
         match fs, gs with
         | [], [] => true
         | (k, x) :: fs, (l, y) :: gs => bool_decide (k = l) && eqb x y && go fs gs
         | _, _ => false
         end) fs gs
  | _, _ => false
  end.

Definition is_array (v : value) : bool :=
  match v with array _ => true | _ => false end.

(** The values on which a property read throws. *)
Definition nullish (v : value) : bool :=
  match v with undefined | null => true | _ => false end.

(** [a === b]: values of different types are not equal; [undefined],
    [null], booleans, numbers and strings are equal when they are the same
    value; an array or an object is equal to itself only, which the
    contents of two of them do not tell. *)
Definition strict_eq (a b : value) : option bool :=
  match a, b with
  | array _, array _ | object _, object _ => None
  | _, _ => Some (eqb a b)
  end.

(** [a !== b] *)
Definition strict_ne (a b : value) : option bool := negb <$> strict_eq a b.

End Js.

Arguments Js.int_of : simpl never.

(** ** Induction on values *)

Section value_ind.
Variable P : Js.value → Prop.
Hypothesis Hundefined : P Js.undefined.
Hypothesis Hnull : P Js.null.
Hypothesis Hboolean : ∀ b, P (Js.boolean b).
Hypothesis Hnumber : ∀ q, P (Js.number q).
Hypothesis Htext : ∀ s, P (Js.text s).
Hypothesis Harray : ∀ vs, Forall P vs → P (Js.array vs).
Hypothesis Hobject : ∀ fields, Forall (λ kv, P kv.2) fields → P (Js.object fields).

Fixpoint value_ind (v : Js.value) : P v :=
  match v with
  | Js.undefined => Hundefined
  | Js.null => Hnull
  | Js.boolean b => Hboolean b
  | Js.number q => Hnumber q
  | Js.text s => Htext s
  | Js.array vs =>
      Harray vs ((fix go vs : Forall P vs :=
        match vs with
        | [] => Forall_nil_2 P
        | v :: vs => Forall_cons_2 P v vs (value_ind v) (go vs)
        end) vs)
  | Js.object fields =>
      Hobject fields ((fix go fields : Forall (λ kv, P kv.2) fields :=
        match fields with
        | [] => Forall_nil_2 _
        | kv :: fields => Forall_cons_2 (λ kv, P kv.2) kv fields (value_ind kv.2) (go fields)
        end) fields)
  end.

End value_ind.

(** ** Decidable equality *)

Lemma eqb_eq (x y : Js.value) : Js.eqb x y = true ↔ x = y.
Proof.
  revert y. induction x as [| |b|q|s|vs IH|fields IH] using value_ind;
    intros [| |b'|q'|s'|vs'|fields']; simpl; try done;
    rewrite ?bool_decide_eq_true; try (split; congruence).
  - revert vs'. induction IH as [|v vs Hv _ IHvs]; intros [|v' vs']; try done.
    rewrite andb_true_iff, Hv, IHvs. split; [by intros [-> [= ->]]|by intros [= -> ->]].
  - revert fields'. induction IH as [|[k v] fields Hv _ IHfs]; intros [|[k' v'] fields'];
      try done.
    simpl in Hv. rewrite !andb_true_iff, bool_decide_eq_true, Hv, IHfs.
    split; [by intros [[-> ->] [= ->]]|by intros [= -> -> ->]].
Qed.

#[global] Instance value_eq_dec : EqDecision Js.value.
Proof.
  refine (λ x y, cast_if (decide (Js.eqb x y = true))); by rewrite <-eqb_eq.
Defined.

(** ** Facts *)

Section facts.
Implicit Types (v : Js.value) (vs : list Js.value) (key : string).

Lemma int_of_Z (z : Z) : Js.int_of (Qc_of_Z z) = Some z.
Proof. done. Qed.

Lemma int_of_Some (q : Qc) (z : Z) : Js.int_of q = Some z → q = Qc_of_Z z.
Proof.
  unfold Js.int_of. case_decide as Hd; [|done]. intros [= <-].
  apply Qc_is_canon. destruct q as [[n d] Hq]. simpl in *. by subst d.
Qed.

(** Zero is the one falsy number. *)
Lemma truthy_number (z : Z) : Js.truthy (Js.number (Qc_of_Z z)) = bool_decide (z ≠ 0%Z).
Proof.
  simpl. apply bool_decide_ext. split; intros Hz Hq; apply Hz.
  - subst. by apply Qc_is_canon.
  - by apply (f_equal (λ q : Qc, Qnum q)) in Hq.
Qed.

Lemma own_nil key : Js.own key [] = None.
Proof. done. Qed.

Lemma own_singleton key v : Js.own key [(key, v)] = Some v.
Proof. unfold Js.own. rewrite filter_cons, decide_True by done. done. Qed.

(** A later occurrence of the key hides the earlier ones. *)
Lemma own_app_last key v fields : Js.own key (fields ++ [(key, v)]) = Some v.
Proof.
  unfold Js.own. rewrite filter_app, filter_cons, decide_True, filter_nil by done.
  by rewrite last_snoc.
Qed.

Lemma own_cons_ne key k v fields :
  k ≠ key → Js.own key ((k, v) :: fields) = Js.own key fields.
Proof. intros. unfold Js.own. by rewrite filter_cons, decide_False. Qed.

Lemma get_None key v : Js.get key v = None ↔ Js.nullish v.
Proof. by destruct v. Qed.

Lemma get_object key fields :
  Js.get key (Js.object fields) = Some (default Js.undefined (Js.own key fields)).
Proof. done. Qed.

(** Every value but [undefined] differs from it, arrays and objects
    included. *)
Lemma strict_eq_undefined v : Js.strict_eq v Js.undefined = Some (bool_decide (v = Js.undefined)).
Proof. by destruct v. Qed.

(** [slice] then [map], the chain of line 20, returns on arrays only. *)
Lemma slice_map {A} (f : Js.value → option A) n v :
  Js.slice n v ≫= Js.map f =
  match v with
  | Js.array vs => mapM f (take n vs)
  | _ => None
  end.
Proof. by destruct v. Qed.

End facts.
