(* ===== verification/Toast.v ===== *)
(** * The Notification Service

    [showToast] (lines 94-100) creates a [div], gives it a fixed class and the
    message as text, appends it to [document.body] and asks the browser to
    remove it 3000 ms later.  The model keeps the part of the page those lines
    touch: the toast nodes that are children of [document.body], the queue of
    pending timeouts, the clock, and the log of [alert] dialogs (line 77).

    The browser's part is [tick] (time passes), [fire_next] (the event loop
    runs the callback of the oldest pending timeout once it is due) and
    [run_due] (it runs every timeout that is due).  All timeouts of the page
    have the same delay, so the queue in creation order is also in order of
    due time; [ok] states this with the other invariants of the page. *)

From stdpp Require Import sorting.
From S2P Require Import Prelude.

Module Toast.

(** The element built by lines 95-97; [node_id] is the identity of the DOM
    node. *)
Record node := mk_node {
  node_id : nat;
  className : string;
  innerText : string
}.

(** A pending [setTimeout(() => toast.remove(), 3000)] (line 99): the node
    its callback removes and the time from which it may run. *)
Record timer := mk_timer {
  target : nat;
  due : Z
}.

Record dom := mk_dom {
  body : list node;      (* the toasts in document.body, in document order *)
  timers : list timer;   (* pending timeouts, oldest first *)
  now : Z;               (* the clock, in ms *)
  next_node : nat;       (* identity of the next element created *)
  alerts : list string   (* messages of the alert dialogs shown, oldest first *)
}.

#[global] Instance node_eq_dec : EqDecision node.
Proof. solve_decision. Defined.
#[global] Instance timer_eq_dec : EqDecision timer.
Proof. solve_decision. Defined.
#[global] Instance dom_eq_dec : EqDecision dom.
Proof. solve_decision. Defined.

(** The page before the component has shown anything. *)
Definition empty : dom :=
  {| body := []; timers := []; now := 0; next_node := 0; alerts := [] |}.

(** Line 96. *)
Definition toast_class : string :=
  "fixed top-4 right-4 bg-green-500 text-white px-4 py-2 rounded shadow".

(** The delay of line 99. *)
Definition duration : Z := 3000.

(** [toast.remove()]: detach the node from its parent; nothing happens when
    it is not attached. *)
Definition remove (n : nat) (b : list node) : list node :=
  filter (λ x, node_id x ≠ n) b.

(** [showToast(message)] (lines 94-100). *)
Definition showToast (message : string) (d : dom) : dom :=
  let toast :=
    {| node_id := next_node d; className := toast_class; innerText := message |} in
  {| body := body d ++ [toast];
     timers := timers d ++ [{| target := node_id toast; due := now d + duration |}];
     now := now d;
     next_node := S (next_node d);
     alerts := alerts d |}.

(** [alert(message)] (line 77). *)
Definition alert (message : string) (d : dom) : dom :=
  {| body := body d; timers := timers d; now := now d;
     next_node := next_node d; alerts := alerts d ++ [message] |}.

(** Time passes: the clock never goes back. *)
Definition tick (ms : Z) (d : dom) : dom :=
  {| body := body d; timers := timers d; now := now d + Z.max 0 ms;
     next_node := next_node d; alerts := alerts d |}.

(** The event loop runs the oldest pending timeout if it is due. *)
Definition fire_next (d : dom) : dom :=
  match timers d with
  | tm :: rest =>
      if decide (due tm ≤ now d)%Z
      then {| body := remove (target tm) (body d); timers := rest; now := now d;
              next_node := next_node d; alerts := alerts d |}
      else d
  | [] => d
  end.

(** The timeouts that are due at [t], run in queue order. *)
Fixpoint run_timers (t : Z) (ts : list timer) (b : list node) : list timer * list node :=
  match ts with
  | [] => ([], b)
  | tm :: rest =>
      if decide (due tm ≤ t)%Z then run_timers t rest (remove (target tm) b)
      else (tm :: rest, b)
  end.

(** The event loop runs every timeout that is due. *)
Definition run_due (d : dom) : dom :=
  let r := run_timers (now d) (timers d) (body d) in
  {| body := r.2; timers := r.1; now := now d;
     next_node := next_node d; alerts := alerts d |}.

(** The toasts on screen, as texts. *)
Definition texts (d : dom) : list string := innerText <$> body d.

(** A toast on screen whose timeout, due at [t], is still to come. *)
Definition pending (x : node) (t : Z) (d : dom) : Prop :=
  x ∈ body d ∧ mk_timer (node_id x) t ∈ timers d ∧ (now d < t)%Z.

(** The invariants of the page: each toast on screen has exactly one pending
    timeout and conversely, in the same order; node identities are distinct
    and below the next one; no timeout is due later than 3000 ms from now, and
    the queue is in order of due time. *)
Record ok (d : dom) : Prop := mk_ok {
  ok_paired : node_id <$> body d = target <$> timers d;
  ok_fresh : Forall (λ x, node_id x < next_node d) (body d);
  ok_nodup : NoDup (node_id <$> body d);
  ok_due : Forall (λ tm, (due tm ≤ now d + duration)%Z) (timers d);
  ok_sorted : StronglySorted (λ a b, (due a ≤ due b)%Z) (timers d)
}.

End Toast.

(** ** Invariant preservation and the timer loop *)

Section toast.
Implicit Types (d : Toast.dom) (b : list Toast.node) (ts : list Toast.timer) (t : Z).

Lemma remove_head x b :
  Toast.node_id x ∉ Toast.node_id <$> b →
  Toast.remove (Toast.node_id x) (x :: b) = b.
Proof.
  intros Hx. unfold Toast.remove. rewrite filter_cons_False by naive_solver.
  by apply (filter_key_absent Toast.node_id).
Qed.

(** Running the due timeouts of a queue paired with the toasts drops the
    same number of entries from the front of both. *)
Lemma run_timers_paired t ts b :
  Toast.node_id <$> b = Toast.target <$> ts → NoDup (Toast.node_id <$> b) →
  ∃ k, Toast.run_timers t ts b = (drop k ts, drop k b)
       ∧ Forall (λ tm, (Toast.due tm ≤ t)%Z) (take k ts)
       ∧ (∀ tm, ts !! k = Some tm → (t < Toast.due tm)%Z).
Proof.
  revert b. induction ts as [|tm ts IH]; intros b Hp Hnd.
  { exists 0. by destruct b. }
  destruct b as [|x b]; simplify_eq/=. apply NoDup_cons in Hnd as [Hx Hnd].
  case_decide as Hdue.
  - rewrite <-H, remove_head by done.
    destruct (IH b) as (k & -> & ? & ?); [done..|].
    exists (S k). split_and!; [done|by constructor|done].
  - exists 0. split_and!; [done|constructor|]. intros ? [= <-]. lia.
Qed.

Lemma ok_empty : Toast.ok Toast.empty.
Proof. split; simpl; constructor. Qed.

Lemma ok_showToast message d : Toast.ok d → Toast.ok (Toast.showToast message d).
Proof.
  intros [Hp Hf Hn Hd Hs]. split; simpl.
  - by rewrite !fmap_app, Hp.
  - rewrite Forall_app, Forall_singleton. split; [|simpl; lia].
    eapply Forall_impl; [done|]. simpl. lia.
  - rewrite fmap_app. apply NoDup_app. split_and!; [done| |apply NoDup_singleton].
    intros n (x & Hn' & Hx)%list_elem_of_fmap Hs'%list_elem_of_singleton.
    rewrite Forall_forall in Hf. apply Hf in Hx. simplify_eq/=. lia.
  - rewrite Forall_app, Forall_singleton. split; [done|simpl; lia].
  - apply StronglySorted_app_2; [|done|repeat constructor].
    intros a c Ha ->%list_elem_of_singleton. simpl.
    rewrite Forall_forall in Hd. by apply Hd.
Qed.

Lemma ok_alert message d : Toast.ok d → Toast.ok (Toast.alert message d).
Proof. by intros []. Qed.

Lemma ok_tick ms d : Toast.ok d → Toast.ok (Toast.tick ms d).
Proof.
  intros [Hp Hf Hn Hd Hs]. split; simpl; [done..| |done].
  eapply Forall_impl; [done|]. simpl. lia.
Qed.

Lemma ok_drop k d :
  Toast.ok d →
  Toast.ok {| Toast.body := drop k (Toast.body d); Toast.timers := drop k (Toast.timers d);
              Toast.now := Toast.now d; Toast.next_node := Toast.next_node d;
              Toast.alerts := Toast.alerts d |}.
Proof.
  intros [Hp Hf Hn Hd Hs]. split; simpl.
  - by rewrite !fmap_drop, Hp.
  - by apply Forall_drop.
  - rewrite fmap_drop. eapply sublist_NoDup; [done|apply sublist_drop].
  - by apply Forall_drop.
  - rewrite <-(take_drop k (Toast.timers d)) in Hs.
    by apply StronglySorted_app_1_r in Hs.
Qed.

Lemma run_due_drop d :
  Toast.ok d →
  ∃ k, Toast.run_due d =
         {| Toast.body := drop k (Toast.body d); Toast.timers := drop k (Toast.timers d);
            Toast.now := Toast.now d; Toast.next_node := Toast.next_node d;
            Toast.alerts := Toast.alerts d |}
       ∧ Forall (λ tm, (Toast.due tm ≤ Toast.now d)%Z) (take k (Toast.timers d))
       ∧ (∀ tm, Toast.timers d !! k = Some tm → (Toast.now d < Toast.due tm)%Z).
Proof.
  intros [Hp Hf Hn Hd Hs].
  destruct (run_timers_paired (Toast.now d) _ _ Hp Hn) as (k & Hr & ? & ?).
  exists k. unfold Toast.run_due. by rewrite Hr.
Qed.

Lemma ok_run_due d : Toast.ok d → Toast.ok (Toast.run_due d).
Proof.
  intros Hok. destruct (run_due_drop d Hok) as (k & -> & _). by apply ok_drop.
Qed.

Lemma fire_next_drop d :
  Toast.ok d →
  Toast.fire_next d = d ∨
  Toast.fire_next d =
    {| Toast.body := drop 1 (Toast.body d); Toast.timers := drop 1 (Toast.timers d);
       Toast.now := Toast.now d; Toast.next_node := Toast.next_node d;
       Toast.alerts := Toast.alerts d |}.
Proof.
  intros [Hp Hf Hn Hd Hs]. unfold Toast.fire_next.
  destruct (Toast.timers d) as [|tm ts] eqn:Hts; [by left|].
  case_decide; [right|by left].
  destruct (Toast.body d) as [|x b]; simplify_eq/=.
  apply NoDup_cons in Hn as [Hx _]. by rewrite <-H0, remove_head, drop_0.
Qed.

Lemma ok_fire_next d : Toast.ok d → Toast.ok (Toast.fire_next d).
Proof.
  intros Hok. destruct (fire_next_drop d Hok) as [->| ->]; [done|by apply ok_drop].
Qed.

(** After the due timeouts have run, no pending timeout is due. *)
Lemma run_due_none_due d :
  Toast.ok d →
  Forall (λ tm, (Toast.now d < Toast.due tm)%Z) (Toast.timers (Toast.run_due d)).
Proof.
  intros Hok. destruct (run_due_drop d Hok) as (k & -> & _ & Hk). simpl.
  destruct Hok as [_ _ _ _ Hs].
  destruct (Toast.timers d !! k) as [tm|] eqn:Hl.
  - rewrite (drop_S _ tm) by done.
    rewrite <-(take_drop k (Toast.timers d)), (drop_S _ tm k) in Hs by done.
    apply StronglySorted_app_1_r, StronglySorted_cons in Hs as [Hge _].
    specialize (Hk _ eq_refl). constructor; [done|].
    eapply Forall_impl; [done|]. simpl. lia.
  - apply lookup_ge_None in Hl. by rewrite drop_ge.
Qed.

Lemma run_due_all d :
  Toast.ok d → Forall (λ tm, (Toast.due tm ≤ Toast.now d)%Z) (Toast.timers d) →
  Toast.body (Toast.run_due d) = [] ∧ Toast.timers (Toast.run_due d) = [].
Proof.
  intros Hok Hall. pose proof (run_due_none_due d Hok) as Hnone.
  destruct (run_due_drop d Hok) as (k & Hr & _). rewrite Hr in *. simpl in *.
  assert (drop k (Toast.timers d) = []) as Ht.
  { destruct (drop k (Toast.timers d)) as [|tm ?] eqn:Hd; [done|].
    apply Forall_cons in Hnone as [Hlt _].
    assert (tm ∈ Toast.timers d) as Hin.
    { eapply elem_of_sublist; [|apply (sublist_drop _ k)]. rewrite Hd. left. }
    rewrite Forall_forall in Hall. apply Hall in Hin. lia. }
  split; [|done].
  destruct Hok as [Hp _ _ _ _]. apply (f_equal (drop k)) in Hp.
  rewrite <-!fmap_drop, Ht in Hp. by apply fmap_nil_inv in Hp.
Qed.

Lemma run_due_none d :
  Toast.ok d → Forall (λ tm, (Toast.now d < Toast.due tm)%Z) (Toast.timers d) →
  Toast.run_due d = d.
Proof.
  intros [Hp _ _ _ _] Hnone. unfold Toast.run_due.
  destruct d as [b ts t n a]; simpl in *. destruct ts as [|tm ts]; simpl.
  - by destruct b.
  - apply Forall_cons in Hnone as [? _]. by rewrite decide_False by lia.
Qed.

End toast.

(** ** Several toasts *)

Lemma showToast_many_texts (ms : list string) (d : Toast.dom) :
  Toast.texts (foldl (λ d m, Toast.showToast m d) d ms) = Toast.texts d ++ ms.
Proof.
  revert d. induction ms as [|m ms IH]; intros d; simpl; [by rewrite app_nil_r|].
  rewrite IH. unfold Toast.texts. simpl. by rewrite fmap_app, <-app_assoc.
Qed.

Lemma showToast_many_timers (ms : list string) (d : Toast.dom) :
  length (Toast.timers (foldl (λ d m, Toast.showToast m d) d ms)) =
  length (Toast.timers d) + length ms.
Proof.
  revert d. induction ms as [|m ms IH]; intros d; simpl; [lia|].
  rewrite IH. simpl. rewrite length_app. simpl. lia.
Qed.

Lemma ok_showToast_many (ms : list string) (d : Toast.dom) :
  Toast.ok d → Toast.ok (foldl (λ d m, Toast.showToast m d) d ms).
Proof. revert d. induction ms; simpl; auto using ok_showToast. Qed.

(** Firing the oldest timeout as many times as there are timeouts pending
    runs every timeout that is due. *)
Lemma fire_next_stuck n d : Toast.fire_next d = d → Nat.iter n Toast.fire_next d = d.
Proof. intros Hd. induction n as [|n IH]; simpl; [done|]. by rewrite IH. Qed.

Lemma fire_next_due b tm rest t nn al :
  (Toast.due tm ≤ t)%Z →
  Toast.fire_next (Toast.mk_dom b (tm :: rest) t nn al) =
  Toast.mk_dom (Toast.remove (Toast.target tm) b) rest t nn al
  ∧ Toast.run_due (Toast.mk_dom b (tm :: rest) t nn al) =
    Toast.run_due (Toast.mk_dom (Toast.remove (Toast.target tm) b) rest t nn al).
Proof.
  intros Hdue. unfold Toast.fire_next, Toast.run_due. simpl. by rewrite !decide_True.
Qed.

Lemma fire_next_not_due b tm rest t nn al :
  ¬ (Toast.due tm ≤ t)%Z →
  Toast.fire_next (Toast.mk_dom b (tm :: rest) t nn al) = Toast.mk_dom b (tm :: rest) t nn al
  ∧ Toast.run_due (Toast.mk_dom b (tm :: rest) t nn al) = Toast.mk_dom b (tm :: rest) t nn al.
Proof.
  intros Hdue. unfold Toast.fire_next, Toast.run_due. simpl. by rewrite !decide_False.
Qed.

Lemma fire_next_iter n d :
  length (Toast.timers d) ≤ n → Nat.iter n Toast.fire_next d = Toast.run_due d.
Proof.
  revert d. induction n as [|n IH]; intros [b ts t nn al] Hn; simpl in Hn.
  - by destruct ts; [|simpl in Hn; lia].
  - destruct ts as [|tm rest]; [rewrite Nat.iter_succ_r; apply IH; simpl; lia|].
    destruct (decide (Toast.due tm ≤ t)%Z) as [Hdue|Hdue].
    + destruct (fire_next_due b tm rest t nn al Hdue) as [Hf ->].
      rewrite Nat.iter_succ_r, Hf. apply IH. simpl in *. lia.
    + destruct (fire_next_not_due b tm rest t nn al Hdue) as [Hf ->].
      by apply fire_next_stuck.
Qed.

(** ** Toasts whose timeout is still to come *)

Lemma now_fire_next d : Toast.now (Toast.fire_next d) = Toast.now d.
Proof. destruct d as [b [|tm ts] t nn al]; [done|]. unfold Toast.fire_next. simpl. by case_decide. Qed.

Lemma pending_on_screen x t d :
  Toast.pending x t d →
  x ∈ Toast.body d ∧ Toast.mk_timer (Toast.node_id x) t ∈ Toast.timers d.
Proof. by intros (? & ? & ?). Qed.

Lemma pending_showToast_new message d :
  Toast.pending (Toast.mk_node (Toast.next_node d) Toast.toast_class message)
    (Toast.now d + 3000) (Toast.showToast message d).
Proof.
  split_and!; simpl; [apply elem_of_app; right; by apply list_elem_of_singleton..|].
  unfold Toast.duration. lia.
Qed.

Lemma pending_showToast x t message d :
  Toast.pending x t d → Toast.pending x t (Toast.showToast message d).
Proof. intros (? & ? & ?). split_and!; simpl; [apply elem_of_app; by left..|done]. Qed.

Lemma pending_alert x t message d :
  Toast.pending x t d → Toast.pending x t (Toast.alert message d).
Proof. done. Qed.

Lemma pending_tick x t ms d :
  Toast.pending x t d → (Toast.now d + Z.max 0 ms < t)%Z →
  Toast.pending x t (Toast.tick ms d).
Proof. by intros (? & ? & ?) ?. Qed.

(** The event loop does not run a timeout before it is due, and the
    timeout that it runs removes its own toast only. *)
Lemma pending_fire_next x t d :
  Toast.ok d → Toast.pending x t d → Toast.pending x t (Toast.fire_next d).
Proof.
  intros [Hp _ Hn _ _] (Hx & Ht & Hnow). destruct d as [b [|tm ts] now nn al]; [done|].
  unfold Toast.fire_next. simpl in *. case_decide as Hdue; [|done].
  apply elem_of_cons in Ht as [<-|Ht]; [simpl in *; lia|].
  split_and!; [|done..]. apply list_elem_of_filter. split; [|done].
  intros Heq. rewrite Hp in Hn. apply NoDup_cons in Hn as [Hn _]. apply Hn.
  rewrite <-Heq. by apply (list_elem_of_fmap_2 Toast.target) in Ht.
Qed.

Lemma pending_fire_next_iter n x t d :
  Toast.ok d → Toast.pending x t d →
  Toast.ok (Nat.iter n Toast.fire_next d) ∧ Toast.pending x t (Nat.iter n Toast.fire_next d).
Proof.
  intros Hok Hx. induction n as [|n [IHok IHx]]; simpl; [done|].
  split; [by apply ok_fire_next|by apply pending_fire_next].
Qed.

Lemma pending_run_due x t d :
  Toast.ok d → Toast.pending x t d → Toast.pending x t (Toast.run_due d).
Proof.
  intros Hok Hx. rewrite <-(fire_next_iter (length (Toast.timers d))) by done.
  by apply pending_fire_next_iter.
Qed.

#[export] Hint Resolve ok_empty ok_showToast ok_alert ok_tick ok_fire_next ok_run_due : tm.
#[export] Hint Resolve pending_showToast pending_alert pending_fire_next pending_run_due : tm.

(** ** Properties of the notification service *)

(** A toast is removed after the fixed duration: on a page that satisfies
    the invariants, once 3000 ms or more have passed since [showToast] and
    the browser has run the timeouts that are due, the toast just shown and
    every older toast are gone and no timeout is pending. *)
Lemma run_due_after_duration (message : string) (ms : Z) (d : Toast.dom) :
  Toast.ok d → (3000 ≤ ms)%Z →
  let d' := Toast.run_due (Toast.tick ms (Toast.showToast message d)) in
  Toast.body d' = [] ∧ Toast.timers d' = [].
Proof.
  intros Hok Hms. apply run_due_all; [by apply ok_tick, ok_showToast|].
  apply (ok_showToast message) in Hok as [_ _ _ Hd _].
  eapply Forall_impl; [done|]. unfold Toast.duration. simpl. lia.
Qed.

Lemma run_due_after_duration_example :
  Toast.body (Toast.run_due (Toast.tick 3000 (Toast.showToast "Task added successfully" Toast.empty))) = [].
Proof.
  exact (proj1 (run_due_after_duration "Task added successfully" 3000 Toast.empty
    ok_empty ltac:(lia))).
Defined.

(** A toast is not removed early: while less than 3000 ms have passed
    since [showToast], the toast it created, with the message as its text and
    the fixed class, is still attached after the browser has run the timeouts
    that are due, and its timeout is still pending. *)
Lemma run_due_before_duration (message : string) (ms : Z) (d : Toast.dom) :
  Toast.ok d → (ms < 3000)%Z →
  let d' := Toast.run_due (Toast.tick ms (Toast.showToast message d)) in
  Toast.mk_node (Toast.next_node d) Toast.toast_class message ∈ Toast.body d'
  ∧ Toast.mk_timer (Toast.next_node d) (Toast.now d + 3000) ∈ Toast.timers d'.
Proof.
  intros Hok Hms d'. subst d'.
  apply (pending_on_screen (Toast.mk_node (Toast.next_node d) Toast.toast_class message)).
  apply pending_run_due; [auto with tm|].
  apply pending_tick; [apply pending_showToast_new|]. simpl. lia.
Qed.

Lemma run_due_before_duration_example :
  Toast.mk_node 0 Toast.toast_class "Task deleted successfully"
    ∈ Toast.body (Toast.run_due (Toast.tick 2999 (Toast.showToast "Task deleted successfully" Toast.empty))).
Proof.
  exact (proj1 (run_due_before_duration "Task deleted successfully" 2999 Toast.empty
    ok_empty ltac:(lia))).
Defined.

(** Toasts stack without a queue: messages shown one after the other
    are all on the page at once, in the order shown after the toasts that were
    already there, and each has a pending timeout of its own. *)
Lemma showToast_many (ms : list string) (d : Toast.dom) :
  let d' := foldl (λ d m, Toast.showToast m d) d ms in
  Toast.texts d' = Toast.texts d ++ ms
  ∧ length (Toast.timers d') = length (Toast.timers d) + length ms.
Proof. split; [apply showToast_many_texts|apply showToast_many_timers]. Qed.

(** C35: The invariants of the page hold initially and every operation of
    the notification service and of the browser keeps them: each toast on
    screen has exactly one pending timeout, in the same order, node
    identities are distinct, no timeout is due later than 3000 ms from now
    and the queue is in order of due time. *)
Theorem toast_page_invariant :
  Toast.ok Toast.empty
  ∧ ∀ d, Toast.ok d →
      (∀ m, Toast.ok (Toast.showToast m d)) ∧ (∀ m, Toast.ok (Toast.alert m d))
      ∧ (∀ ms, Toast.ok (Toast.tick ms d))
      ∧ Toast.ok (Toast.fire_next d) ∧ Toast.ok (Toast.run_due d).
Proof. split; [|intros d Hd; split_and!]; auto with tm. Qed.
