(* ===== verification/Grid.v ===== *)
(** * The grid widget

    The component hands its tasks to a Tabulator table and talks to it
    through five calls: the constructor (line 33), [Tabulator.findTable]
    (line 84), [setFilter] (line 86), [clearFilter] (line 88) and [destroy]
    (line 61).  Tabulator itself is a library: this file states what the
    component relies on as the class [GridWidget] (the operations of one
    table and their laws), gives the instance [ListGrid] that satisfies the
    laws, and models the table registry behind [findTable] and [destroy] as
    [Registry].

    A column definition is data ([column]); the one function a column
    carries, the [cellClick] of the Actions column, is represented by the
    values its closure captures ([click]). *)

From S2P Require Import Prelude Data.

(** ** Column definitions (the [columns] option, lines 36-57) *)

Inductive editor :=
| editor_false                          (* editor: false *)
| editor_input                          (* editor: 'input' *)
| editor_select (values : list string). (* editor: 'select', editorParams: { values } *)

(** The [cellClick] closure of lines 50-55, by the [tasks] it captured. *)
Inductive click :=
| click_delete (tasks : list Task.t).

Record column := mk_column {
  col_title : string;
  col_field : option string;
  col_editor : editor;
  col_formatter : option string;
  col_cellClick : option click
}.

#[export] Instance editor_eq_dec : EqDecision editor.
Proof. solve_decision. Defined.
#[export] Instance click_eq_dec : EqDecision click.
Proof. solve_decision. Defined.
#[export] Instance column_eq_dec : EqDecision column.
Proof. solve_decision. Defined.

(** The first [cellClick] among the columns. *)
Definition find_click (cols : list column) : option click :=
  head (omap col_cellClick cols).

(** ** What the component relies on *)

Class GridWidget (T : Type) := {
  (** [new Tabulator(el, { data, layout, columns })] *)
  grid_new : list Task.t → list column → T;
  (** [table.setFilter(field, type, value)] *)
  grid_setFilter : string → string → string → T → T;
  (** [table.clearFilter()] *)
  grid_clearFilter : T → T;
  (** the row data, the column definitions, and the rows that pass the
      filter, in display order *)
  grid_rows : T → list Task.t;
  grid_columns : T → list column;
  grid_visible : T → list Task.t;

  grid_new_rows data cols : grid_rows (grid_new data cols) = data;
  grid_new_columns data cols : grid_columns (grid_new data cols) = cols;
  grid_new_visible data cols : grid_visible (grid_new data cols) = data;
  grid_setFilter_rows f o v t : grid_rows (grid_setFilter f o v t) = grid_rows t;
  grid_setFilter_columns f o v t :
    grid_columns (grid_setFilter f o v t) = grid_columns t;
  grid_setFilter_status v t :
    grid_visible (grid_setFilter "status" "=" v t) =
    filter (λ row, Task.status row = v) (grid_rows t);
  grid_clearFilter_rows t : grid_rows (grid_clearFilter t) = grid_rows t;
  grid_clearFilter_columns t : grid_columns (grid_clearFilter t) = grid_columns t;
  grid_clearFilter_visible t : grid_visible (grid_clearFilter t) = grid_rows t
}.

#[export] Hint Rewrite @grid_new_rows @grid_new_columns @grid_new_visible
  @grid_setFilter_rows @grid_setFilter_columns @grid_setFilter_status
  @grid_clearFilter_rows @grid_clearFilter_columns @grid_clearFilter_visible : tm_len.

(** ** A table as a list of rows with at most one filter *)

Module ListGrid.

Record t := mk {
  data : list Task.t;
  columns : list column;
  filters : option (string * string * string)
}.

#[global] Instance eq_dec : EqDecision t.
Proof. solve_decision. Defined.

(** The value of a text field of a row; the numeric [id] field is not
    compared by the filters of this model. *)
Definition field_value (field : string) (row : Task.t) : option string :=
  if decide (field = "title") then Some (Task.title row)
  else if decide (field = "description") then Some (Task.description row)
  else if decide (field = "status") then Some (Task.status row)
  else None.

(** A row passes the filter [(field, "=", value)] when its field equals the
    value; comparison types other than ["="] are not modelled and let every
    row pass. *)
Definition passes (f : string * string * string) (row : Task.t) : Prop :=
  f.1.2 = "=" → field_value f.1.1 row = Some f.2.

#[global] Instance passes_dec f row : Decision (passes f row).
Proof. unfold passes. apply _. Defined.

Definition new (data : list Task.t) (cols : list column) : t :=
  {| data := data; columns := cols; filters := None |}.

(** [setFilter] replaces the filters of the table by the given one. *)
Definition setFilter (field type value : string) (g : t) : t :=
  {| data := data g; columns := columns g; filters := Some (field, type, value) |}.

Definition clearFilter (g : t) : t :=
  {| data := data g; columns := columns g; filters := None |}.

Definition visible (g : t) : list Task.t :=
  match filters g with
  | Some f => filter (passes f) (data g)
  | None => data g
  end.

End ListGrid.

(** ** The tables attached to the element *)

Module Registry.

(** The live tables of the element, oldest first, each with the identity of
    its instance, and the identity of the next instance. *)
Record t (T : Type) := mk {
  live : list (nat * T);
  next_id : nat
}.
Arguments mk {T} _ _.
Arguments live {T} _.
Arguments next_id {T} _.

Definition empty {T} : t T := {| live := []; next_id := 0 |}.

(** The constructor registers the new table. *)
Definition create {T} (g : T) (r : t T) : nat * t T :=
  (next_id r, {| live := live r ++ [(next_id r, g)]; next_id := S (next_id r) |}).

(** [table.destroy()] *)
Definition destroy {T} (i : nat) (r : t T) : t T :=
  {| live := filter (λ e, e.1 ≠ i) (live r); next_id := next_id r |}.

(** [Tabulator.findTable(el)]: the live tables of the element. *)
Definition findTable {T} (r : t T) : list (nat * T) := live r.

(** A method call on the instance [i] that changes its state. *)
Definition update {T} (i : nat) (f : T → T) (r : t T) : t T :=
  {| live := (λ e, if decide (e.1 = i) then (e.1, f e.2) else e) <$> live r;
     next_id := next_id r |}.

(** The table the user sees and clicks: the one built last. *)
Definition displayed {T} (r : t T) : option (nat * T) := last (live r).

End Registry.

(** ** The list instance satisfies the laws *)

Lemma ListGrid_passes_status v row :
  ListGrid.passes ("status", "=", v) row ↔ Task.status row = v.
Proof.
  unfold ListGrid.passes, ListGrid.field_value. simpl.
  split; [intros Hp; by injection (Hp eq_refl)|by intros ->].
Qed.

Lemma ListGrid_setFilter_status v g :
  ListGrid.visible (ListGrid.setFilter "status" "=" v g) =
  filter (λ row, Task.status row = v) (ListGrid.data g).
Proof.
  unfold ListGrid.visible. simpl.
  apply list_filter_iff. intros row. apply ListGrid_passes_status.
Qed.

#[export] Instance ListGrid_widget : GridWidget ListGrid.t := {|
  grid_new := ListGrid.new;
  grid_setFilter := ListGrid.setFilter;
  grid_clearFilter := ListGrid.clearFilter;
  grid_rows := ListGrid.data;
  grid_columns := ListGrid.columns;
  grid_visible := ListGrid.visible;
  grid_new_rows _ _ := eq_refl;
  grid_new_columns _ _ := eq_refl;
  grid_new_visible _ _ := eq_refl;
  grid_setFilter_rows _ _ _ _ := eq_refl;
  grid_setFilter_columns _ _ _ _ := eq_refl;
  grid_setFilter_status := ListGrid_setFilter_status;
  grid_clearFilter_rows _ := eq_refl;
  grid_clearFilter_columns _ := eq_refl;
  grid_clearFilter_visible _ := eq_refl
|}.
