(* ===== verification/Component.v ===== *)
(** * The TaskManager component

    [Hooks.t] is the state of the component (lines 7-13) and [World.t] what
    the page holds besides: whether the ref of line 6 is attached, the
    Tabulator tables on the element, the table the cleanup of the table
    effect will destroy, the state of the seed request, the toasts with their
    timers, and whether an effect has thrown.

    A handler is a function from the values its closure captures to the calls
    it makes ([Cmd]), in program order.  [commit] is what React does after a
    handler: it applies the setters, renders, and runs the effects whose
    dependency changed, the cleanup of an effect before the effect; [mount]
    and [unmount] are the first commit and the removal of the component;
    [late] is what is left of a callback that runs after the removal: its
    setters do nothing, its calls on the document are made.  [step]
    is the reaction of the page to one [Event]; [enabled] tells which events
    can occur in a state; [reachable] is the closure of [World.init] under
    enabled steps. *)

From S2P Require Import Prelude Data Store Seed Toast Grid.

(** ** State *)

Module Hooks.

(** The three [useState] cells (lines 7-13). *)
Record t := mk {
  tasks : list Task.t;
  filterStatus : string;
  newTask : Draft.t
}.

#[global] Instance eq_dec : EqDecision t.
Proof. solve_decision. Defined.

(** The initial values of lines 7, 8 and 9-13. *)
Definition initial : t :=
  {| tasks := Store.empty; filterStatus := ""; newTask := Draft.blank |}.

End Hooks.

(** The calls a handler or a promise callback of the component makes. *)
Inductive Cmd :=
| setTasks (tasks : list Task.t)
| setFilterStatus (filterStatus : string)
| setNewTask (newTask : Draft.t)
| showToast (message : string)
| alert (message : string).

(** The seed request of line 17: not issued, in flight, settled. *)
Inductive Fetch := fetch_idle | fetch_pending | fetch_settled.

#[export] Instance Cmd_eq_dec : EqDecision Cmd.
Proof. solve_decision. Defined.
#[export] Instance Fetch_eq_dec : EqDecision Fetch.
Proof. solve_decision. Defined.

Module World.

Record t (T : Type) := mk {
  hooks : Hooks.t;
  tableRef : bool;          (* tableRef.current is the div of line 158 *)
  tables : Registry.t T;    (* the Tabulator tables on that div *)
  cleanup : option nat;     (* the [table] of the closure of lines 60-62 *)
  request : Fetch;
  page : Toast.dom;
  crashed : bool            (* an effect has thrown *)
}.
Arguments mk {T} _ _ _ _ _ _ _.
Arguments hooks {T} _.
Arguments tableRef {T} _.
Arguments tables {T} _.
Arguments cleanup {T} _.
Arguments request {T} _.
Arguments page {T} _.
Arguments crashed {T} _.

(** The page before the component is mounted. *)
Definition init {T} : t T :=
  {| hooks := Hooks.initial; tableRef := false; tables := Registry.empty;
     cleanup := None; request := fetch_idle; page := Toast.empty; crashed := false |}.

Definition set_hooks {T} (h : Hooks.t) (w : t T) : t T :=
  mk h (tableRef w) (tables w) (cleanup w) (request w) (page w) (crashed w).
Definition set_tableRef {T} (b : bool) (w : t T) : t T :=
  mk (hooks w) b (tables w) (cleanup w) (request w) (page w) (crashed w).
Definition set_tables {T} (r : Registry.t T) (w : t T) : t T :=
  mk (hooks w) (tableRef w) r (cleanup w) (request w) (page w) (crashed w).
Definition set_cleanup {T} (c : option nat) (w : t T) : t T :=
  mk (hooks w) (tableRef w) (tables w) c (request w) (page w) (crashed w).
Definition set_request {T} (f : Fetch) (w : t T) : t T :=
  mk (hooks w) (tableRef w) (tables w) (cleanup w) f (page w) (crashed w).
Definition set_page {T} (d : Toast.dom) (w : t T) : t T :=
  mk (hooks w) (tableRef w) (tables w) (cleanup w) (request w) d (crashed w).
Definition set_crashed {T} (b : bool) (w : t T) : t T :=
  mk (hooks w) (tableRef w) (tables w) (cleanup w) (request w) (page w) b.

End World.

(** What the user can do and what the browser can deliver. *)
Inductive Event :=
| Mount                               (* the component is mounted *)
| FetchResolved (data : list Todo.t)  (* the promise chain of lines 17-19 resolves *)
| FetchRejected                       (* network or parse failure *)
| TitleInput (v : string)             (* onChange of line 113 *)
| DescriptionInput (v : string)       (* onChange of line 120 *)
| StatusSelect (v : string)           (* onChange of line 125 *)
| AddClick                            (* onClick of line 133 *)
| FilterSelect (v : string)           (* onChange of line 148 *)
| DeleteClick (i : nat)               (* click on Delete in the i-th visible row *)
| Tick (ms : Z)                       (* time passes *)
| TimerFire                           (* the event loop runs a due timeout *)
| Unmount.                            (* the component is removed from the page *)

(** ** Handlers *)

(** [handleAddTask] (lines 67-79), with the [tasks] and [newTask] of the
    render. *)
Definition handleAddTask (tasks : list Task.t) (newTask : Draft.t) : list Cmd :=
  if truthy (Draft.title newTask) && truthy (Draft.description newTask) then
    let task := Draft.to_task (Store.next_id tasks) newTask in
    [ setTasks (Store.append_one task tasks);
      setNewTask {| Draft.title := ""; Draft.description := ""; Draft.status := "To Do" |};
      showToast "Task added successfully" ]
  else
    [ alert "Please fill in all fields." ].

(** The [cellClick] of the Actions column (lines 50-55), with the [tasks] of
    the render that built the table and the data of the clicked row. *)
Definition cellClick (tasks : list Task.t) (row : Task.t) : list Cmd :=
  let updatedTasks := Store.remove_by_id (Task.id row) tasks in
  [ setTasks updatedTasks; showToast "Task deleted successfully" ].

Definition run_click (c : click) (row : Task.t) : list Cmd :=
  match c with click_delete tasks => cellClick tasks row end.

(** The [columns] option (lines 36-57). *)
Definition columns (tasks : list Task.t) : list column :=
  [ mk_column "Task ID" (Some "id") editor_false None None;
    mk_column "Title" (Some "title") editor_input None None;
    mk_column "Description" (Some "description") editor_input None None;
    mk_column "Status" (Some "status")
      (editor_select ["To Do"; "In Progress"; "Done"]) None None;
    mk_column "Actions" None editor_false
      (Some "<button class='bg-red-500 text-white px-2 py-1 rounded'>Delete</button>")
      (Some (click_delete tasks)) ].

(** The last [then] of the promise chain (lines 19-27). *)
Definition fetch_then (data : list Todo.t) : list Cmd :=
  [ setTasks (Seed.initialTasks data) ].

(** The [onChange] handlers of lines 113, 120, 125 and 148. *)
Definition onTitleChange (newTask : Draft.t) (v : string) : list Cmd :=
  [ setNewTask (Draft.with_title v newTask) ].
Definition onDescriptionChange (newTask : Draft.t) (v : string) : list Cmd :=
  [ setNewTask (Draft.with_description v newTask) ].
Definition onStatusChange (newTask : Draft.t) (v : string) : list Cmd :=
  [ setNewTask (Draft.with_status v newTask) ].
Definition onFilterChange (v : string) : list Cmd :=
  [ setFilterStatus v ].

(** ** The rendered form (lines 102-160) *)

Record View := mk_View {
  title_value : string;            (* value of the input of lines 108-114 *)
  description_value : string;      (* value of the input of lines 115-121 *)
  status_value : string;           (* value of the select of lines 122-130 *)
  status_options : list string;    (* its option values *)
  filter_value : string;           (* value of the select of lines 144-154 *)
  filter_options : list string     (* its option values *)
}.

Definition render (h : Hooks.t) : View :=
  {| title_value := Draft.title (Hooks.newTask h);
     description_value := Draft.description (Hooks.newTask h);
     status_value := Draft.status (Hooks.newTask h);
     status_options := ["To Do"; "In Progress"; "Done"];
     filter_value := Hooks.filterStatus h;
     filter_options := [""; "To Do"; "In Progress"; "Done"] |}.

(** ** Effects, commit and step *)

Section component.
Context {T : Type} `{!GridWidget T}.
Implicit Types (w : World.t T) (cmds : list Cmd).

(** The fetch effect (lines 16-28) issues the request; its callback is
    [fetch_then]. *)
Definition fetch_effect (w : World.t T) : World.t T :=
  World.set_request fetch_pending w.

(** The table effect (lines 31-64): with the ref attached, build a table from
    the [tasks] of the render and return the cleanup that destroys it. *)
Definition table_effect (w : World.t T) : World.t T :=
  if World.tableRef w then
    let tasks := Hooks.tasks (World.hooks w) in
    let r := Registry.create (grid_new tasks (columns tasks)) (World.tables w) in
    World.set_cleanup (Some r.1) (World.set_tables r.2 w)
  else World.set_cleanup None w.

(** The cleanup of the table effect (lines 60-62). *)
Definition table_cleanup (w : World.t T) : World.t T :=
  match World.cleanup w with
  | Some table =>
      World.set_cleanup None (World.set_tables (Registry.destroy table (World.tables w)) w)
  | None => w
  end.

(** The filter effect (lines 82-91): on the first table found on the
    element, set the status filter or clear the filters.  When no table is
    found, [findTable(...)[0]] is [undefined] and the method call throws. *)
Definition filter_effect (w : World.t T) : World.t T :=
  if World.tableRef w then
    match Registry.findTable (World.tables w) with
    | (table, _) :: _ =>
        let filterStatus := Hooks.filterStatus (World.hooks w) in
        if truthy filterStatus then
          World.set_tables
            (Registry.update table (grid_setFilter "status" "=" filterStatus) (World.tables w)) w
        else
          World.set_tables (Registry.update table grid_clearFilter (World.tables w)) w
    | [] => World.set_crashed true w
    end
  else w.

(** One call of a handler: a setter writes the state of the next render,
    [showToast] (lines 94-100) and [alert] act on the page at once. *)
Definition run_cmd (c : Cmd) (w : World.t T) : World.t T :=
  let h := World.hooks w in
  match c with
  | setTasks tasks =>
      World.set_hooks (Hooks.mk tasks (Hooks.filterStatus h) (Hooks.newTask h)) w
  | setFilterStatus v =>
      World.set_hooks (Hooks.mk (Hooks.tasks h) v (Hooks.newTask h)) w
  | setNewTask d =>
      World.set_hooks (Hooks.mk (Hooks.tasks h) (Hooks.filterStatus h) d) w
  | showToast message => World.set_page (Toast.showToast message (World.page w)) w
  | alert message => World.set_page (Toast.alert message (World.page w)) w
  end.

(** One call of a callback that runs after the component has been removed.
    React drops the state update of a setter of a component that is no
    longer mounted; [showToast] and [alert] are calls on the document, which
    React has no part in, and act as ever. *)
Definition run_cmd_removed (c : Cmd) (w : World.t T) : World.t T :=
  match c with
  | setTasks _ | setFilterStatus _ | setNewTask _ => w
  | showToast message => World.set_page (Toast.showToast message (World.page w)) w
  | alert message => World.set_page (Toast.alert message (World.page w)) w
  end.

(** Every array the source passes to [setTasks] is freshly built, so the
    [[tasks]] dependency of line 64 changes whenever [setTasks] is called. *)
Definition calls_setTasks (cmds : list Cmd) : bool :=
  existsb (λ c, match c with setTasks _ => true | _ => false end) cmds.

(** After a handler: apply its calls, then run the effects whose dependency
    changed, in the order of the source: the table effect (dependency
    [[tasks]], line 64) with its cleanup first, then the filter effect
    (dependency [[filterStatus]], line 91; strings are compared by value). *)
Definition commit (cmds : list Cmd) (w : World.t T) : World.t T :=
  let w1 := foldl (λ w c, run_cmd c w) w cmds in
  let w2 := if calls_setTasks cmds then table_effect (table_cleanup w1) else w1 in
  if bool_decide (Hooks.filterStatus (World.hooks w1) ≠ Hooks.filterStatus (World.hooks w))
  then filter_effect w2 else w2.

(** After a callback that ran on a removed component: its calls were made
    in order; nothing is rendered and no effect runs. *)
Definition late (cmds : list Cmd) (w : World.t T) : World.t T :=
  foldl (λ w c, run_cmd_removed c w) w cmds.

(** The first commit: the ref is attached, then the three effects run in the
    order of the source. *)
Definition mount (w : World.t T) : World.t T :=
  filter_effect (table_effect (fetch_effect (World.set_tableRef true w))).

(** The component is removed: React runs the cleanup of the table effect
    (lines 60-62; the two other effects return none) and detaches the ref. *)
Definition unmount (w : World.t T) : World.t T :=
  World.set_tableRef false (table_cleanup w).

(** The calls made by a click on Delete in the [i]-th visible row of the
    table on display: the [cellClick] that table was given, on the data of
    that row. *)
Definition click_row (i : nat) (w : World.t T) : list Cmd :=
  match Registry.displayed (World.tables w) with
  | Some (_, g) =>
      match grid_visible g !! i, find_click (grid_columns g) with
      | Some row, Some c => run_click c row
      | _, _ => []
      end
  | None => []
  end.

(** The reaction of the page to one event.  The handlers of the form, of the
    filter and of the grid run with the values of the current render and are
    followed by a commit.  The [then] callback of the seed request (the
    effect of lines 16-28 returns no cleanup that would cancel it) runs
    whenever the response arrives: on the page, followed by a commit; after
    the component has been removed, as a [late] callback. *)
Definition step (w : World.t T) (e : Event) : World.t T :=
  let h := World.hooks w in
  match e with
  | Mount => if World.tableRef w then w else mount w
  | FetchResolved data =>
      if decide (World.request w = fetch_pending) then
        if World.tableRef w
        then commit (fetch_then data) (World.set_request fetch_settled w)
        else late (fetch_then data) (World.set_request fetch_settled w)
      else w
  | FetchRejected =>
      if decide (World.request w = fetch_pending)
      then World.set_request fetch_settled w else w
  | TitleInput v => commit (onTitleChange (Hooks.newTask h) v) w
  | DescriptionInput v => commit (onDescriptionChange (Hooks.newTask h) v) w
  | StatusSelect v => commit (onStatusChange (Hooks.newTask h) v) w
  | AddClick => commit (handleAddTask (Hooks.tasks h) (Hooks.newTask h)) w
  | FilterSelect v => commit (onFilterChange v) w
  | DeleteClick i => commit (click_row i w) w
  | Tick ms => World.set_page (Toast.tick ms (World.page w)) w
  | TimerFire => World.set_page (Toast.fire_next (World.page w)) w
  | Unmount => if World.tableRef w then unmount w else w
  end.

(** The rows on display. *)
Definition view (w : World.t T) : list Task.t :=
  match Registry.displayed (World.tables w) with
  | Some (_, g) => grid_visible g
  | None => []
  end.

(** The events that can occur: the component is mounted once (the request
    is idle exactly until then) and removed only while mounted, the page
    reacts to the user only while mounted, a select delivers one of its
    option values, a click on Delete is on a row on display, the request
    settles once, time does not go back. *)
Definition enabled (w : World.t T) (e : Event) : Prop :=
  match e with
  | Mount => World.tableRef w = false ∧ World.request w = fetch_idle
  | FetchResolved _ | FetchRejected => World.request w = fetch_pending
  | TitleInput _ | DescriptionInput _ | AddClick => World.tableRef w = true
  | StatusSelect v =>
      World.tableRef w = true ∧ v ∈ status_options (render (World.hooks w))
  | FilterSelect v =>
      World.tableRef w = true ∧ v ∈ filter_options (render (World.hooks w))
  | DeleteClick i => World.tableRef w = true ∧ is_Some (view w !! i)
  | Tick ms => (0 ≤ ms)%Z
  | TimerFire => True
  | Unmount => World.tableRef w = true
  end.

(** A run of events from a state. *)
Definition run (w : World.t T) (es : list Event) : World.t T := foldl step w es.

(** Every event of a run is enabled when it occurs. *)
Fixpoint enabled_run (w : World.t T) (es : list Event) : Prop :=
  match es with
  | [] => True
  | e :: es => enabled w e ∧ enabled_run (step w e) es
  end.

Inductive reachable : World.t T → Prop :=
| reachable_init : reachable World.init
| reachable_step w e : reachable w → enabled w e → reachable (step w e).

End component.

#[export] Instance enabled_dec {T} `{!GridWidget T} (w : World.t T) e :
  Decision (enabled w e).
Proof. destruct e; simpl; apply _. Defined.

#[export] Instance enabled_run_dec {T} `{!GridWidget T} (w : World.t T) es :
  Decision (enabled_run w es).
Proof. revert w. induction es; simpl; apply _. Defined.
