(* ===== verification/Invariant.v ===== *)
(** * Invariants of the TaskManager page

    The reasoning about [commit] that the theorems on the component share:
    what a list of calls does to the component state ([hooks_after]) and to
    the page ([page_after]); the normal form of a mounted page ([mounted]:
    one table on the element, which the pending cleanup will destroy) and
    of a page with no table ([gone]: before the first commit, or after the
    removal of the component); the closed form of a commit on each
    ([commit_mounted], [commit_gone]); the invariant [ok] of the pages that
    can be reached (fresh, mounted or removed), kept by every enabled step
    ([ok_step], [reachable_ok]); and the closed forms of the steps of a
    mounted page ([step_AddClick_mounted] and the like) and of a removed one
    ([step_gone]), from which the theorems of [Behaviour.v] and
    [Lifecycle.v] follow by rewriting. *)

From S2P Require Import Prelude Data Store Seed Toast Grid Component.

(** ** What a list of calls does to the state and to the page *)

Definition hooks_after (cmds : list Cmd) (h : Hooks.t) : Hooks.t :=
  foldl (λ h c,
    match c with
    | setTasks tasks => Hooks.mk tasks (Hooks.filterStatus h) (Hooks.newTask h)
    | setFilterStatus v => Hooks.mk (Hooks.tasks h) v (Hooks.newTask h)
    | setNewTask d => Hooks.mk (Hooks.tasks h) (Hooks.filterStatus h) d
    | _ => h
    end) h cmds.

Definition page_after (cmds : list Cmd) (d : Toast.dom) : Toast.dom :=
  foldl (λ d c,
    match c with
    | showToast m => Toast.showToast m d
    | alert m => Toast.alert m d
    | _ => d
    end) d cmds.

(** What an event does to the page besides the calls of its handler: time
    passes, a timer fires. *)
Definition page_step (e : Event) (p : Toast.dom) : Toast.dom :=
  match e with
  | Tick ms => Toast.tick ms p
  | TimerFire => Toast.fire_next p
  | _ => p
  end.

(** The two outcomes of the request. *)
Definition settles (e : Event) : bool :=
  match e with
  | FetchResolved _ | FetchRejected => true
  | _ => false
  end.

(** What the calls of a handler must satisfy for the invariant to be kept. *)
Definition cmd_ok (c : Cmd) : Prop :=
  match c with
  | setTasks tasks => Store.wf tasks
  | setFilterStatus v => v ∈ Status.filter_values
  | setNewTask d => Draft.wf d
  | _ => True
  end.

Section definitions.
Context {T : Type} `{!GridWidget T}.
Implicit Types (w : World.t T) (cmds : list Cmd) (g : T) (h : Hooks.t).

(** What the filter effect does to the table it finds. *)
Definition apply_filter (filterStatus : string) (g : T) : T :=
  if truthy filterStatus then grid_setFilter "status" "=" filterStatus g
  else grid_clearFilter g.

(** The table after a commit, from the table before it. *)
Definition grid_after cmds h g : T :=
  let h' := hooks_after cmds h in
  let g1 := if calls_setTasks cmds
            then grid_new (Hooks.tasks h') (columns (Hooks.tasks h')) else g in
  if bool_decide (Hooks.filterStatus h' ≠ Hooks.filterStatus h)
  then apply_filter (Hooks.filterStatus h') g1 else g1.

(** A mounted page in normal form: one table, which the cleanup will destroy. *)
Definition mounted h i g n r p : World.t T :=
  World.mk h true (Registry.mk [(i, g)] n) (Some i) r p false.

(** A page with no table: before the first commit ([n] is 0 and the request
    idle) or after the component is removed. *)
Definition gone h n r p : World.t T :=
  World.mk h false (Registry.mk [] n) None r p false.

(** What the table shows: every task, or the tasks with the selected
    status. *)
Definition shows (h : Hooks.t) (g : T) : Prop :=
  grid_visible g = Hooks.tasks h
  ∨ Hooks.filterStatus h ≠ ""
    ∧ grid_visible g = filter (λ row, Task.status row = Hooks.filterStatus h) (Hooks.tasks h).

Inductive ok : World.t T → Prop :=
| ok_unmounted p :
    Toast.ok p →
    ok (World.mk Hooks.initial false Registry.empty None fetch_idle p false)
| ok_mounted h i g n r p :
    Store.wf (Hooks.tasks h) → Draft.wf (Hooks.newTask h) →
    Hooks.filterStatus h ∈ Status.filter_values →
    Toast.ok p → r ≠ fetch_idle →
    grid_rows g = Hooks.tasks h → grid_columns g = columns (Hooks.tasks h) →
    shows h g →
    ok (mounted h i g n r p)
| ok_gone h n r p :
    Store.wf (Hooks.tasks h) → Draft.wf (Hooks.newTask h) →
    Hooks.filterStatus h ∈ Status.filter_values →
    Toast.ok p → r ≠ fetch_idle →
    ok (gone h n r p).

End definitions.

(** Unfold the effects and decide every test: closes the goals that say an
    effect leaves a field of the page alone. *)
Ltac frame := 
  intros; repeat (unfold table_effect, table_cleanup, filter_effect, fetch_effect, mount in *; simpl in * );
  repeat case_match; simplify_eq/=; try done.

(** ** Frames *)

Section frames.
Context {T : Type} `{!GridWidget T}.
Implicit Types (w : World.t T) (cmds : list Cmd).

Lemma run_cmds_eq cmds w :
  foldl (λ w c, run_cmd c w) w cmds =
  World.set_page (page_after cmds (World.page w))
    (World.set_hooks (hooks_after cmds (World.hooks w)) w).
Proof.
  revert w. induction cmds as [|c cmds IH]; intros w; [by destruct w|].
  simpl. rewrite IH. by destruct c, w.
Qed.

Lemma table_effect_frame w :
  World.hooks (table_effect w) = World.hooks w
  ∧ World.page (table_effect w) = World.page w
  ∧ World.request (table_effect w) = World.request w
  ∧ World.tableRef (table_effect w) = World.tableRef w
  ∧ World.crashed (table_effect w) = World.crashed w.
Proof. frame. Qed.

Lemma table_cleanup_frame w :
  World.hooks (table_cleanup w) = World.hooks w
  ∧ World.page (table_cleanup w) = World.page w
  ∧ World.request (table_cleanup w) = World.request w
  ∧ World.tableRef (table_cleanup w) = World.tableRef w
  ∧ World.crashed (table_cleanup w) = World.crashed w.
Proof. frame. Qed.

Lemma filter_effect_frame w :
  World.hooks (filter_effect w) = World.hooks w
  ∧ World.page (filter_effect w) = World.page w
  ∧ World.request (filter_effect w) = World.request w
  ∧ World.tableRef (filter_effect w) = World.tableRef w
  ∧ World.cleanup (filter_effect w) = World.cleanup w.
Proof. frame. Qed.

Lemma commit_frame cmds w :
  World.hooks (commit cmds w) = hooks_after cmds (World.hooks w)
  ∧ World.page (commit cmds w) = page_after cmds (World.page w)
  ∧ World.request (commit cmds w) = World.request w
  ∧ World.tableRef (commit cmds w) = World.tableRef w.
Proof.
  unfold commit. rewrite run_cmds_eq. destruct w. frame.
Qed.
End frames.

(** ** Commit on a mounted page *)

Section tables.
Context {T : Type} `{!GridWidget T}.
Implicit Types (w : World.t T) (cmds : list Cmd) (g : T) (h : Hooks.t).

Lemma Registry_destroy_single i g n :
  Registry.destroy i (Registry.mk [(i, g)] n) = Registry.mk [] n.
Proof. unfold Registry.destroy. simpl. by rewrite filter_cons_False, filter_nil by naive_solver. Qed.

Lemma Registry_update_single i (f : T → T) g n :
  Registry.update i f (Registry.mk [(i, g)] n) = Registry.mk [(i, f g)] n.
Proof. unfold Registry.update. simpl. by rewrite decide_True. Qed.

Lemma table_rebuild h i g n r p :
  table_effect (table_cleanup (mounted h i g n r p)) =
  mounted h n (grid_new (Hooks.tasks h) (columns (Hooks.tasks h))) (S n) r p.
Proof.
  unfold table_cleanup, mounted. cbn [World.cleanup World.tables].
  rewrite Registry_destroy_single. reflexivity.
Qed.

Lemma filter_effect_mounted h i g n r p :
  filter_effect (mounted h i g n r p) =
  mounted h i (apply_filter (Hooks.filterStatus h) g) n r p.
Proof.
  unfold filter_effect, mounted, apply_filter.
  cbn [World.tableRef World.tables World.hooks Registry.findTable Registry.live].
  case_match; by rewrite Registry_update_single.
Qed.

Lemma commit_mounted cmds h i g n r p :
  commit cmds (mounted h i g n r p) =
  mounted (hooks_after cmds h)
    (if calls_setTasks cmds then n else i) (grid_after cmds h g)
    (if calls_setTasks cmds then S n else n) r (page_after cmds p).
Proof.
  unfold commit, grid_after. rewrite run_cmds_eq. simpl.
  change (World.set_page ?p' (World.set_hooks ?h' (mounted h i g n r p)))
    with (mounted h' i g n r p').
  destruct (calls_setTasks cmds); rewrite ?table_rebuild;
    case_bool_decide; by rewrite ?filter_effect_mounted.
Qed.

End tables.

(** ** The invariant is kept by a commit *)

Section invariant.
Context {T : Type} `{!GridWidget T}.
Implicit Types (w : World.t T) (cmds : list Cmd) (g : T) (h : Hooks.t).

Lemma apply_filter_rows v g : grid_rows (apply_filter v g) = grid_rows g.
Proof. unfold apply_filter. case_match; by autorewrite with tm_len. Qed.

Lemma apply_filter_columns v g : grid_columns (apply_filter v g) = grid_columns g.
Proof. unfold apply_filter. case_match; by autorewrite with tm_len. Qed.

Lemma apply_filter_visible v g :
  grid_visible (apply_filter v g) =
  if decide (v = "") then grid_rows g else filter (λ row, Task.status row = v) (grid_rows g).
Proof.
  unfold apply_filter. destruct (truthy v) eqn:Hv.
  - apply truthy_true in Hv. rewrite decide_False by done. by autorewrite with tm_len.
  - apply truthy_false in Hv. rewrite decide_True by done. by autorewrite with tm_len.
Qed.

Lemma hooks_after_ok cmds h :
  Forall cmd_ok cmds →
  Store.wf (Hooks.tasks h) → Draft.wf (Hooks.newTask h) →
  Hooks.filterStatus h ∈ Status.filter_values →
  let h' := hooks_after cmds h in
  Store.wf (Hooks.tasks h') ∧ Draft.wf (Hooks.newTask h')
  ∧ Hooks.filterStatus h' ∈ Status.filter_values.
Proof.
  intros Hc. revert h. induction Hc as [|c cmds Hc _ IH]; intros h ? ? ?; [done|].
  apply IH; destruct c; done.
Qed.

Lemma hooks_after_tasks cmds h :
  calls_setTasks cmds = false → Hooks.tasks (hooks_after cmds h) = Hooks.tasks h.
Proof.
  revert h. induction cmds as [|c cmds IH]; intros h Hc; [done|].
  simpl in Hc. apply orb_false_iff in Hc as [? ?]. simpl.
  rewrite IH by done. by destruct c.
Qed.

Lemma page_after_ok cmds p : Toast.ok p → Toast.ok (page_after cmds p).
Proof.
  revert p. induction cmds as [|c cmds IH]; intros p Hp; [done|].
  apply IH. destruct c; simpl; auto with tm.
Qed.

Lemma grid_after_ok cmds h g :
  grid_rows g = Hooks.tasks h → grid_columns g = columns (Hooks.tasks h) → shows h g →
  let h' := hooks_after cmds h in
  let g' := grid_after cmds h g in
  grid_rows g' = Hooks.tasks h' ∧ grid_columns g' = columns (Hooks.tasks h') ∧ shows h' g'.
Proof.
  intros Hr Hc Hs h' g'. subst g'. unfold grid_after, shows. fold h'.
  assert (∃ g1, (if calls_setTasks cmds
      then grid_new (Hooks.tasks h') (columns (Hooks.tasks h')) else g) = g1
    ∧ grid_rows g1 = Hooks.tasks h' ∧ grid_columns g1 = columns (Hooks.tasks h')
    ∧ (Hooks.filterStatus h' = Hooks.filterStatus h → shows h' g1))
    as (g1 & -> & Hr1 & Hc1 & Hs1).
  { eexists; split; [done|]. destruct (calls_setTasks cmds) eqn:Hcalls.
    - rewrite grid_new_rows, grid_new_columns. split_and!; [done..|].
      intros _. left. apply grid_new_visible.
    - subst h'. rewrite hooks_after_tasks by done. split_and!; [done..|].
      intros Hf. unfold shows. by rewrite Hf, hooks_after_tasks. }
  case_bool_decide as Hf.
  - rewrite apply_filter_rows, apply_filter_columns, apply_filter_visible, Hr1.
    split_and!; [done..|]. case_decide; [by left|by right].
  - split_and!; [done..|]. apply Hs1. by destruct (decide (Hooks.filterStatus h' = Hooks.filterStatus h)).
Qed.

Lemma ok_commit cmds h i g n r p :
  Forall cmd_ok cmds → ok (mounted h i g n r p) → ok (commit cmds (mounted h i g n r p)).
Proof.
  intros Hc Hok. rewrite commit_mounted.
  inversion Hok as [|? ? ? ? ? ? Hw Hd Hf Hp Hr Hrows Hcols Hs|]; simplify_eq.
  destruct (hooks_after_ok cmds h Hc Hw Hd Hf) as (? & ? & ?).
  destruct (grid_after_ok cmds h g Hrows Hcols Hs) as (? & ? & ?).
  constructor; auto using page_after_ok.
Qed.
End invariant.

(** ** Steps *)

Section steps.
Context {T : Type} `{!GridWidget T}.
Implicit Types (w : World.t T) (cmds : list Cmd) (g : T) (h : Hooks.t).

Lemma columns_click tasks : find_click (columns tasks) = Some (click_delete tasks).
Proof. done. Qed.

Lemma view_mounted h i g n r p : view (mounted h i g n r p) = grid_visible g.
Proof. done. Qed.

Lemma shows_sublist h g : shows h g → grid_visible g `sublist_of` Hooks.tasks h.
Proof. intros [-> | [_ ->]]; [done|apply sublist_filter]. Qed.

Lemma shows_unfiltered h g :
  shows h g → Hooks.filterStatus h = "" → grid_visible g = Hooks.tasks h.
Proof. by intros [? | [? _]]. Qed.

Lemma click_row_mounted j h i g n r p :
  grid_columns g = columns (Hooks.tasks h) →
  click_row j (mounted h i g n r p) =
  match grid_visible g !! j with
  | Some row => cellClick (Hooks.tasks h) row
  | None => []
  end.
Proof. intros Hc. unfold click_row. simpl. rewrite Hc, columns_click. by case_match. Qed.

Lemma handleAddTask_ok tasks d :
  Store.wf tasks → Draft.wf d → Forall cmd_ok (handleAddTask tasks d).
Proof.
  intros Hw Hd. unfold handleAddTask. case_match; repeat constructor.
  by apply append_one_wf.
Qed.

Lemma cellClick_ok tasks row : Store.wf tasks → Forall cmd_ok (cellClick tasks row).
Proof. intros. repeat constructor. by apply remove_by_id_wf. Qed.

Lemma fetch_then_ok data : Forall cmd_ok (fetch_then data).
Proof. repeat constructor. apply initialTasks_wf. Qed.

(** The first commit, whatever the state and the page: one table, built
    from the tasks and then filtered by the filter effect. *)
Lemma mount_any h n r p :
  mount (gone h n r p) =
  mounted h n
    (apply_filter (Hooks.filterStatus h) (grid_new (Hooks.tasks h) (columns (Hooks.tasks h))))
    (S n) fetch_pending p.
Proof.
  unfold mount, fetch_effect, table_effect. simpl.
  change (World.set_cleanup _ _) with
    (mounted h n (grid_new (Hooks.tasks h) (columns (Hooks.tasks h))) (S n) fetch_pending p).
  by rewrite filter_effect_mounted.
Qed.

(** The removal of a mounted page: the table is destroyed and the ref
    detached; the state, the request and the notifications stay. *)
Lemma unmount_mounted h i g n r p : unmount (mounted h i g n r p) = gone h n r p.
Proof.
  unfold unmount, table_cleanup, mounted. cbn [World.cleanup World.tables].
  by rewrite Registry_destroy_single.
Qed.

(** A commit on a page with no table runs no effect that matters: the
    table effect finds the ref detached. *)
Lemma commit_gone cmds h n r p :
  commit cmds (gone h n r p) = gone (hooks_after cmds h) n r (page_after cmds p).
Proof.
  unfold commit. rewrite run_cmds_eq. simpl.
  destruct (calls_setTasks cmds); by case_bool_decide.
Qed.

Lemma mount_unmounted p :
  mount (World.mk Hooks.initial false Registry.empty None fetch_idle p false) =
  mounted Hooks.initial 0 (grid_clearFilter (grid_new [] (columns []))) 1 fetch_pending p
  :> World.t T.
Proof. apply (mount_any Hooks.initial 0). Qed.

Lemma ok_mount p :
  Toast.ok p →
  ok (mounted Hooks.initial 0 (grid_clearFilter (grid_new [] (columns []))) 1 fetch_pending p).
Proof.
  intros. constructor; simpl; autorewrite with tm_len; auto with tm; try done.
  - constructor.
  - apply (bool_decide_unpack _). by vm_compute.
  - left. by autorewrite with tm_len.
Qed.

Lemma ok_set_page w p : ok w → Toast.ok p → ok (World.set_page p w).
Proof. intros Hok Hp. destruct Hok; by constructor. Qed.

Lemma ok_page w : ok w → Toast.ok (World.page w).
Proof. by intros []. Qed.

(** The request is issued by the first commit: it is idle exactly on the
    page that was never mounted. *)
Lemma ok_request w : ok w → World.tableRef w = true → World.request w ≠ fetch_idle.
Proof. by intros []. Qed.

Lemma ok_fresh w :
  ok w → World.tableRef w = false → World.request w = fetch_idle →
  w = World.mk Hooks.initial false Registry.empty None fetch_idle (World.page w) false.
Proof. by intros []. Qed.

Lemma ok_settle w :
  ok w → World.request w = fetch_pending → ok (World.set_request fetch_settled w).
Proof. intros Hok Hr. destruct Hok; simplify_eq/=; by constructor. Qed.

Lemma ok_unmount w : ok w → World.tableRef w = true → ok (unmount w).
Proof.
  intros Hok Hm. destruct Hok; simplify_eq/=. rewrite unmount_mounted. by constructor.
Qed.

(** A commit of well-formed calls on a mounted page keeps the invariant. *)
Lemma ok_commit_mounted cmds w :
  Forall cmd_ok cmds → ok w → World.tableRef w = true → ok (commit cmds w).
Proof.
  intros Hc Hok Hm. destruct Hok as [|h i g n r p|]; simplify_eq/=.
  apply ok_commit; [done|by constructor].
Qed.

Lemma click_row_ok j w : ok w → Forall cmd_ok (click_row j w).
Proof.
  intros [|h i g n r p|]; [constructor| |constructor].
  rewrite click_row_mounted by done. case_match; [by apply cellClick_ok|constructor].
Qed.

Lemma ok_wf w :
  ok w →
  Store.wf (Hooks.tasks (World.hooks w)) ∧ Draft.wf (Hooks.newTask (World.hooks w))
  ∧ Hooks.filterStatus (World.hooks w) ∈ Status.filter_values.
Proof.
  intros []; simpl; split_and!; try done.
  - constructor.
  - apply Draft_blank_wf.
  - apply (bool_decide_unpack _). by vm_compute.
Qed.

(** Every enabled step keeps the invariant. *)
Lemma ok_step w e : ok w → enabled w e → ok (step w e).
Proof.
  intros Hok Hen. destruct (ok_wf w Hok) as (Hw & Hd & Hf).
  destruct e as [|data| |v|v|v| |v|j|ms| |]; simpl in *; destruct_and?;
    try (apply ok_set_page; auto using ok_page with tm; fail);
    try (apply ok_commit_mounted; [|done..]).
  - rewrite (ok_fresh w), mount_unmounted by done. by apply ok_mount, ok_page.
  - rewrite decide_True by done. case_match; [|by apply ok_settle].
    apply ok_commit_mounted; [apply fetch_then_ok|by apply ok_settle|done].
  - rewrite decide_True by done. by apply ok_settle.
  - by apply Forall_singleton.
  - by apply Forall_singleton.
  - by apply Forall_singleton.
  - by apply handleAddTask_ok.
  - by apply Forall_singleton.
  - by apply click_row_ok.
  - rewrite Hen. by apply ok_unmount.
Qed.

Lemma ok_init : ok (World.init (T:=T)).
Proof. constructor. apply ok_empty. Qed.

Lemma reachable_ok w : reachable w → ok w.
Proof. induction 1; [apply ok_init|by apply ok_step]. Qed.

Lemma reachable_run w es : reachable w → enabled_run w es → reachable (run w es).
Proof.
  revert w. induction es as [|e es IH]; intros w Hr Hen; [done|].
  destruct Hen as [He Hes]. apply IH; [by constructor|done].
Qed.

End steps.

(** ** Closed forms of the steps of a mounted page *)

Section closed_forms.
Context {T : Type} `{!GridWidget T}.
Implicit Types (w : World.t T) (cmds : list Cmd) (g : T) (h : Hooks.t).

Lemma handleAddTask_valid tasks d :
  Draft.title d ≠ "" → Draft.description d ≠ "" →
  handleAddTask tasks d =
  [ setTasks (tasks ++ [Draft.to_task (Z.of_nat (length tasks) + 1) d]);
    setNewTask Draft.blank; showToast "Task added successfully" ].
Proof.
  intros Ht Hd. unfold handleAddTask.
  by rewrite (proj2 (truthy_and _ _)) by done.
Qed.

Lemma handleAddTask_invalid tasks d :
  Draft.title d = "" ∨ Draft.description d = "" →
  handleAddTask tasks d = [ alert "Please fill in all fields." ].
Proof.
  intros Hd. unfold handleAddTask.
  by rewrite (proj2 (truthy_and_false _ _)) by done.
Qed.

(** A commit whose calls do not set the tasks nor change the filter runs no
    effect. *)
Lemma commit_no_effect cmds w :
  calls_setTasks cmds = false →
  Hooks.filterStatus (hooks_after cmds (World.hooks w)) = Hooks.filterStatus (World.hooks w) →
  commit cmds w =
  World.set_page (page_after cmds (World.page w))
    (World.set_hooks (hooks_after cmds (World.hooks w)) w).
Proof.
  intros Hc Hf. unfold commit. rewrite run_cmds_eq, Hc. simpl.
  by rewrite bool_decide_eq_false_2 by naive_solver.
Qed.

(** After a commit that sets the tasks and leaves the filter alone, the page
    has a new table built from the new tasks. *)
Lemma commit_setTasks_mounted cmds h i g n r p :
  calls_setTasks cmds = true →
  Hooks.filterStatus (hooks_after cmds h) = Hooks.filterStatus h →
  commit cmds (mounted h i g n r p) =
  let h' := hooks_after cmds h in
  mounted h' n (grid_new (Hooks.tasks h') (columns (Hooks.tasks h'))) (S n) r
    (page_after cmds p).
Proof.
  intros Hc Hf. rewrite commit_mounted. unfold grid_after.
  by rewrite Hc, bool_decide_eq_false_2 by naive_solver.
Qed.

Lemma step_AddClick_mounted h i g n r p :
  Draft.title (Hooks.newTask h) ≠ "" → Draft.description (Hooks.newTask h) ≠ "" →
  step (mounted h i g n r p) AddClick =
  let tasks' :=
    Hooks.tasks h ++ [Draft.to_task (Z.of_nat (length (Hooks.tasks h)) + 1) (Hooks.newTask h)] in
  mounted (Hooks.mk tasks' (Hooks.filterStatus h) Draft.blank)
    n (grid_new tasks' (columns tasks')) (S n) r
    (Toast.showToast "Task added successfully" p).
Proof.
  intros. simpl. by rewrite handleAddTask_valid, commit_setTasks_mounted.
Qed.

Lemma step_DeleteClick_mounted j row h i g n r p :
  grid_columns g = columns (Hooks.tasks h) → grid_visible g !! j = Some row →
  step (mounted h i g n r p) (DeleteClick j) =
  let tasks' := Store.remove_by_id (Task.id row) (Hooks.tasks h) in
  mounted (Hooks.mk tasks' (Hooks.filterStatus h) (Hooks.newTask h))
    n (grid_new tasks' (columns tasks')) (S n) r
    (Toast.showToast "Task deleted successfully" p).
Proof.
  intros Hc Hrow. simpl. rewrite click_row_mounted, Hrow by done.
  by rewrite commit_setTasks_mounted.
Qed.

Lemma step_FetchResolved_mounted data h i g n p :
  step (mounted h i g n fetch_pending p) (FetchResolved data) =
  let tasks' := Seed.initialTasks data in
  mounted (Hooks.mk tasks' (Hooks.filterStatus h) (Hooks.newTask h))
    n (grid_new tasks' (columns tasks')) (S n) fetch_settled p.
Proof.
  simpl.
  change (World.set_request fetch_settled _) with (mounted h i g n fetch_settled p).
  by rewrite commit_setTasks_mounted.
Qed.

Lemma step_FilterSelect_mounted v h i g n r p :
  step (mounted h i g n r p) (FilterSelect v) =
  mounted (Hooks.mk (Hooks.tasks h) v (Hooks.newTask h)) i
    (if decide (v = Hooks.filterStatus h) then g else apply_filter v g) n r p.
Proof.
  simpl. rewrite commit_mounted. unfold grid_after. simpl.
  case_bool_decide; [by rewrite decide_False|rewrite decide_True; [done|]].
  by destruct (decide (v = Hooks.filterStatus h)).
Qed.

Lemma step_TitleInput_mounted v h i g n r p :
  step (mounted h i g n r p) (TitleInput v) =
  mounted (Hooks.mk (Hooks.tasks h) (Hooks.filterStatus h)
             (Draft.with_title v (Hooks.newTask h))) i g n r p.
Proof. simpl. by rewrite commit_no_effect. Qed.

Lemma step_DescriptionInput_mounted v h i g n r p :
  step (mounted h i g n r p) (DescriptionInput v) =
  mounted (Hooks.mk (Hooks.tasks h) (Hooks.filterStatus h)
             (Draft.with_description v (Hooks.newTask h))) i g n r p.
Proof. simpl. by rewrite commit_no_effect. Qed.

Lemma step_StatusSelect_mounted v h i g n r p :
  step (mounted h i g n r p) (StatusSelect v) =
  mounted (Hooks.mk (Hooks.tasks h) (Hooks.filterStatus h)
             (Draft.with_status v (Hooks.newTask h))) i g n r p.
Proof. simpl. by rewrite commit_no_effect. Qed.

Lemma step_Mount_init :
  step World.init Mount =
  mounted Hooks.initial 0 (grid_clearFilter (grid_new [] (columns []))) 1
    fetch_pending Toast.empty :> World.t T.
Proof. apply mount_unmounted. Qed.

Lemma run_cons w e es : run w (e :: es) = run (step w e) es.
Proof. done. Qed.

Lemma run_nil w : run w [] = w.
Proof. done. Qed.

Lemma run_app w es1 es2 : run w (es1 ++ es2) = run (run w es1) es2.
Proof. apply foldl_app. Qed.

Lemma ok_inv_mounted w :
  ok w → World.tableRef w = true →
  ∃ h i g n r p, w = mounted h i g n r p ∧ ok (mounted h i g n r p)
    ∧ grid_rows g = Hooks.tasks h ∧ grid_columns g = columns (Hooks.tasks h)
    ∧ shows h g.
Proof.
  intros Hok Hm. destruct Hok as [|h i g n r p|]; [done| |done].
  exists h, i, g, n, r, p. split_and!; [done|by constructor|done..].
Qed.

(** A page that satisfies the invariant and has been removed. *)
Lemma ok_inv_gone w :
  ok w → World.tableRef w = false → World.request w ≠ fetch_idle →
  ∃ h n r p, w = gone h n r p ∧ r ≠ fetch_idle.
Proof. intros [| |h n r p] ? ?; [done..|]. by exists h, n, r, p. Qed.

Lemma step_Unmount_mounted h i g n r p :
  step (mounted h i g n r p) Unmount = gone h n r p.
Proof. apply unmount_mounted. Qed.

(** The events a removed page can receive only settle the request or
    concern the notifications. *)
Lemma step_gone e h n r p :
  r ≠ fetch_idle → enabled (gone h n r p) e →
  step (gone h n r p) e =
  gone h n (if settles e then fetch_settled else r) (page_step e p).
Proof.
  intros Hr Hen. destruct e; simpl in *; destruct_and?; simplify_eq;
    by rewrite ?decide_True by done.
Qed.

Lemma ok_view_mounted w j row : ok w → view w !! j = Some row → World.tableRef w = true.
Proof. by intros [] ?. Qed.

End closed_forms.

(** Replace a mounted page that satisfies the invariant by its normal form. *)
Ltac mounted_form w :=
  match goal with
  | Hok : ok w, Hm : World.tableRef w = true |- _ =>
      destruct (ok_inv_mounted w Hok Hm) as (?h & ?i & ?g & ?n & ?r & ?p & -> & ?Hok' & ?Hrows & ?Hcols & ?Hshows);
      clear Hm
  end.

#[export] Hint Rewrite @run_cons @run_nil @step_Mount_init @step_Unmount_mounted
  @step_TitleInput_mounted
  @step_DescriptionInput_mounted @step_StatusSelect_mounted @step_FetchResolved_mounted
  @step_FilterSelect_mounted : tm_step.
