(* ===== verification/Pages.v ===== *)
(** * Example pages

    Concrete pages of the component on the list grid, each defined as the
    run of events from the initial page that leads to it, with the proof
    that the run is one the browser can deliver.  The witnesses of the other
    files evaluate the theorems on these pages. *)

From S2P Require Import Prelude Data Store Seed Toast Grid Component Invariant.

Definition three_todos : list Todo.t :=
  [ Todo.mk 1 "delectus aut autem" false;
    Todo.mk 2 "quis ut nam facilis" false;
    Todo.mk 3 "fugiat veniam minus" true ].

(** Mounted, the form filled in. *)
Definition page_drafted : World.t ListGrid.t :=
  run World.init [Mount; TitleInput "Buy milk"; DescriptionInput "2 litres"].

(** Mounted and seeded with three tasks. *)
Definition page_seeded : World.t ListGrid.t :=
  run World.init [Mount; FetchResolved three_todos].

(** Seeded, the filter on Done, the form filled in with a To Do task. *)
Definition page_filtered : World.t ListGrid.t :=
  run World.init
    [Mount; FetchResolved three_todos; FilterSelect "Done";
     TitleInput "Buy milk"; DescriptionInput "2 litres"].

(** A task added before the seed arrives. *)
Definition page_early_add : World.t ListGrid.t :=
  run World.init [Mount; TitleInput "Buy milk"; DescriptionInput "2 litres"; AddClick].

(** Removed from the page while the seed request is pending. *)
Definition page_removed : World.t ListGrid.t :=
  run World.init [Mount; TitleInput "Buy milk"; Unmount].

(** Proves that a concrete run from the initial page is reachable. *)
Ltac reachable_by_run :=
  apply reachable_run; [constructor|apply (bool_decide_unpack _); by vm_compute].

Lemma page_drafted_reachable : reachable page_drafted.
Proof. reachable_by_run. Qed.

Lemma page_seeded_reachable : reachable page_seeded.
Proof. reachable_by_run. Qed.

Lemma page_filtered_reachable : reachable page_filtered.
Proof. reachable_by_run. Qed.

Lemma page_early_add_reachable : reachable page_early_add.
Proof. reachable_by_run. Qed.

Lemma page_removed_reachable : reachable page_removed.
Proof. reachable_by_run. Qed.
