(* ===== verification/Response.v ===== *)
(** * The response of the seed request, as JavaScript sees it

    [Seed.v] maps typed records ([Todo.t]) to tasks.  The source has no
    types: the [then] callback of lines 19-27 is handed the value
    [response.json()] parsed, whatever it is, and runs
    [data.slice(0, 20).map(...)] on it.  This file runs the callback on
    [Js.value]:

    - [seed_task_js] is the arrow function of lines 20-25 and
      [initialTasks_js] the chain of line 20; [None] is a [TypeError],
      which rejects the promise of [then] and is caught by nothing;
    - [decode] reads a response as the records the typed model speaks of;
    - [settle] gives the event of the page model ([Component.v]) a
      response stands for: [FetchRejected] when the request or the parse
      fails or the callback throws, [FetchResolved] of the decoded records
      when the response decodes, none when the callback returns tasks
      that are not tasks of the typed store.

    The theorems say when the callback throws, what it returns on every
    array, that on a response that decodes it returns the tasks of
    [Seed.initialTasks], and what the page does in each case. *)

From Stdlib Require Import QArith Qcanon.
From S2P Require Import Prelude Data Store Seed Json Toast Grid Component Invariant Pages.

(** ** The tasks the callback builds *)

Module JsTask.

(** The object literal of lines 20-25: [id] and [title] are the values
    read from the element, [description] and [status] are string
    literals. *)
Record t := mk {
  id : Js.value;
  title : Js.value;
  description : string;
  status : string
}.

#[global] Instance eq_dec : EqDecision t.
Proof. solve_decision. Defined.

(** A task of the typed store as the object it is. *)
Definition embed (task : Task.t) : t :=
  {| id := Js.number (Qc_of_Z (Task.id task));
     title := Js.text (Task.title task);
     description := Task.description task;
     status := Task.status task |}.

(** The task of the typed store an object is, when its [id] is an integer
    and its [title] a string. *)
Definition project (task : t) : option Task.t :=
  match id task, title task with
  | Js.number q, Js.text s =>
      z ← Js.int_of q; Some (Task.mk z s (description task) (status task))
  | _, _ => None
  end.

End JsTask.

(** The arrow function of lines 20-25 on one element of the response. *)
Definition seed_task_js (task : Js.value) : option JsTask.t :=
  id ← Js.get "id" task;
  title ← Js.get "title" task;
  completed ← Js.get "completed" task;
  Some {| JsTask.id := id;
          JsTask.title := title;
          JsTask.description := "No description provided";
          JsTask.status := if Js.truthy completed then "Done" else "To Do" |}.

(** [data.slice(0, 20).map(...)] (lines 20-25), the argument of the
    [setTasks] of line 26. *)
Definition initialTasks_js (data : Js.value) : option (list JsTask.t) :=
  Js.slice 20 data ≫= Js.map seed_task_js.

(** ** Responses and records *)

(** The record of the typed model an element of the response is: an object
    whose [id] is an integer and whose [title] is a string; [completed] is
    read for its truthiness, which every value has. *)
Definition todo_of (v : Js.value) : option Todo.t :=
  match v with
  | Js.object fields =>
      match Js.own "id" fields, Js.own "title" fields with
      | Some (Js.number q), Some (Js.text s) =>
          z ← Js.int_of q;
          Some (Todo.mk z s (Js.truthy (default Js.undefined (Js.own "completed" fields))))
      | _, _ => None
      end
  | _ => None
  end.

(** A record as the remote source writes it. *)
Definition todo_value (task : Todo.t) : Js.value :=
  Js.object [ ("id", Js.number (Qc_of_Z (Todo.id task)));
              ("title", Js.text (Todo.title task));
              ("completed", Js.boolean (Todo.completed task)) ].

(** The records of a response, as far as the callback looks: an array
    whose first 20 elements are records. *)
Definition decode (data : Js.value) : option (list Todo.t) :=
  match data with
  | Js.array vs => mapM todo_of (take 20 vs)
  | _ => None
  end.

(** What comes back from the network: the request or [response.json()]
    fails, or a body is parsed. *)
Inductive response :=
| failed
| body (data : Js.value).

(** The event of the page a response stands for.  A throw in the callback
    rejects the promise like a failure of the request does; tasks that
    are not tasks of the typed store have no event. *)
Definition settle (r : response) : option Event :=
  match r with
  | failed => Some FetchRejected
  | body data =>
      match initialTasks_js data with
      | None => Some FetchRejected
      | Some _ => FetchResolved <$> decode data
      end
  end.

(** ** Concrete responses *)

(** Three records as a server may write them: keys the callback does not
    read, a repeated key, and [completed] given by other values than
    booleans. *)
Definition response_three : Js.value :=
  Js.array
    [ Js.object [ ("userId", Js.number (Qc_of_Z 1)); ("id", Js.number (Qc_of_Z 1));
                  ("title", Js.text "delectus aut autem"); ("completed", Js.boolean false) ];
      Js.object [ ("id", Js.number (Qc_of_Z 7)); ("id", Js.number (Qc_of_Z 2));
                  ("title", Js.text "quis ut nam facilis"); ("completed", Js.number (Qc_of_Z 0)) ];
      Js.object [ ("id", Js.number (Qc_of_Z 3)); ("title", Js.text "fugiat veniam minus");
                  ("completed", Js.text "yes") ] ].

(** The body of an error response: an object, not an array. *)
Definition response_error : Js.value := Js.object [ ("error", Js.text "Not Found") ].

(** An array with a hole: its second element is [null]. *)
Definition response_hole : Js.value :=
  Js.array [ todo_value (Todo.mk 1 "delectus aut autem" false); Js.null ].

(** An array of values that are not records. *)
Definition response_untyped : Js.value :=
  Js.array [ Js.object []; Js.text "task"; Js.array [] ].

(** What the callback guarantees of every task it builds. *)
Definition seeded (task : JsTask.t) : Prop :=
  JsTask.description task = "No description provided"
  ∧ (JsTask.status task = "Done" ∨ JsTask.status task = "To Do").

(** ** One element *)

Section element.
Implicit Types (v : Js.value) (task : Todo.t).

Lemma project_embed (t : Task.t) : JsTask.project (JsTask.embed t) = Some t.
Proof. by destruct t. Qed.

Lemma project_Some (o : JsTask.t) (t : Task.t) :
  JsTask.project o = Some t → o = JsTask.embed t.
Proof.
  destruct o as [[] [] d s]; try done. unfold JsTask.project. simpl.
  destruct (Js.int_of q) as [z|] eqn:Hq; simpl; [|done]. intros [= <-].
  unfold JsTask.embed. simpl. by rewrite (int_of_Some _ _ Hq).
Qed.

(** The callback throws exactly on [null] and [undefined]. *)
Lemma seed_task_js_None v : seed_task_js v = None ↔ Js.nullish v.
Proof. by destruct v. Qed.

Lemma seed_task_js_seeded v o : seed_task_js v = Some o → seeded o.
Proof.
  unfold seed_task_js. intros Ho. simplify_option_eq. split; [done|].
  simpl. case_match; auto.
Qed.

(** On a record the callback builds the task of [Seed.seed_task]. *)
Lemma seed_task_js_todo v task :
  todo_of v = Some task → seed_task_js v = Some (JsTask.embed (Seed.seed_task task)).
Proof.
  destruct v as [| | | | | |fields]; try done. unfold todo_of, seed_task_js.
  rewrite !get_object. simpl.
  destruct (Js.own "id" fields) as [[| | |q| | |]|]; try done.
  destruct (Js.own "title" fields) as [[| | | |s| |]|]; try done. simpl.
  destruct (Js.int_of q) as [z|] eqn:Hq; simpl; [|done]. intros [= <-].
  unfold JsTask.embed, Seed.seed_task. simpl. by rewrite (int_of_Some _ _ Hq).
Qed.

(** The task the callback builds is a task of the typed store exactly when
    the element is a record. *)
Lemma seed_task_js_project v o :
  seed_task_js v = Some o → is_Some (JsTask.project o) ↔ is_Some (todo_of v).
Proof.
  destruct v as [| | | | | |fields]; try done; simpl;
    try (intros [= <-]; simpl; split; by intros [? ?]).
  unfold seed_task_js. rewrite !get_object. simpl. intros [= <-].
  unfold JsTask.project. simpl.
  destruct (Js.own "id" fields) as [[| | |q| | |]|]; simpl;
    try (split; by intros [? ?]).
  destruct (Js.own "title" fields) as [[| | | |s| |]|]; simpl;
    try (split; by intros [? ?]).
  destruct (Js.int_of q); simpl; split; intros [? ?]; first [done|by eexists].
Qed.

End element.

(** ** The whole response *)

Section whole.
Implicit Types (data : Js.value) (vs : list Js.value).

Lemma initialTasks_js_array vs :
  initialTasks_js (Js.array vs) = mapM seed_task_js (take 20 vs).
Proof. done. Qed.

Lemma initialTasks_js_not_array data :
  Js.is_array data = false → initialTasks_js data = None.
Proof. by destruct data. Qed.

Lemma decode_array data todos : decode data = Some todos → ∃ vs, data = Js.array vs.
Proof. destruct data; try done. by eexists. Qed.

(** On a response that decodes the callback returns the tasks of the typed
    model. *)
Lemma initialTasks_js_decode data todos :
  decode data = Some todos →
  initialTasks_js data = Some (JsTask.embed <$> Seed.initialTasks todos).
Proof.
  intros Hd. destruct (decode_array _ _ Hd) as [vs ->]. simpl in Hd.
  rewrite initialTasks_js_array. apply mapM_Some.
  apply mapM_Some in Hd. pose proof (Forall2_length _ _ _ Hd) as Hlen.
  unfold Seed.initialTasks. rewrite (take_ge todos) by (rewrite <-Hlen, length_take; lia).
  rewrite <-list_fmap_compose. apply Forall2_fmap_r.
  eapply Forall2_impl; [done|]. intros v task. apply seed_task_js_todo.
Qed.

(** The callback throws on a value that is not an array, and on an array
    one of whose first 20 elements is [null] or [undefined]; on no other
    value. *)
Lemma initialTasks_js_None data :
  initialTasks_js data = None ↔
  Js.is_array data = false
  ∨ ∃ vs i v, data = Js.array vs ∧ i < 20 ∧ vs !! i = Some v ∧ Js.nullish v.
Proof.
  destruct data as [| | | | |vs|]; try (split; [by left|done]).
  rewrite initialTasks_js_array, mapM_None, Exists_exists. split.
  - intros (v & (i & Hi & ?)%elem_of_take & Hv%seed_task_js_None).
    right. by exists vs, i, v.
  - intros [?|(? & i & v & [= <-] & ? & ? & Hv)]; [done|].
    exists v. split; [apply elem_of_take; by exists i|by apply seed_task_js_None].
Qed.

(** What it returns when it returns. *)
Lemma initialTasks_js_Some data objects :
  initialTasks_js data = Some objects →
  ∃ vs, data = Js.array vs
    ∧ length objects = 20 `min` length vs
    ∧ Forall seeded objects
    ∧ (is_Some (mapM JsTask.project objects) ↔ is_Some (decode data)).
Proof.
  destruct data as [| | | | |vs|]; try done. rewrite initialTasks_js_array.
  intros Hm. exists vs. pose proof (length_mapM _ _ _ Hm) as Hlen.
  rewrite length_take in Hlen. apply mapM_Some in Hm.
  split_and!; [done|lia| |].
  - eapply Forall2_Forall_r; [done|]. apply Forall_true. intros v o. apply seed_task_js_seeded.
  - simpl. rewrite !mapM_is_Some. clear Hlen. induction Hm as [|v o vs' os Ho _ IH]; [done|].
    rewrite !Forall_cons, IH. simpl. by rewrite (seed_task_js_project v o).
Qed.

Lemma project_embed_all (tasks : list Task.t) :
  mapM JsTask.project (JsTask.embed <$> tasks) = Some tasks.
Proof. apply mapM_fmap_Some, project_embed. Qed.

(** The typed model covers every response on which the callback builds
    tasks with integer ids and string titles. *)
Lemma initialTasks_js_typed data objects tasks :
  initialTasks_js data = Some objects → mapM JsTask.project objects = Some tasks →
  ∃ todos, decode data = Some todos ∧ tasks = Seed.initialTasks todos.
Proof.
  intros Hi Hp. destruct (initialTasks_js_Some _ _ Hi) as (vs & -> & _ & _ & Hd).
  destruct (proj1 Hd) as [todos Htodos]; [by eexists|]. exists todos. split; [done|].
  rewrite (initialTasks_js_decode _ _ Htodos) in Hi. injection Hi as <-.
  rewrite project_embed_all in Hp. by injection Hp.
Qed.

(** C16: The callback of the seed request on a response that decodes.  When
    the parsed body is an array whose first 20 elements are objects with an
    integer [id] and a string [title], the array the callback passes to
    [setTasks] is, task for task, the array [Seed.initialTasks] computes on
    the decoded records: [Seed.v] loses nothing by speaking of typed
    records.  Keys the callback does not read, repeated keys and the type
    of [completed] do not matter.  Conversely, whenever the callback builds
    tasks with integer ids and string titles, the response decodes and the
    tasks are those of [Seed.initialTasks]. *)
Theorem response_decodes data todos :
  decode data = Some todos →
  initialTasks_js data = Some (JsTask.embed <$> Seed.initialTasks todos)
  ∧ mapM JsTask.project (JsTask.embed <$> Seed.initialTasks todos)
    = Some (Seed.initialTasks todos)
  ∧ ∀ data' objects tasks,
      initialTasks_js data' = Some objects → mapM JsTask.project objects = Some tasks →
      ∃ todos', decode data' = Some todos' ∧ tasks = Seed.initialTasks todos'.
Proof.
  intros Hd. split_and!; [by apply initialTasks_js_decode|apply project_embed_all|].
  apply initialTasks_js_typed.
Qed.

(** C13: The outcome of the callback on every value.  It throws a
    [TypeError] exactly when the body is not an array or one of its first
    20 elements is [null] or [undefined]; elements after the 20th are not
    looked at.  When it returns, it returns one task for each of the first
    20 elements, each with the placeholder description and the status Done
    or To Do, whatever the elements are: nothing in the callback checks
    that an element has an [id] or a [title]. *)
Theorem seed_callback_outcome data :
  (initialTasks_js data = None ↔
     Js.is_array data = false
     ∨ ∃ vs i v, data = Js.array vs ∧ i < 20 ∧ vs !! i = Some v ∧ Js.nullish v)
  ∧ ∀ objects, initialTasks_js data = Some objects →
      ∃ vs, data = Js.array vs
        ∧ length objects = 20 `min` length vs
        ∧ Forall seeded objects.
Proof.
  split; [apply initialTasks_js_None|]. intros objects Hi.
  destruct (initialTasks_js_Some _ _ Hi) as (vs & ? & ? & ? & _). eauto.
Qed.

End whole.

(** ** The response on the page *)

Section page.
Context {T : Type} `{!GridWidget T}.
Implicit Types (w : World.t T) (r : response).

Lemma settle_decodes data todos :
  decode data = Some todos → settle (body data) = Some (FetchResolved todos).
Proof. intros Hd. simpl. by rewrite (initialTasks_js_decode _ _ Hd), Hd. Qed.

(** The two events a response can stand for. *)
Lemma settle_Some r e :
  settle r = Some e →
  e = FetchRejected ∧ (r = failed ∨ ∃ data, r = body data ∧ initialTasks_js data = None)
  ∨ ∃ data todos, r = body data ∧ decode data = Some todos ∧ e = FetchResolved todos.
Proof.
  destruct r as [|data]; simpl; [intros [= <-]; left; eauto|].
  destruct (initialTasks_js data) eqn:Hi; [|intros [= <-]; left; eauto].
  destruct (decode data) as [todos|] eqn:Hd; [|done]. intros [= <-]. right. eauto.
Qed.

(** C14: What the page does with the response of the seed request.  While
    the request is awaited on a mounted page, a failure of the request or
    of the parse and a throw of the callback all leave the page as it was
    but for the request, which is settled: no task, no notification, no
    rebuild of the grid.  A response that decodes settles the request,
    puts in the store the very tasks the callback built, keeps the draft,
    the filter selection and the notifications, and the rebuilt grid
    displays the store.  When the component has been removed the response
    only settles the request, and once the request is settled no response
    has any effect. *)
Theorem response_on_page w r e :
  ok w → settle r = Some e →
  let w' := step w e in
  (World.request w = fetch_pending → World.tableRef w = true →
     World.request w' = fetch_settled ∧ World.page w' = World.page w
     ∧ match r with
       | body data =>
           match initialTasks_js data with
           | Some objects =>
               JsTask.embed <$> Hooks.tasks (World.hooks w') = objects
               ∧ Hooks.filterStatus (World.hooks w') = Hooks.filterStatus (World.hooks w)
               ∧ Hooks.newTask (World.hooks w') = Hooks.newTask (World.hooks w)
               ∧ view w' = Hooks.tasks (World.hooks w')
           | None => w' = World.set_request fetch_settled w
           end
       | failed => w' = World.set_request fetch_settled w
       end)
  ∧ (World.request w = fetch_pending → World.tableRef w = false →
       w' = World.set_request fetch_settled w)
  ∧ (World.request w ≠ fetch_pending → w' = w).
Proof.
  intros Hok Hr w'. subst w'.
  destruct (settle_Some r e Hr) as [[-> Hf]|(data & todos & -> & Hd & ->)]; simpl.
  - split_and!; intros Hp; rewrite ?decide_True, ?decide_False by done; try done.
    intros _. split_and!; [done..|]. by destruct Hf as [->|(? & -> & ->)].
  - split_and!; intros Hp; rewrite ?decide_True, ?decide_False by done; try done;
      intros Hm; rewrite Hm; [|done].
    mounted_form w. simpl in Hp. subst.
    change (World.set_request fetch_settled _) with (mounted h i g n fetch_settled p).
    rewrite (initialTasks_js_decode _ _ Hd), commit_setTasks_mounted by done. simpl.
    split_and!; [done..|apply grid_new_visible].
Qed.

End page.

(** ** Witnesses *)

Lemma response_decodes_witness :
  initialTasks_js response_three =
  Some [ JsTask.mk (Js.number (Qc_of_Z 1)) (Js.text "delectus aut autem")
           "No description provided" "To Do";
         JsTask.mk (Js.number (Qc_of_Z 2)) (Js.text "quis ut nam facilis")
           "No description provided" "To Do";
         JsTask.mk (Js.number (Qc_of_Z 3)) (Js.text "fugiat veniam minus")
           "No description provided" "Done" ].
Proof.
  exact (proj1 (response_decodes response_three
    [Todo.mk 1 "delectus aut autem" false; Todo.mk 2 "quis ut nam facilis" false;
     Todo.mk 3 "fugiat veniam minus" true] eq_refl)).
Defined.

Lemma seed_callback_outcome_witness :
  initialTasks_js response_error = None ∧ initialTasks_js response_hole = None
  ∧ ∃ objects, initialTasks_js response_untyped = Some objects
      ∧ Forall seeded objects ∧ mapM JsTask.project objects = None.
Proof.
  split_and!.
  - apply (proj1 (seed_callback_outcome response_error)). by left.
  - apply (proj1 (seed_callback_outcome response_hole)). right.
    exists [todo_value (Todo.mk 1 "delectus aut autem" false); Js.null], 1, Js.null.
    split_and!; [done|lia|done..].
  - destruct (proj2 (seed_callback_outcome response_untyped) _ eq_refl)
      as (vs & _ & _ & Hs).
    eexists. split; [reflexivity|]. split; [exact Hs|done].
Defined.

Lemma response_on_page_witness :
  step page_early_add FetchRejected = World.set_request fetch_settled page_early_add
  ∧ JsTask.embed <$> Hooks.tasks (World.hooks (step page_early_add (FetchResolved three_todos))) =
    [ JsTask.mk (Js.number (Qc_of_Z 1)) (Js.text "delectus aut autem")
        "No description provided" "To Do";
      JsTask.mk (Js.number (Qc_of_Z 2)) (Js.text "quis ut nam facilis")
        "No description provided" "To Do";
      JsTask.mk (Js.number (Qc_of_Z 3)) (Js.text "fugiat veniam minus")
        "No description provided" "Done" ].
Proof.
  assert (ok page_early_add) as Hok by apply reachable_ok, page_early_add_reachable.
  split.
  - pose proof (response_on_page page_early_add (body response_error) FetchRejected Hok eq_refl)
      as (H & _). by destruct (H eq_refl eq_refl) as (_ & _ & ?).
  - pose proof (response_on_page page_early_add (body response_three)
      (FetchResolved three_todos) Hok eq_refl) as (H & _).
    pose proof (H eq_refl eq_refl) as (_ & _ & H'). vm_compute in H'.
    destruct H' as [H' _]. vm_compute. exact H'.
Defined.
