(* ===== verification/Markup.v ===== *)
(** * The markup the component returns (lines 102-160)

    [Component.v] keeps of the JSX what the page model needs: the values
    and options of the form controls ([render]) and one event per handler
    ([Event], [step]).  This file holds the JSX itself, element for element
    and prop for prop ([jsx]), as a tree of [Jsx.node], and shows that the
    page model reads it rightly:

    - the values and options of [render] are those of the controls of the
      tree ([view_of]);
    - the handlers in the tree are five, and the form events of the page
      model are the firing of each ([fire]) followed by a commit;
    - the shape of the tree does not depend on the state, so React keeps
      every element from one render to the next, among them the [div] that
      carries [tableRef], which has no children of React's own: the table
      the grid library builds inside it is not touched by a re-render;
    - ids are distinct, the label points to the filter select, and on a
      reachable page each select displays one of its options.

    A handler is kept as the function from the value of the event's target
    to the calls it makes ([OnChange]), or as the list of calls it makes
    ([OnClick]); class names and texts are kept as they are written. *)

From S2P Require Import Prelude Data Store Seed Toast Grid Component Invariant Pages.

Module Jsx.

(** The props the source writes. *)
Inductive attr :=
| ClassName (s : string)
| InputType (s : string)
| Placeholder (s : string)
| Value (s : string)
| Id (s : string)
| HtmlFor (s : string)
| Ref
| OnChange (f : string → list Cmd)
| OnClick (cmds : list Cmd).

Unset Elimination Schemes.

Inductive node :=
| el (tag : string) (attrs : list attr) (children : list node)
| str (s : string).

Set Elimination Schemes.

Definition tag_of (n : node) : option string :=
  match n with el t _ _ => Some t | str _ => None end.

Definition attrs_of (n : node) : list attr :=
  match n with el _ a _ => a | str _ => [] end.

Definition children_of (n : node) : list node :=
  match n with el _ _ cs => cs | str _ => [] end.

(** The element and everything below it, in document order. *)
Fixpoint descendants (n : node) : list node :=
  n :: match n with
       | el _ _ cs => concat (descendants <$> cs)
       | str _ => []
       end.

(** The name of a prop. *)
Definition key (a : attr) : string :=
  match a with
  | ClassName _ => "className"
  | InputType _ => "type"
  | Placeholder _ => "placeholder"
  | Value _ => "value"
  | Id _ => "id"
  | HtmlFor _ => "htmlFor"
  | Ref => "ref"
  | OnChange _ => "onChange"
  | OnClick _ => "onClick"
  end.

Definition value_of (n : node) : option string :=
  head (omap (λ a, match a with Value s => Some s | _ => None end) (attrs_of n)).

Definition id_of (n : node) : option string :=
  head (omap (λ a, match a with Id s => Some s | _ => None end) (attrs_of n)).

Definition placeholder_of (n : node) : option string :=
  head (omap (λ a, match a with Placeholder s => Some s | _ => None end) (attrs_of n)).

Definition for_of (n : node) : option string :=
  head (omap (λ a, match a with HtmlFor s => Some s | _ => None end) (attrs_of n)).

Definition on_change (n : node) : option (string → list Cmd) :=
  head (omap (λ a, match a with OnChange f => Some f | _ => None end) (attrs_of n)).

Definition on_click (n : node) : option (list Cmd) :=
  head (omap (λ a, match a with OnClick cmds => Some cmds | _ => None end) (attrs_of n)).

Definition has_ref (n : node) : bool :=
  existsb (λ a, match a with Ref => true | _ => false end) (attrs_of n).

Definition has_handler (n : node) : bool :=
  existsb (λ a, match a with OnChange _ | OnClick _ => true | _ => false end) (attrs_of n).

(** The option values of a select. *)
Definition options_of (n : node) : list string := omap value_of (children_of n).

(** Selectors. *)
Definition by_placeholder (s : string) (t : node) : option node :=
  head (filter (λ n, placeholder_of n = Some s) (descendants t)).

Definition by_id (s : string) (t : node) : option node :=
  head (filter (λ n, id_of n = Some s) (descendants t)).

Definition by_tag (s : string) (t : node) : list node :=
  filter (λ n, tag_of n = Some s) (descendants t).

Definition ids (t : node) : list string := omap id_of (descendants t).

(** The tree without the props that carry state or closures.  React keeps
    an element from one render to the next when its type and its position
    are the same (no element of the source has a key); when the skeletons
    of two renders are equal every element is kept and no other prop of
    it changes. *)
Fixpoint skeleton (n : node) : node :=
  match n with
  | el t a cs =>
      el t (filter (λ a, key a ∉ ["value"; "onChange"; "onClick"]) a) (skeleton <$> cs)
  | str s => str s
  end.

(** A change event on an element, with the value of the target. *)
Definition change (v : string) (n : node) : option (list Cmd) :=
  (λ f, f v) <$> on_change n.

End Jsx.

Import Jsx.

(** [<option value=v>label</option>] *)
Definition option_el (v label : string) : node := el "option" [Value v] [str label].

(** The JSX of lines 102-160, with the state of the render. *)
Definition jsx (h : Hooks.t) : node :=
  let tasks := Hooks.tasks h in
  let filterStatus := Hooks.filterStatus h in
  let newTask := Hooks.newTask h in
  el "div" [ClassName "container mx-auto p-4"]
    [ el "h1" [ClassName "text-2xl font-bold mb-4"] [str "Task List Manager"];
      el "div" [ClassName "mb-4"]
        [ el "input"
            [ InputType "text"; Placeholder "Title"; ClassName "border rounded p-2 mr-2";
              Value (Draft.title newTask); OnChange (onTitleChange newTask) ] [];
          el "input"
            [ InputType "text"; Placeholder "Description"; ClassName "border rounded p-2 mr-2";
              Value (Draft.description newTask); OnChange (onDescriptionChange newTask) ] [];
          el "select"
            [ ClassName "border rounded p-2 mr-2";
              Value (Draft.status newTask); OnChange (onStatusChange newTask) ]
            [ option_el "To Do" "To Do";
              option_el "In Progress" "In Progress";
              option_el "Done" "Done" ];
          el "button"
            [ ClassName "bg-blue-500 text-white rounded px-4 py-2";
              OnClick (handleAddTask tasks newTask) ]
            [ str "Add Task" ] ];
      el "div" [ClassName "mb-4"]
        [ el "label" [HtmlFor "filter-status"; ClassName "mr-2"] [str "Filter by Status:"];
          el "select"
            [ Id "filter-status"; ClassName "border rounded p-2";
              Value filterStatus; OnChange onFilterChange ]
            [ option_el "" "All";
              option_el "To Do" "To Do";
              option_el "In Progress" "In Progress";
              option_el "Done" "Done" ] ];
      el "div" [Ref; Id "task-table"] [] ].

(** The values and options the page displays, read from the tree. *)
Definition view_of (t : node) : option View :=
  title ← by_placeholder "Title" t;
  description ← by_placeholder "Description" t;
  status ← head (by_tag "select" t);
  filter ← by_id "filter-status" t;
  title_value ← value_of title;
  description_value ← value_of description;
  status_value ← value_of status;
  filter_value ← value_of filter;
  Some (mk_View title_value description_value status_value (options_of status)
          filter_value (options_of filter)).

(** The calls made when the browser delivers an event of the form to the
    element it concerns: the two inputs by their placeholder, the select of
    the form (the first of the document), the button, the filter select by
    its id. *)
Definition fire (t : node) (e : Event) : option (list Cmd) :=
  match e with
  | TitleInput v => by_placeholder "Title" t ≫= change v
  | DescriptionInput v => by_placeholder "Description" t ≫= change v
  | StatusSelect v => head (by_tag "select" t) ≫= change v
  | AddClick => head (by_tag "button" t) ≫= on_click
  | FilterSelect v => by_id "filter-status" t ≫= change v
  | _ => None
  end.

(** The events of the form and of the filter. *)
Definition form_event (e : Event) : bool :=
  match e with
  | TitleInput _ | DescriptionInput _ | StatusSelect _ | AddClick | FilterSelect _ => true
  | _ => false
  end.

(** The elements that carry a handler, and those that carry the ref. *)
Definition handlers (t : node) : list node := filter (λ n, has_handler n) (descendants t).
Definition refs (t : node) : list node := filter (λ n, has_ref n) (descendants t).

(** The targets of the labels are controls of the tree. *)
Definition labels_bound (t : node) : Prop :=
  Forall (λ s, by_id s t ≫= tag_of = Some "select") (omap for_of (descendants t)).

(** No element is given the same prop twice. *)
Definition props_distinct (t : node) : Prop :=
  Forall (λ n, NoDup (key <$> attrs_of n)) (descendants t).

(** ** The tree of the component *)

Section markup.
Implicit Types (h : Hooks.t).

(** The five elements with a handler, in document order. *)
Lemma handlers_jsx h :
  tag_of <$> handlers (jsx h) =
  [Some "input"; Some "input"; Some "select"; Some "button"; Some "select"].
Proof. done. Qed.

Lemma view_of_jsx h : view_of (jsx h) = Some (render h).
Proof. done. Qed.

Lemma fire_form h e : form_event e → is_Some (fire (jsx h) e).
Proof. by destruct e. Qed.

Lemma fire_other h e : ¬ form_event e → fire (jsx h) e = None.
Proof. destruct e; simpl; intros Hn; try done; by destruct Hn. Qed.

Lemma skeleton_jsx h : skeleton (jsx h) = skeleton (jsx Hooks.initial).
Proof. done. Qed.

Lemma refs_jsx h : refs (jsx h) = [el "div" [Ref; Id "task-table"] []].
Proof. done. Qed.

Lemma ids_jsx h : ids (jsx h) = ["filter-status"; "task-table"].
Proof. done. Qed.

Lemma labels_bound_jsx h : labels_bound (jsx h).
Proof. apply (bool_decide_unpack _). by vm_compute. Qed.

Lemma props_distinct_jsx h : props_distinct (jsx h).
Proof. apply (bool_decide_unpack _). by vm_compute. Qed.

End markup.

(** ** The page model reads the markup *)

Section page.
Context {T : Type} `{!GridWidget T}.
Implicit Types (w : World.t T).

(** A form event is the firing of its handler, then a commit. *)
Lemma step_fire w e cmds :
  fire (jsx (World.hooks w)) e = Some cmds → step w e = commit cmds w.
Proof. destruct e; simpl; try done; by intros [= <-]. Qed.

(** C15: The page model reads the markup rightly.  The values and options
    [render] gives the form are those of the controls of the JSX tree; the
    tree has five elements with a handler (the two inputs, the select of
    the form, the button, the filter select); each event of the form or of
    the filter is the firing of the handler of its element with the value
    of the target, followed by a commit, and no other event of the page
    fires a handler of the tree. *)
Theorem markup_wires_page w e :
  let t := jsx (World.hooks w) in
  view_of t = Some (render (World.hooks w))
  ∧ length (handlers t) = 5
  ∧ (form_event e → ∃ cmds, fire t e = Some cmds ∧ step w e = commit cmds w)
  ∧ (¬ form_event e → fire t e = None).
Proof.
  intros t. subst t. split_and!; [done|done| |apply fire_other].
  intros [cmds Hc]%(fire_form (World.hooks w)). eauto using step_fire.
Qed.

(** C34: The markup is stable and well formed.  The shape of the tree does
    not depend on the state, so every element survives a re-render; one
    element carries the ref, the [div] with id task-table, and it has no
    children in the JSX, so a re-render leaves what the grid library built
    inside it alone; ids are distinct, no prop is given twice and the label
    points to the filter select.  On a page that satisfies the invariant
    each select has its value among its options, so what it displays is
    the state. *)
Theorem markup_stable w :
  let t := jsx (World.hooks w) in
  skeleton t = skeleton (jsx Hooks.initial)
  ∧ refs t = [el "div" [Ref; Id "task-table"] []]
  ∧ NoDup (ids t) ∧ props_distinct t ∧ labels_bound t
  ∧ (ok w → ∀ s v, s ∈ by_tag "select" t → value_of s = Some v → v ∈ options_of s).
Proof.
  intros t. subst t.
  split_and!; [done|done| |apply props_distinct_jsx|apply labels_bound_jsx|].
  { rewrite ids_jsx. apply (bool_decide_unpack _). by vm_compute. }
  intros Hok%ok_wf s v Hs Hv. destruct Hok as (_ & Hd & Hf).
  simpl in Hs. apply elem_of_cons in Hs as [->|Hs%elem_of_cons].
  - injection Hv as <-. exact Hd.
  - destruct Hs as [->|Hs%elem_of_nil]; [|done]. injection Hv as <-. exact Hf.
Qed.

End page.

(** ** Witnesses *)

Lemma markup_wires_page_witness :
  step page_drafted AddClick =
  commit [ setTasks [Task.mk 1 "Buy milk" "2 litres" "To Do"];
           setNewTask (Draft.mk "" "" "To Do");
           showToast "Task added successfully" ] page_drafted.
Proof.
  destruct (proj1 (proj2 (proj2 (markup_wires_page page_drafted AddClick))) I)
    as (cmds & Hf & Hs).
  vm_compute in Hf. injection Hf as <-. exact Hs.
Defined.

Lemma markup_stable_witness :
  "Done" ∈ options_of
    (el "select"
       [Id "filter-status"; ClassName "border rounded p-2"; Value "Done"; OnChange onFilterChange]
       [option_el "" "All"; option_el "To Do" "To Do";
        option_el "In Progress" "In Progress"; option_el "Done" "Done"]).
Proof.
  destruct (markup_stable page_filtered) as (_ & _ & _ & _ & _ & H).
  apply (H (reachable_ok _ page_filtered_reachable)); [|done].
  vm_compute. apply list_elem_of_further, list_elem_of_here.
Defined.
