(* ===== verification/Behaviour.v ===== *)
(** * Behaviour of the TaskManager page

    What each event does to a page that satisfies the invariant, on every
    branch of its handler, and what holds of every page that can be reached.
    The theorems are stated over any grid widget that satisfies the laws of
    [GridWidget]; the witnesses run the component on the list instance, on the
    pages of [Pages.v]. *)

From S2P Require Import Prelude Data Store Seed Toast Grid Component Invariant Pages.

Section behaviour.
Context {T : Type} `{!GridWidget T}.
Implicit Types (w : World.t T) (g : T) (h : Hooks.t).

(** ** Adding a task *)

(** C1: A click on Add Task with a non-empty title and a non-empty
    description appends one task to the store, with id the old length plus
    one and the title, description and status of the draft; the draft is
    reset to empty fields and status To Do, the filter selection is kept, the
    toast Task added successfully is shown, and the grid is rebuilt and
    displays every task of the new store. *)
Theorem add_click_appends w :
  ok w → World.tableRef w = true →
  Draft.title (Hooks.newTask (World.hooks w)) ≠ "" →
  Draft.description (Hooks.newTask (World.hooks w)) ≠ "" →
  let h := World.hooks w in
  let w' := step w AddClick in
  World.hooks w' =
    {| Hooks.tasks := Hooks.tasks h ++
         [ {| Task.id := Z.of_nat (length (Hooks.tasks h)) + 1;
              Task.title := Draft.title (Hooks.newTask h);
              Task.description := Draft.description (Hooks.newTask h);
              Task.status := Draft.status (Hooks.newTask h) |} ];
       Hooks.filterStatus := Hooks.filterStatus h;
       Hooks.newTask := Draft.blank |}
  ∧ World.page w' = Toast.showToast "Task added successfully" (World.page w)
  ∧ view w' = Hooks.tasks (World.hooks w').
Proof.
  intros Hok Hm Ht Hd. mounted_form w.
  rewrite step_AddClick_mounted by done. simpl.
  split_and!; [done..|apply grid_new_visible].
Qed.

(** C7: A click on Add Task with an empty title or an empty description
    changes nothing but the page's alert log: the alert Please fill in all
    fields. is shown, and the store, the draft, the filter, the grid and the
    toasts are as before. *)
Theorem add_click_rejected w :
  Draft.title (Hooks.newTask (World.hooks w)) = ""
  ∨ Draft.description (Hooks.newTask (World.hooks w)) = "" →
  step w AddClick =
  World.set_page (Toast.alert "Please fill in all fields." (World.page w)) w.
Proof.
  intros Hd. simpl. rewrite handleAddTask_invalid by done.
  rewrite commit_no_effect by done. by destruct w as [[]].
Qed.

(** ** Deleting a task *)

(** A click on Delete in a row on display replaces the store by the
    tasks whose id differs from the id of that row, in their order; the
    draft and the filter selection are kept, the toast Task deleted
    successfully is shown, and the grid is rebuilt and displays every task
    of the new store. *)
Lemma delete_click_state w j row :
  ok w → view w !! j = Some row →
  let h := World.hooks w in
  let w' := step w (DeleteClick j) in
  World.hooks w' =
    {| Hooks.tasks := filter (λ task, Task.id task ≠ Task.id row) (Hooks.tasks h);
       Hooks.filterStatus := Hooks.filterStatus h;
       Hooks.newTask := Hooks.newTask h |}
  ∧ World.page w' = Toast.showToast "Task deleted successfully" (World.page w)
  ∧ view w' = Hooks.tasks (World.hooks w').
Proof.
  intros Hok Hrow. pose proof (ok_view_mounted _ _ _ Hok Hrow) as Hm. mounted_form w.
  rewrite (step_DeleteClick_mounted j row) by done. simpl.
  split_and!; [done..|apply grid_new_visible].
Qed.

(** When the ids of the store are unique, a click on Delete in a row on
    display removes exactly that task: the row is a task of the store at some
    position, the new store is the old one without that position (the other
    tasks keep their fields and their order), it is shorter by one, and the
    id of the row is no longer in it. *)
Lemma delete_click_position w j row :
  ok w → Store.unique_ids (Hooks.tasks (World.hooks w)) → view w !! j = Some row →
  let tasks := Hooks.tasks (World.hooks w) in
  let tasks' := Hooks.tasks (World.hooks (step w (DeleteClick j))) in
  ∃ k, tasks !! k = Some row
     ∧ tasks' = take k tasks ++ drop (S k) tasks
     ∧ S (length tasks') = length tasks
     ∧ Task.id row ∉ Store.ids tasks'.
Proof.
  intros Hok Hu Hrow. pose proof (ok_view_mounted _ _ _ Hok Hrow) as Hm. mounted_form w.
  rewrite (step_DeleteClick_mounted j row) by done. simpl in *.
  assert (row ∈ Hooks.tasks h) as [k Hk]%list_elem_of_lookup_1.
  { eapply elem_of_sublist; [by eapply list_elem_of_lookup_2|by apply shows_sublist]. }
  exists k. split; [done|].
  rewrite (remove_by_id_delete _ k row) by done.
  split_and!; [apply delete_take_drop| |].
  - rewrite length_delete by eauto. apply lookup_lt_Some in Hk. lia.
  - rewrite <-(remove_by_id_delete _ k row) by done. apply remove_by_id_gone.
Qed.

(** C4: A click on Delete in a row on display replaces the store by the
    tasks whose id differs from the id of that row, in their order; the
    draft and the filter selection are kept, the toast Task deleted
    successfully is shown, and the grid is rebuilt and displays every task
    of the new store.  When the ids of the store are unique the click
    removes exactly that task: the row is a task of the store at some
    position, the new store is the old one without that position (the other
    tasks keep their fields and their order), it is shorter by one, and the
    id of the row is no longer in it. *)
Theorem delete_click_exactly_one w j row :
  ok w → view w !! j = Some row →
  let tasks := Hooks.tasks (World.hooks w) in
  let w' := step w (DeleteClick j) in
  let tasks' := Hooks.tasks (World.hooks w') in
  World.hooks w' =
    {| Hooks.tasks := filter (λ task, Task.id task ≠ Task.id row) tasks;
       Hooks.filterStatus := Hooks.filterStatus (World.hooks w);
       Hooks.newTask := Hooks.newTask (World.hooks w) |}
  ∧ World.page w' = Toast.showToast "Task deleted successfully" (World.page w)
  ∧ view w' = tasks'
  ∧ (Store.unique_ids tasks →
     ∃ k, tasks !! k = Some row
        ∧ tasks' = take k tasks ++ drop (S k) tasks
        ∧ S (length tasks') = length tasks
        ∧ Task.id row ∉ Store.ids tasks').
Proof.
  intros Hok Hrow. cbv zeta.
  destruct (delete_click_state w j row Hok Hrow) as (? & ? & ?).
  split_and!; [done..|]. intros Hu. by apply delete_click_position.
Qed.

(** ** Filtering *)

(** Selecting the filter value that is already selected does nothing at
    all: the filter effect does not run. *)
Lemma filter_select_same w :
  step w (FilterSelect (Hooks.filterStatus (World.hooks w))) = w.
Proof. simpl. rewrite commit_no_effect by done. by destruct w as [[]]. Qed.

(** C9: Selecting a filter value changes the selection and nothing else of
    the component state, and leaves the page's toasts and alerts untouched.
    When the value differs from the current one the filter effect runs and
    the grid displays the tasks of the store whose status equals the value,
    or every task when the value is the empty one (All).  When the value is
    the one already selected nothing happens at all: the filter effect does
    not run, so a grid that lost its filter is not filtered again. *)
Theorem filter_select_applies w v :
  ok w → World.tableRef w = true →
  let h := World.hooks w in
  let w' := step w (FilterSelect v) in
  World.hooks w' =
    {| Hooks.tasks := Hooks.tasks h; Hooks.filterStatus := v;
       Hooks.newTask := Hooks.newTask h |}
  ∧ World.page w' = World.page w
  ∧ (v ≠ Hooks.filterStatus h →
     view w' = if decide (v = "") then Hooks.tasks h
               else filter (λ row, Task.status row = v) (Hooks.tasks h))
  ∧ (v = Hooks.filterStatus h → w' = w).
Proof.
  intros Hok Hm h w'. subst h w'. split_and!; [..|intros ->; apply filter_select_same];
    mounted_form w; rewrite step_FilterSelect_mounted; [done..|].
  intros Hv. rewrite decide_False by done.
  by rewrite view_mounted, apply_filter_visible, Hrows.
Qed.

(** C8: The grid loses the filter when it is rebuilt: with a filter value
    selected, adding a task whose status differs from that value leaves the
    selection as it was and yet the grid displays a row whose status is not
    the selected one. *)
Theorem rebuild_drops_filter w :
  ok w → World.tableRef w = true →
  Draft.title (Hooks.newTask (World.hooks w)) ≠ "" →
  Draft.description (Hooks.newTask (World.hooks w)) ≠ "" →
  Hooks.filterStatus (World.hooks w) ≠ "" →
  Draft.status (Hooks.newTask (World.hooks w)) ≠ Hooks.filterStatus (World.hooks w) →
  let w' := step w AddClick in
  Hooks.filterStatus (World.hooks w') = Hooks.filterStatus (World.hooks w)
  ∧ ∃ row, row ∈ view w' ∧ Task.status row ≠ Hooks.filterStatus (World.hooks w').
Proof.
  intros Hok Hm Ht Hd Hf Hs. mounted_form w. simpl in Ht, Hd, Hf, Hs.
  rewrite step_AddClick_mounted by done. cbv zeta.
  rewrite view_mounted, grid_new_visible. simpl. split; [done|].
  eexists. split; [apply elem_of_app; right; by left|done].
Qed.

(** ** The seed request *)

(** C12: When the seed request resolves, the store becomes the image of the
    first 20 records whatever it held before (the component being mounted,
    as it is unless it was removed), the request is settled, the
    draft, the filter selection and the toasts are kept, and the grid is
    rebuilt and displays the seeded tasks. *)
Theorem fetch_resolved_seeds w data :
  ok w → World.tableRef w = true → World.request w = fetch_pending →
  let h := World.hooks w in
  let w' := step w (FetchResolved data) in
  World.hooks w' =
    {| Hooks.tasks := Seed.initialTasks data;
       Hooks.filterStatus := Hooks.filterStatus h; Hooks.newTask := Hooks.newTask h |}
  ∧ World.request w' = fetch_settled
  ∧ World.page w' = World.page w
  ∧ view w' = Seed.initialTasks data.
Proof.
  intros Hok Hm Hr. mounted_form w. simpl in Hr. subst.
  rewrite step_FetchResolved_mounted. simpl.
  split_and!; [done..|apply grid_new_visible].
Qed.

(** A failed seed request only settles the request: the store and the
    rest of the page are unchanged and nothing is shown; and once the request
    is settled (or before it is issued) neither outcome has any effect, so
    the store is seeded at most once. *)
Lemma fetch_settles_once w :
  (World.request w = fetch_pending →
     step w FetchRejected = World.set_request fetch_settled w)
  ∧ (World.request w ≠ fetch_pending →
       step w FetchRejected = w ∧ ∀ data, step w (FetchResolved data) = w).
Proof.
  split; intros Hr; simpl; [by rewrite decide_True|].
  rewrite decide_False by done. split; [done|]. intros data. by rewrite decide_False.
Qed.

(** ** The draft *)

(** C36: The inputs of the page are controlled and round-trip.  Typing in
    the title or description input, or choosing a status in the form,
    replaces that field of the draft and changes nothing else: no effect
    runs, and the store, the filter, the grid and the page are as before.
    After the commit each input displays the value it was given: the title
    and description inputs and the status select display what was typed or
    chosen, and the filter select displays the value selected. *)
Theorem controlled_inputs_roundtrip w v :
  let h := World.hooks w in
  let d := Hooks.newTask h in
  let set d' := World.set_hooks (Hooks.mk (Hooks.tasks h) (Hooks.filterStatus h) d') w in
  (step w (TitleInput v) = set (Draft.mk v (Draft.description d) (Draft.status d))
   ∧ step w (DescriptionInput v) = set (Draft.mk (Draft.title d) v (Draft.status d))
   ∧ step w (StatusSelect v) = set (Draft.mk (Draft.title d) (Draft.description d) v))
  ∧ title_value (render (World.hooks (step w (TitleInput v)))) = v
  ∧ description_value (render (World.hooks (step w (DescriptionInput v)))) = v
  ∧ status_value (render (World.hooks (step w (StatusSelect v)))) = v
  ∧ filter_value (render (World.hooks (step w (FilterSelect v)))) = v.
Proof.
  simpl. rewrite !commit_no_effect by done.
  rewrite (proj1 (commit_frame (onFilterChange v) w)). by destruct w as [[]].
Qed.

(** ** Who writes the store *)

(** Only three events can change the store: a click on Add Task, a
    click on Delete and the resolution of the seed request.  Mounting,
    removing the component and selecting a filter leave the tasks as they
    are; typing in the form, the
    failure of the request, the passing of time and the timers leave the
    tasks and the grid as they are (the table is neither rebuilt nor
    filtered), on any page. *)
Lemma store_written_by_three_events w e :
  match e with
  | AddClick | DeleteClick _ | FetchResolved _ => True
  | Mount | FilterSelect _ | Unmount =>
      Hooks.tasks (World.hooks (step w e)) = Hooks.tasks (World.hooks w)
  | _ =>
      Hooks.tasks (World.hooks (step w e)) = Hooks.tasks (World.hooks w)
      ∧ World.tables (step w e) = World.tables w
  end.
Proof.
  destruct e as [|data| |v|v|v| |v|j|ms| |]; simpl; try done; try (by case_match);
    try (by rewrite commit_no_effect).
  - case_match; [done|]. frame.
  - by destruct (commit_frame (onFilterChange v) w) as [-> _].
  - case_match; [|done]. unfold unmount. frame.
Qed.

(** ** Reachable pages *)

(** C6: On every reachable page that is mounted no effect has thrown and
    the element holds exactly one live table: it is the one the pending
    cleanup will destroy, its rows are the current tasks, and the closure of
    its Delete buttons captured the current tasks.  So the table is always
    released before its replacement is built, [findTable] never comes back
    empty, and a click on Delete never works on a stale store. *)
Theorem reachable_one_table w :
  reachable w → World.tableRef w = true →
  World.crashed w = false
  ∧ ∃ table g,
      Registry.findTable (World.tables w) = [(table, g)]
      ∧ World.cleanup w = Some table
      ∧ grid_rows g = Hooks.tasks (World.hooks w)
      ∧ find_click (grid_columns g) = Some (click_delete (Hooks.tasks (World.hooks w))).
Proof.
  intros Hok%reachable_ok Hm. mounted_form w. split; [done|].
  exists i, g. split_and!; [done..|]. by rewrite Hcols.
Qed.

(** C24: On every reachable page every task of the store and the draft have a
    status of the enumeration, the filter selection is one of the four option
    values, each toast on screen has its pending timeout, and no effect has
    thrown. *)
Theorem reachable_wellformed w :
  reachable w →
  Store.wf (Hooks.tasks (World.hooks w))
  ∧ Draft.wf (Hooks.newTask (World.hooks w))
  ∧ Hooks.filterStatus (World.hooks w) ∈ Status.filter_values
  ∧ Toast.ok (World.page w)
  ∧ World.crashed w = false.
Proof.
  intros Hok%reachable_ok. destruct (ok_wf w Hok) as (? & ? & ?).
  split_and!; [done..|by apply ok_page|by destruct Hok].
Qed.

(** On every reachable page the rows on display are tasks of the store
    in store order, and while the component is mounted with no filter
    selected they are all the tasks: the grid never shows a row that is not
    in the store, never reorders rows and never hides a row unless a status
    is selected. *)
Lemma reachable_view w :
  reachable w →
  let h := World.hooks w in
  view w `sublist_of` Hooks.tasks h
  ∧ (World.tableRef w = true → Hooks.filterStatus h = "" → view w = Hooks.tasks h).
Proof.
  intros Hok%reachable_ok. destruct Hok as [|h i g n r p|]; [done| |by split; [apply sublist_nil_l|]].
  rewrite view_mounted. simpl.
  split; [by apply shows_sublist|intros _; by apply shows_unfiltered].
Qed.

End behaviour.

(** ** Witnesses on the list grid *)

Lemma add_click_appends_witness :
  Hooks.tasks (World.hooks (step page_drafted AddClick)) =
  [Task.mk 1 "Buy milk" "2 litres" "To Do"].
Proof.
  pose proof (add_click_appends page_drafted
    (reachable_ok _ page_drafted_reachable) ltac:(by vm_compute)
    ltac:(by vm_compute) ltac:(by vm_compute)) as (Hh & _).
  vm_compute in Hh. vm_compute. exact (f_equal Hooks.tasks Hh).
Defined.

Lemma add_click_rejected_witness :
  let w : World.t ListGrid.t := step World.init Mount in
  Toast.alerts (World.page (step w AddClick)) = ["Please fill in all fields."]
  ∧ Hooks.tasks (World.hooks (step w AddClick)) = [].
Proof.
  intros w.
  pose proof (add_click_rejected w ltac:(left; by vm_compute)) as Hs.
  rewrite Hs. by vm_compute.
Defined.

Lemma delete_click_state_example :
  Hooks.tasks (World.hooks (step page_seeded (DeleteClick 1))) =
  [ Task.mk 1 "delectus aut autem" "No description provided" "To Do";
    Task.mk 3 "fugiat veniam minus" "No description provided" "Done" ].
Proof.
  pose proof (delete_click_state page_seeded 1
    (Task.mk 2 "quis ut nam facilis" "No description provided" "To Do")
    (reachable_ok _ page_seeded_reachable) ltac:(by vm_compute)) as (Hh & _).
  vm_compute in Hh. vm_compute. exact (f_equal Hooks.tasks Hh).
Defined.

Lemma delete_click_exactly_one_witness :
  ∃ k, Hooks.tasks (World.hooks page_seeded) !! k =
         Some (Task.mk 2 "quis ut nam facilis" "No description provided" "To Do")
     ∧ Hooks.tasks (World.hooks (step page_seeded (DeleteClick 1))) =
         take k (Hooks.tasks (World.hooks page_seeded))
         ++ drop (S k) (Hooks.tasks (World.hooks page_seeded)).
Proof.
  destruct (delete_click_exactly_one page_seeded 1
    (Task.mk 2 "quis ut nam facilis" "No description provided" "To Do")
    (reachable_ok _ page_seeded_reachable) ltac:(by vm_compute)) as (_ & _ & _ & H).
  destruct (H ltac:(apply (bool_decide_unpack _); by vm_compute)) as (k & ? & ? & _).
  by exists k.
Defined.

Lemma filter_select_applies_witness :
  view (step page_seeded (FilterSelect "Done")) =
  [ Task.mk 3 "fugiat veniam minus" "No description provided" "Done" ].
Proof.
  pose proof (filter_select_applies page_seeded "Done"
    (reachable_ok _ page_seeded_reachable) ltac:(by vm_compute)) as (_ & _ & Hv & _).
  specialize (Hv ltac:(by vm_compute)). vm_compute in Hv. vm_compute. exact Hv.
Defined.

Lemma rebuild_drops_filter_witness :
  let w' := step page_filtered AddClick in
  Hooks.filterStatus (World.hooks w') = Hooks.filterStatus (World.hooks page_filtered)
  ∧ ∃ row, row ∈ view w' ∧ Task.status row ≠ Hooks.filterStatus (World.hooks w').
Proof.
  exact (rebuild_drops_filter page_filtered
    (reachable_ok _ page_filtered_reachable) ltac:(by vm_compute)
    ltac:(by vm_compute) ltac:(by vm_compute) ltac:(by vm_compute) ltac:(by vm_compute)).
Defined.

Lemma fetch_resolved_seeds_witness :
  Hooks.tasks (World.hooks page_early_add) = [Task.mk 1 "Buy milk" "2 litres" "To Do"]
  ∧ Hooks.tasks (World.hooks (step page_early_add (FetchResolved three_todos))) =
    Seed.initialTasks three_todos.
Proof.
  pose proof (fetch_resolved_seeds page_early_add three_todos
    (reachable_ok _ page_early_add_reachable) ltac:(by vm_compute) ltac:(by vm_compute))
    as (Hh & _).
  split; [by vm_compute|]. vm_compute in Hh. vm_compute. exact (f_equal Hooks.tasks Hh).
Defined.

Lemma reachable_one_table_witness :
  World.crashed page_seeded = false
  ∧ ∃ table g,
      Registry.findTable (World.tables page_seeded) = [(table, g)]
      ∧ World.cleanup page_seeded = Some table
      ∧ grid_rows g = Hooks.tasks (World.hooks page_seeded)
      ∧ find_click (grid_columns g) =
          Some (click_delete (Hooks.tasks (World.hooks page_seeded))).
Proof.
  exact (reachable_one_table page_seeded page_seeded_reachable ltac:(by vm_compute)).
Defined.

Lemma reachable_wellformed_witness :
  Store.wf (Hooks.tasks (World.hooks page_filtered)).
Proof. exact (proj1 (reachable_wellformed page_filtered page_filtered_reachable)). Defined.

Lemma reachable_view_witness :
  view page_filtered `sublist_of` Hooks.tasks (World.hooks page_filtered).
Proof. exact (proj1 (reachable_view page_filtered page_filtered_reachable)). Defined.
