(* ===== verification/Spec.v ===== *)
(** * The contract of the page as an abstract machine

    [Spec] is the page as the specification describes it, without React and
    without the grid widget: a state of five fields (the task sequence, the
    selected filter value, the draft, the state of the seed request, whether
    the page is mounted), the actions of the user, of the network and of the
    host that mounts and removes the page, and for each action the next
    state and the notices it produces.  [abs] forgets the widget, the
    registry and the DOM of a page of [Component.v]; [action_of] reads a
    browser event as an action (a click on Delete in a row is the deletion
    of that row's id; the timer events are no action).

    The section [refinement] proves that the component implements the
    machine: every enabled event of a reachable page is matched by the
    action it stands for, on the state and on the notices, and so is every
    run.  What the machine promises of the view ([Spec.view]) is the one part
    the component does not implement in every state; the theorems of
    [Behaviour.v] say when it does. *)

From S2P Require Import Prelude Data Store Seed Toast Grid Component Invariant Pages.

Module Spec.

(** A notice: a transient confirmation or a blocking validation message. *)
Inductive notice :=
| confirm (message : string)
| reject (message : string).

Inductive action :=
| load
| unload
| seed (data : list Todo.t)
| seed_failed
| type_title (v : string)
| type_description (v : string)
| choose_status (v : string)
| submit
| delete (id : Z)
| select_filter (v : string).

Record t := mk {
  tasks : list Task.t;
  selected : string;
  draft : Draft.t;
  request : Fetch;
  mounted : bool
}.

Definition init : t := mk [] "" Draft.blank fetch_idle false.

(** Section 4.1: the first 20 records, completion flag to status, fixed
    placeholder description. *)
Definition seeded (data : list Todo.t) : list Task.t :=
  (λ r, Task.mk (Todo.id r) (Todo.title r) "No description provided"
          (if Todo.completed r then "Done" else "To Do")) <$> take 20 data.

(** Section 4.5: the task a valid submission appends. *)
Definition submitted (s : t) : Task.t :=
  Task.mk (Z.of_nat (length (tasks s)) + 1)
    (Draft.title (draft s)) (Draft.description (draft s)) (Draft.status (draft s)).

Definition with_draft (d : Draft.t) (s : t) : t :=
  mk (tasks s) (selected s) d (request s) (mounted s).

(** A response that arrives after the page is gone settles the request and
    is dropped (section 5: no cancellation). *)
Definition step (s : t) (a : action) : t * list notice :=
  match a with
  | load => (mk (tasks s) (selected s) (draft s) fetch_pending true, [])
  | unload => (mk (tasks s) (selected s) (draft s) (request s) false, [])
  | seed data =>
      if decide (request s = fetch_pending)
      then (mk (if mounted s then seeded data else tasks s) (selected s) (draft s)
              fetch_settled (mounted s), [])
      else (s, [])
  | seed_failed =>
      if decide (request s = fetch_pending)
      then (mk (tasks s) (selected s) (draft s) fetch_settled (mounted s), [])
      else (s, [])
  | type_title v =>
      (with_draft (Draft.mk v (Draft.description (draft s)) (Draft.status (draft s))) s, [])
  | type_description v =>
      (with_draft (Draft.mk (Draft.title (draft s)) v (Draft.status (draft s))) s, [])
  | choose_status v =>
      (with_draft (Draft.mk (Draft.title (draft s)) (Draft.description (draft s)) v) s, [])
  | submit =>
      if decide (Draft.title (draft s) ≠ "" ∧ Draft.description (draft s) ≠ "")
      then (mk (tasks s ++ [submitted s]) (selected s) Draft.blank (request s) (mounted s),
            [confirm "Task added successfully"])
      else (s, [reject "Please fill in all fields."])
  | delete id =>
      (mk (filter (λ task, Task.id task ≠ id) (tasks s)) (selected s) (draft s)
          (request s) (mounted s),
       [confirm "Task deleted successfully"])
  | select_filter v => (mk (tasks s) v (draft s) (request s) (mounted s), [])
  end.

(** Section 4.4: the rows the grid is to display; none when the page is not
    mounted. *)
Definition view (s : t) : list Task.t :=
  if mounted s then
    if decide (selected s = "") then tasks s
    else filter (λ task, Task.status task = selected s) (tasks s)
  else [].

(** A run of actions, with the notices in the order they are produced. *)
Definition run (s : t) (acts : list action) : t * list notice :=
  foldl (λ sn a, let r := step sn.1 a in (r.1, sn.2 ++ r.2)) (s, []) acts.

End Spec.

(** The notices on the page of the component. *)
Definition emit (ns : list Spec.notice) (p : Toast.dom) : Toast.dom :=
  foldl (λ p n,
    match n with
    | Spec.confirm m => Toast.showToast m p
    | Spec.reject m => Toast.alert m p
    end) p ns.

Section abstraction.
Context {T : Type} `{!GridWidget T}.
Implicit Types (w : World.t T) (e : Event).

Definition abs w : Spec.t :=
  let h := World.hooks w in
  Spec.mk (Hooks.tasks h) (Hooks.filterStatus h) (Hooks.newTask h) (World.request w)
    (World.tableRef w).

(** The action an event stands for on a page. *)
Definition action_of w e : option Spec.action :=
  match e with
  | Mount => Some Spec.load
  | FetchResolved data => Some (Spec.seed data)
  | FetchRejected => Some Spec.seed_failed
  | TitleInput v => Some (Spec.type_title v)
  | DescriptionInput v => Some (Spec.type_description v)
  | StatusSelect v => Some (Spec.choose_status v)
  | AddClick => Some Spec.submit
  | FilterSelect v => Some (Spec.select_filter v)
  | DeleteClick j => Spec.delete ∘ Task.id <$> view w !! j
  | Tick _ | TimerFire => None
  | Unmount => Some Spec.unload
  end.

(** The machine's move for an event: the action's step, or no move. *)
Definition spec_step w e : Spec.t * list Spec.notice :=
  match action_of w e with
  | Some a => Spec.step (abs w) a
  | None => (abs w, [])
  end.

(** The actions of a run of events. *)
Fixpoint actions w (es : list Event) : list Spec.action :=
  match es with
  | [] => []
  | e :: es => from_option (λ a, [a]) [] (action_of w e) ++ actions (step w e) es
  end.

(** The page after a run, from the timers' point of view: the notices of
    each event are emitted where the event occurs. *)
Fixpoint page_run w (es : list Event) (p : Toast.dom) : Toast.dom :=
  match es with
  | [] => p
  | e :: es => page_run (step w e) es (emit (spec_step w e).2 (page_step e p))
  end.

End abstraction.

(** ** The machine on its own *)

Lemma Spec_seeded_initialTasks data : Spec.seeded data = Seed.initialTasks data.
Proof. done. Qed.

Lemma Spec_run_from s ns acts :
  foldl (λ sn a, let r := Spec.step sn.1 a in (r.1, sn.2 ++ r.2)) (s, ns) acts =
  ((Spec.run s acts).1, ns ++ (Spec.run s acts).2).
Proof.
  unfold Spec.run. revert s ns. induction acts as [|a acts IH]; intros s ns; simpl.
  - by rewrite app_nil_r.
  - rewrite (IH _ (ns ++ _)), (IH _ (Spec.step s a).2). simpl. by rewrite app_assoc.
Qed.

Lemma Spec_run_cons s a acts :
  Spec.run s (a :: acts) =
  ((Spec.run (Spec.step s a).1 acts).1, (Spec.step s a).2 ++ (Spec.run (Spec.step s a).1 acts).2).
Proof. unfold Spec.run at 1. simpl. apply Spec_run_from. Qed.

Lemma Spec_run_app s acts1 acts2 :
  (Spec.run s (acts1 ++ acts2)).1 = (Spec.run (Spec.run s acts1).1 acts2).1.
Proof.
  revert s. induction acts1 as [|a acts1 IH]; intros s; [done|].
  simpl. by rewrite !Spec_run_cons, IH.
Qed.

(** ** The component implements the machine *)

Section refinement.
Context {T : Type} `{!GridWidget T}.
Implicit Types (w : World.t T) (e : Event) (h : Hooks.t).

Lemma abs_commit cmds w :
  abs (commit cmds w) =
  let h := hooks_after cmds (World.hooks w) in
  Spec.mk (Hooks.tasks h) (Hooks.filterStatus h) (Hooks.newTask h) (World.request w)
    (World.tableRef w).
Proof. unfold abs. by destruct (commit_frame cmds w) as (-> & _ & -> & ->). Qed.

Lemma page_commit cmds w : World.page (commit cmds w) = page_after cmds (World.page w).
Proof. by destruct (commit_frame cmds w) as (_ & -> & _). Qed.

(** An event handled by a commit is matched when the handler's calls are
    the action's effect. *)
Lemma commit_refines cmds w a :
  let h := hooks_after cmds (World.hooks w) in
  Spec.step (abs w) a =
    (Spec.mk (Hooks.tasks h) (Hooks.filterStatus h) (Hooks.newTask h) (World.request w)
       (World.tableRef w),
     (Spec.step (abs w) a).2) →
  page_after cmds (World.page w) = emit (Spec.step (abs w) a).2 (World.page w) →
  abs (commit cmds w) = (Spec.step (abs w) a).1
  ∧ World.page (commit cmds w) = emit (Spec.step (abs w) a).2 (World.page w).
Proof. intros h Hs Hp. rewrite abs_commit, page_commit, Hp. by rewrite Hs at 1. Qed.

Lemma submit_refines w :
  abs (step w AddClick) = (Spec.step (abs w) Spec.submit).1
  ∧ World.page (step w AddClick) = emit (Spec.step (abs w) Spec.submit).2 (World.page w).
Proof.
  apply commit_refines; simpl; case_decide as Hd.
  - destruct Hd. by rewrite handleAddTask_valid.
  - rewrite handleAddTask_invalid; [by destruct w as [[]]|].
    apply not_and_l in Hd as [?%dec_stable|?%dec_stable]; auto.
  - destruct Hd. by rewrite handleAddTask_valid.
  - rewrite handleAddTask_invalid; [done|].
    apply not_and_l in Hd as [?%dec_stable|?%dec_stable]; auto.
Qed.

Lemma delete_refines w j row :
  ok w → view w !! j = Some row →
  abs (step w (DeleteClick j)) = (Spec.step (abs w) (Spec.delete (Task.id row))).1
  ∧ World.page (step w (DeleteClick j)) =
      emit (Spec.step (abs w) (Spec.delete (Task.id row))).2 (World.page w).
Proof.
  intros Hok Hrow. pose proof (ok_view_mounted _ _ _ Hok Hrow) as Hm. mounted_form w.
  by rewrite (step_DeleteClick_mounted j row).
Qed.

Lemma seed_refines w data :
  abs (step w (FetchResolved data)) = (Spec.step (abs w) (Spec.seed data)).1
  ∧ World.page (step w (FetchResolved data)) = World.page w.
Proof.
  simpl. case_decide as Hr; [|done]. destruct (World.tableRef w) eqn:Hm.
  - rewrite abs_commit, page_commit. simpl. by rewrite Hm.
  - unfold abs. simpl. by rewrite Hm.
Qed.

Lemma load_refines w :
  ok w → World.tableRef w = false → World.request w = fetch_idle →
  abs (step w Mount) = (Spec.step (abs w) Spec.load).1
  ∧ World.page (step w Mount) = World.page w.
Proof.
  intros Hok Hm Hr. rewrite (ok_fresh w Hok Hm Hr). simpl. by rewrite mount_unmounted.
Qed.

Lemma unload_refines w :
  ok w → World.tableRef w = true →
  abs (step w Unmount) = (Spec.step (abs w) Spec.unload).1
  ∧ World.page (step w Unmount) = World.page w.
Proof. intros Hok Hm. mounted_form w. by rewrite step_Unmount_mounted. Qed.

(** One enabled event of a page that satisfies the invariant is matched by
    the machine's move for it. *)
Lemma step_matched w e :
  ok w → enabled w e →
  abs (step w e) = (spec_step w e).1
  ∧ World.page (step w e) = emit (spec_step w e).2 (page_step e (World.page w)).
Proof.
  intros Hok Hen. unfold spec_step.
  destruct e as [|data| |v|v|v| |v|j|ms| |]; simpl action_of; cbv iota beta.
  - destruct Hen. by apply load_refines.
  - destruct (seed_refines w data) as [-> ->]. split; [done|]. simpl. by case_decide.
  - simpl in *. rewrite !decide_True by done. by destruct w as [[]].
  - simpl. rewrite commit_no_effect by done. by destruct w as [[]].
  - simpl. rewrite commit_no_effect by done. by destruct w as [[]].
  - simpl. rewrite commit_no_effect by done. by destruct w as [[]].
  - apply submit_refines.
  - simpl. by rewrite abs_commit, page_commit.
  - destruct Hen as [_ [row Hrow]]. rewrite Hrow. by apply delete_refines.
  - by destruct w as [[]].
  - by destruct w as [[]].
  - by apply unload_refines.
Qed.

Lemma actions_cons w e es :
  (Spec.run (abs w) (actions w (e :: es))).1 =
  (Spec.run (spec_step w e).1 (actions (step w e) es)).1.
Proof.
  unfold spec_step. simpl. destruct (action_of w e); simpl; [|done].
  by rewrite Spec_run_cons.
Qed.

(** C5: The component implements the machine of the contract.  From any
    reachable page, after any run of enabled events (the first commit and
    the removal of the component included), the tasks, the filter
    selection, the draft, the state of the request and whether the page is
    mounted are those the machine reaches by the actions the events stand
    for, and the page carries the notices the machine produced, each
    emitted when its event occurred:
    neither the grid widget, nor the order of the effects, nor the timers
    change what the handlers are to do to the state. *)
Theorem run_refines w es :
  reachable w → enabled_run w es →
  abs (run w es) = (Spec.run (abs w) (actions w es)).1
  ∧ World.page (run w es) = page_run w es (World.page w).
Proof.
  intros Hr%reachable_ok. revert w Hr.
  induction es as [|e es IH]; intros w Hok Hes; [done|]. destruct Hes as [Hen Hes].
  destruct (step_matched w e Hok Hen) as [Ha Hp].
  destruct (IH (step w e) (ok_step _ _ Hok Hen) Hes) as [IHa IHp].
  rewrite actions_cons, <-Ha. simpl. by rewrite IHa, IHp, Hp.
Qed.

(** C28: What the grid displays against what the contract asks for: on every
    reachable page the rows on display are the rows of the contract (none
    unless the page is mounted, then every task when no filter is selected
    and the tasks with the selected status otherwise), or a filter is
    selected and the grid displays every task. *)
Theorem view_contract w :
  reachable w →
  view w = Spec.view (abs w)
  ∨ Spec.selected (abs w) ≠ "" ∧ view w = Spec.tasks (abs w).
Proof.
  intros Hok%reachable_ok.
  destruct Hok as [|h i g n r p ? ? ? ? ? ? ? Hs|]; [by left| |by left].
  rewrite view_mounted. unfold Spec.view. simpl.
  destruct Hs as [?|[? ?]]; case_decide; naive_solver.
Qed.

End refinement.

(** ** Witness on the list grid *)

Lemma run_refines_witness :
  let es := [Mount; FetchResolved three_todos; TitleInput "Buy milk";
             DescriptionInput "2 litres"; AddClick; DeleteClick 0] in
  abs (run (World.init (T:=ListGrid.t)) es) =
  (Spec.run Spec.init
     [Spec.load; Spec.seed three_todos; Spec.type_title "Buy milk";
      Spec.type_description "2 litres"; Spec.submit; Spec.delete 1]).1.
Proof.
  intros es.
  pose proof (run_refines (World.init (T:=ListGrid.t)) es ltac:(constructor)
    ltac:(apply (bool_decide_unpack _); by vm_compute)) as [H _].
  vm_compute in H. vm_compute. exact H.
Defined.

Lemma view_contract_witness :
  view page_filtered = Spec.view (abs page_filtered)
  ∨ Spec.selected (abs page_filtered) ≠ "" ∧ view page_filtered = Spec.tasks (abs page_filtered).
Proof. exact (view_contract page_filtered page_filtered_reachable). Defined.
