(* ===== verification/Scenarios.v ===== *)
(** * Scenarios: runs of several events

    What sequences of events do to the page, over any grid widget: the
    end-to-end scenario of the specification (seed, add, delete), the
    default status of an added task, and the runs through the user interface
    on which the id rule [tasks.length + 1] gives two tasks the same id, with
    what a click on Delete does once that has happened. *)

From S2P Require Import Prelude Data Store Seed Toast Grid Component Invariant Pages Spec.

(** ** Pages and events of the scenarios *)

(** Typing a title and a description and clicking Add Task. *)
Definition add_task (title description : string) : list Event :=
  [TitleInput title; DescriptionInput description; AddClick].

(** The events that only type in the two text inputs of the form. *)
Definition typing (e : Event) : bool :=
  match e with
  | TitleInput _ | DescriptionInput _ => true
  | _ => false
  end.

(** The time that passes during a run, in ms. *)
Definition elapsed (es : list Event) : Z :=
  foldr (λ e t, match e with Tick ms => Z.max 0 ms + t | _ => t end)%Z 0%Z es.

(** The 25 records of the end-to-end scenario, with ids 1..25. *)
Definition todos_25 : list Todo.t :=
  (λ n, Todo.mk (Z.of_nat n) "t" (Nat.even n)) <$> seq 1 25.

(** Two records whose ids start at 2, as a remote source may number them. *)
Definition todos_from_two : list Todo.t :=
  [ Todo.mk 2 "quis ut nam facilis" false; Todo.mk 3 "fugiat veniam minus" true ].

(** Seeded with three tasks, the first deleted, one task added: two tasks
    have id 3. *)
Definition page_duplicate : World.t ListGrid.t :=
  run page_seeded (DeleteClick 0 :: add_task "Buy milk" "2 litres").

Lemma page_duplicate_reachable : reachable page_duplicate.
Proof.
  apply reachable_run; [apply page_seeded_reachable|].
  apply (bool_decide_unpack _). by vm_compute.
Qed.

Section scenarios.
Context {T : Type} `{!GridWidget T}.
Implicit Types (w : World.t T) (g : T) (h : Hooks.t).

(** ** Helper lemmas *)

(** The page after typing a title and a description and clicking Add Task. *)
Lemma run_add_task title description h i g n r p :
  title ≠ "" → description ≠ "" →
  run (mounted h i g n r p) (add_task title description) =
  let task := Task.mk (Z.of_nat (length (Hooks.tasks h)) + 1) title description
                (Draft.status (Hooks.newTask h)) in
  let tasks' := Hooks.tasks h ++ [task] in
  mounted (Hooks.mk tasks' (Hooks.filterStatus h) Draft.blank)
    n (grid_new tasks' (columns tasks')) (S n) r
    (Toast.showToast "Task added successfully" p).
Proof.
  intros Ht Hd. unfold add_task. autorewrite with tm_step.
  by rewrite step_AddClick_mounted.
Qed.

(** A submission whose id is in use breaks the uniqueness of ids. *)
Lemma add_task_collides title description h i g n r p :
  title ≠ "" → description ≠ "" →
  Store.next_id (Hooks.tasks h) ∈ Store.ids (Hooks.tasks h) →
  ¬ Store.unique_ids
      (Hooks.tasks (World.hooks (run (mounted h i g n r p) (add_task title description)))).
Proof.
  intros Ht Hd Hin. rewrite run_add_task by done. simpl.
  change (Hooks.tasks h ++ [?task]) with (Store.append_one task (Hooks.tasks h)).
  rewrite append_one_unique. by intros [_ []].
Qed.

(** The page after mounting and the arrival of the seed. *)
Lemma run_seed data :
  run World.init [Mount; FetchResolved data] =
  let tasks := Seed.initialTasks data in
  mounted (Hooks.mk tasks "" Draft.blank) 1 (grid_new tasks (columns tasks)) 2
    fetch_settled Toast.empty :> World.t T.
Proof. by autorewrite with tm_step. Qed.

Lemma enabled_add_task title description h i g n r p :
  enabled_run (mounted h i g n r p) (add_task title description).
Proof.
  unfold add_task. cbn [enabled_run]. autorewrite with tm_step. by split_and!.
Qed.

(** Typing changes the draft's title and description and nothing else. *)
Lemma run_typing es h i g n r p :
  forallb typing es = true →
  ∃ d, run (mounted h i g n r p) es =
         mounted (Hooks.mk (Hooks.tasks h) (Hooks.filterStatus h) d) i g n r p
       ∧ Draft.status d = Draft.status (Hooks.newTask h).
Proof.
  revert h. induction es as [|e es IH]; intros h Hes.
  - exists (Hooks.newTask h). by destruct h.
  - apply andb_true_iff in Hes as [He Hes].
    destruct e; try done; autorewrite with tm_step;
      match goal with
      | |- context [run (mounted ?h' _ _ _ _ _) es] =>
          destruct (IH h' Hes) as (d & -> & Hd)
      end; by exists d.
Qed.

(** The page after the seed and one submission. *)
Lemma run_seed_add data title description :
  title ≠ "" → description ≠ "" →
  run (run World.init [Mount; FetchResolved data]) (add_task title description) =
  let seeded := Seed.initialTasks data in
  let tasks' :=
    seeded ++ [Task.mk (Z.of_nat (length seeded) + 1) title description "To Do"] in
  mounted (Hooks.mk tasks' "" Draft.blank) 2 (grid_new tasks' (columns tasks')) 3
    fetch_settled (Toast.showToast "Task added successfully" Toast.empty) :> World.t T.
Proof. intros Ht Hd. rewrite run_seed. cbv zeta. by rewrite run_add_task. Qed.

(** A click on Delete in the first row of a grid that displays a store
    with unique ids. *)
Lemma delete_first first rest h i g n r p :
  Hooks.tasks h = first :: rest → Store.unique_ids (Hooks.tasks h) →
  grid_visible g = Hooks.tasks h → grid_columns g = columns (Hooks.tasks h) →
  Hooks.tasks (World.hooks (step (mounted h i g n r p) (DeleteClick 0))) = rest.
Proof.
  intros Ht Hu Hv Hc.
  rewrite (step_DeleteClick_mounted 0 first); [|done|by rewrite Hv, Ht]. simpl.
  rewrite (remove_by_id_delete _ 0 first); [by rewrite Ht|done|by rewrite Ht].
Qed.

(** The timer events only touch the page. *)
Lemma run_TimerFire k w :
  run w (replicate k TimerFire) =
  World.set_page (Nat.iter k Toast.fire_next (World.page w)) w.
Proof.
  revert w. induction k as [|k IH]; intros w; [by destruct w|].
  rewrite Nat.iter_succ_r. simpl replicate. rewrite run_cons, IH. by destruct w.
Qed.

Lemma enabled_TimerFire k w : enabled_run w (replicate k TimerFire).
Proof. revert w. induction k as [|k IH]; intros w; [done|]. split; [done|apply IH]. Qed.

(** ** The end-to-end scenario of the specification *)

(** C10: The end-to-end scenario.  The request returns 25 records with
    distinct ids, none of the first 20 being 21: the store holds exactly the
    images of the first 20.  A task is typed in and added: the store holds
    21 tasks, the new one last, with id 21 and status To Do.  The first
    seeded task is deleted by a click in the first row: the store holds 20
    tasks, the others with their fields and in their order, and the deleted
    id is absent.  Every event of the run is one the page can receive when
    it occurs. *)
Theorem scenario_end_to_end (data : list Todo.t) (title description : string) :
  length data = 25 → NoDup (Todo.id <$> data) → 21%Z ∉ Todo.id <$> take 20 data →
  title ≠ "" → description ≠ "" →
  let seeded := Seed.initialTasks data in
  let task := Task.mk 21 title description "To Do" in
  let w1 : World.t T := run World.init [Mount; FetchResolved data] in
  let w2 := run w1 (add_task title description) in
  let w3 := step w2 (DeleteClick 0) in
  Hooks.tasks (World.hooks w1) = seeded ∧ length seeded = 20
  ∧ Hooks.tasks (World.hooks w2) = seeded ++ [task]
  ∧ Hooks.tasks (World.hooks w3) = drop 1 seeded ++ [task]
  ∧ length (Hooks.tasks (World.hooks w3)) = 20
  ∧ (∀ first, seeded !! 0 = Some first →
       Task.id first ∉ Store.ids (Hooks.tasks (World.hooks w3)))
  ∧ enabled w2 (DeleteClick 0).
Proof.
  intros Hlen Hnd H21 Ht Hd seeded task w1 w2 w3. subst w3 w2 w1.
  assert (length seeded = 20) as Hs by (subst seeded; rewrite initialTasks_length; lia).
  rewrite run_seed_add, run_seed by done. cbv zeta. fold seeded.
  rewrite Hs. change (Z.of_nat 20 + 1)%Z with 21%Z. fold task.
  assert (Store.unique_ids (seeded ++ [task])) as Hu.
  { apply (append_one_unique task seeded). split; [by apply initialTasks_unique|].
    subst seeded. by rewrite initialTasks_ids, <-fmap_take. }
  destruct seeded as [|first rest] eqn:Hseeded; [done|].
  rewrite (delete_first first (rest ++ [task]))
    by (by rewrite ?grid_new_visible, ?grid_new_columns).
  unfold enabled. rewrite view_mounted, grid_new_visible. simpl.
  split_and!; try done.
  - rewrite length_app. simpl in *. lia.
  - intros ? [= <-]. by apply NoDup_cons_1_1 in Hu.
Qed.

(** C33: The status of an added task defaults to To Do when none is chosen:
    on a page whose draft is blank (as it is initially and after every
    accepted submission), after any typing in the title and description
    inputs, an accepted click on Add Task appends a task with status To Do. *)
Theorem add_default_status w es :
  ok w → World.tableRef w = true → Hooks.newTask (World.hooks w) = Draft.blank →
  forallb typing es = true →
  let d := Hooks.newTask (World.hooks (run w es)) in
  Draft.title d ≠ "" → Draft.description d ≠ "" →
  Hooks.tasks (World.hooks (step (run w es) AddClick)) =
  Hooks.tasks (World.hooks w) ++
    [Task.mk (Z.of_nat (length (Hooks.tasks (World.hooks w))) + 1)
       (Draft.title d) (Draft.description d) "To Do"].
Proof.
  intros Hok Hm Hb Hes. mounted_form w. simpl in Hb.
  destruct (run_typing es h i g n r p Hes) as (d' & -> & Hs). rewrite Hb in Hs.
  cbv zeta. intros Ht Hd. rewrite step_AddClick_mounted by done. simpl.
  unfold Draft.to_task. by rewrite Hs.
Qed.

(** ** Notifications on the page *)

Lemma pending_emit x t ns p : Toast.pending x t p → Toast.pending x t (emit ns p).
Proof.
  revert p. induction ns as [|[m|m] ns IH]; intros p Hx; [done|apply IH..]; auto with tm.
Qed.

Lemma now_emit ns p : Toast.now (emit ns p) = Toast.now p.
Proof.
  revert p. induction ns as [|[m|m] ns IH]; intros p; [done|etrans; [apply IH|done]..].
Qed.

Lemma elapsed_cons e es : elapsed (e :: es) = (elapsed [e] + elapsed es)%Z.
Proof. destruct e; simpl; lia. Qed.

(** One event keeps a toast whose timeout is not reached when the event is
    over, and moves the clock by the time the event takes. *)
Lemma pending_step x t w e :
  ok w → enabled w e → Toast.pending x t (World.page w) →
  (Toast.now (World.page w) + elapsed [e] < t)%Z →
  Toast.pending x t (World.page (step w e))
  ∧ Toast.now (World.page (step w e)) = (Toast.now (World.page w) + elapsed [e])%Z.
Proof.
  intros Hok Hen Hx Ht. rewrite (proj2 (step_matched w e Hok Hen)), now_emit.
  split; [apply pending_emit|destruct e; unfold elapsed, page_step; cbn [foldr];
    rewrite ?now_fire_next; cbn [Toast.tick Toast.now]; lia].
  destruct e; cbn [page_step]; try done.
  - apply pending_tick; [done|]. unfold elapsed in Ht. simpl in Ht. lia.
  - by apply pending_fire_next; [eapply ok_page|].
Qed.

Lemma pending_run x t w es :
  ok w → enabled_run w es → Toast.pending x t (World.page w) →
  (Toast.now (World.page w) + elapsed es < t)%Z →
  Toast.pending x t (World.page (run w es)).
Proof.
  revert w. induction es as [|e es IH]; intros w Hok Hes Hx Ht; [done|].
  destruct Hes as [Hen Hes]. rewrite elapsed_cons in Ht.
  assert (0 ≤ elapsed es)%Z by (clear; induction es as [|[] ? ?]; simpl; lia).
  destruct (pending_step x t w e) as [Hx' Hnow]; [done..|lia|].
  rewrite run_cons. apply IH; [by apply ok_step|done..|lia].
Qed.

(** A toast shown by an event is on screen after any run that takes less
    than 3000 ms. *)
Lemma shown_stays m w e es :
  ok w → enabled w e → World.page (step w e) = Toast.showToast m (World.page w) →
  enabled_run (step w e) es → (elapsed es < 3000)%Z →
  Toast.mk_node (Toast.next_node (World.page w)) Toast.toast_class m
    ∈ Toast.body (World.page (run w (e :: es))).
Proof.
  intros Hok Hen Hp Hes Ht. rewrite run_cons.
  eapply proj1, (pending_run _ (Toast.now (World.page w) + 3000));
    [by apply ok_step|done|rewrite Hp; apply pending_showToast_new|rewrite Hp; simpl; lia].
Qed.

(** C23: Toasts are transient on the page.  On every page that satisfies the
    invariant, once 3000 ms or more have passed and the event loop has run
    the timers (as many timer events as there are timeouts pending), no toast
    is on screen and no timeout is pending, and the component state and the
    grid are as they were: no toast outlives its 3 seconds, whatever was
    shown before. *)
Theorem toasts_expire_on_page w ms :
  ok w → (3000 ≤ ms)%Z →
  let es := Tick ms :: replicate (length (Toast.timers (World.page w))) TimerFire in
  let w' := run w es in
  enabled_run w es
  ∧ Toast.body (World.page w') = [] ∧ Toast.timers (World.page w') = []
  ∧ World.hooks w' = World.hooks w ∧ World.tables w' = World.tables w.
Proof.
  intros Hok Hms es w'. subst w' es. rewrite run_cons, run_TimerFire.
  split; [split; [simpl; lia|apply enabled_TimerFire]|].
  pose proof (ok_page _ Hok) as Hp. destruct w as [h tr tb cl rq p cr]. simpl in *.
  rewrite fire_next_iter by done.
  destruct (run_due_all (Toast.tick ms p)) as [-> ->]; [by apply ok_tick| |done].
  eapply Forall_impl; [apply (Toast.ok_due _ Hp)|]. unfold Toast.duration. simpl. lia.
Qed.

(** C26: A toast stays on screen for its 3000 ms whatever happens on the
    page.  After an accepted click on Add Task, or a click on Delete in a
    row on display, the toast that the handler showed (the message as its
    text, the fixed class) is still attached to the page after any run of
    events the page can receive that takes less than 3000 ms: further
    submissions and deletions with their own toasts, the seed, the timers
    that fire for older toasts, even the removal of the component. *)
Theorem toast_stays_on_page w es :
  ok w → World.tableRef w = true → (elapsed es < 3000)%Z →
  let toast m := Toast.mk_node (Toast.next_node (World.page w)) Toast.toast_class m in
  (Draft.title (Hooks.newTask (World.hooks w)) ≠ "" →
   Draft.description (Hooks.newTask (World.hooks w)) ≠ "" →
   enabled_run (step w AddClick) es →
   toast "Task added successfully" ∈ Toast.body (World.page (run w (AddClick :: es))))
  ∧ (∀ j, is_Some (view w !! j) → enabled_run (step w (DeleteClick j)) es →
     toast "Task deleted successfully"
       ∈ Toast.body (World.page (run w (DeleteClick j :: es)))).
Proof.
  intros Hok Hm Hes toast. subst toast. split.
  - intros Ht Hd Hen. apply shown_stays; [done..| |done|done].
    mounted_form w. by rewrite step_AddClick_mounted.
  - intros j [row Hrow] Hen. apply shown_stays; [done|by split| |done|done].
    mounted_form w. rewrite view_mounted in Hrow.
    by erewrite step_DeleteClick_mounted.
Qed.

(** ** The id rule on the page *)

(** C11: The id rule gives two tasks the same id through the user interface
    alone.  On a page whose store has the ids 1..n, a click on Delete in a
    row other than the one with id n, followed by an accepted submission, is
    a run the page can receive, and it leaves a store in which ids are no
    longer unique: the new task has the id n of the last task. *)
Theorem delete_then_add_duplicates w j row title description :
  ok w → Store.dense (Hooks.tasks (World.hooks w)) →
  view w !! j = Some row →
  (Task.id row < Z.of_nat (length (Hooks.tasks (World.hooks w))))%Z →
  title ≠ "" → description ≠ "" →
  let es := DeleteClick j :: add_task title description in
  enabled_run w es
  ∧ ¬ Store.unique_ids (Hooks.tasks (World.hooks (run w es))).
Proof.
  intros Hok Hd Hrow Hlt Ht Hde es. subst es.
  pose proof (ok_view_mounted _ _ _ Hok Hrow) as Hm. mounted_form w. simpl in Hd, Hlt.
  rewrite view_mounted in Hrow.
  assert (1 ≤ Task.id row)%Z as Hge.
  { apply (dense_elem_of _ _ Hd), list_elem_of_fmap_2.
    eapply elem_of_sublist; [by eapply list_elem_of_lookup_2|by apply shows_sublist]. }
  rewrite run_cons. cbn [enabled_run]. rewrite (step_DeleteClick_mounted j row) by done.
  cbv zeta. split_and!; [|apply enabled_add_task|].
  { split; [done|]. by rewrite view_mounted, Hrow. }
  apply add_task_collides; [done..|]. by apply next_id_collides.
Qed.

(** C32: The id rule can clash with the ids of the seed.  When the id the rule
    computes after the seed (the number of seeded tasks plus one) is the id
    of one of the first 20 records, the first accepted submission gives two
    tasks the same id. *)
Theorem seed_then_add_duplicates (data : list Todo.t) title description :
  (Z.of_nat (20 `min` length data) + 1)%Z ∈ Todo.id <$> take 20 data →
  title ≠ "" → description ≠ "" →
  let es := [Mount; FetchResolved data] ++ add_task title description in
  ¬ Store.unique_ids (Hooks.tasks (World.hooks (run (World.init (T:=T)) es))).
Proof.
  intros Hin Ht Hd es. subst es. rewrite run_app, run_seed. cbv zeta.
  apply add_task_collides; [done..|]. cbn [Hooks.tasks].
  rewrite initialTasks_ids, <-fmap_take. unfold Store.next_id.
  by rewrite initialTasks_length.
Qed.

(** C27: Once two tasks share an id, one click on Delete removes both: every
    task with the id of the clicked row leaves the store, so the store
    shrinks by two or more with a single click. *)
Theorem delete_click_removes_duplicates w j row a b ta tb :
  ok w → view w !! j = Some row →
  let tasks := Hooks.tasks (World.hooks w) in
  let tasks' := Hooks.tasks (World.hooks (step w (DeleteClick j))) in
  a ≠ b → tasks !! a = Some ta → tasks !! b = Some tb →
  Task.id ta = Task.id row → Task.id tb = Task.id row →
  (ta ∉ tasks') ∧ (tb ∉ tasks') ∧ length tasks' + 2 ≤ length tasks.
Proof.
  intros Hok Hrow. pose proof (ok_view_mounted _ _ _ Hok Hrow) as Hm. mounted_form w.
  rewrite view_mounted in Hrow. rewrite (step_DeleteClick_mounted j row) by done.
  simpl. intros Hab Ha Hb Hta Htb. unfold Store.remove_by_id.
  rewrite !filter_key_elem_of.
  split_and!; [by intros [_ ?]..|by eapply filter_key_length_two].
Qed.

End scenarios.

(** ** Witnesses on the list grid *)

Lemma scenario_end_to_end_witness :
  let w : World.t ListGrid.t :=
    run World.init
      ([Mount; FetchResolved todos_25] ++ add_task "Buy milk" "2 litres" ++ [DeleteClick 0]) in
  Store.ids (Hooks.tasks (World.hooks w)) = Z.of_nat <$> seq 2 20.
Proof.
  intros w.
  pose proof (scenario_end_to_end (T:=ListGrid.t) todos_25 "Buy milk" "2 litres"
    ltac:(by vm_compute) ltac:(apply (bool_decide_unpack _); by vm_compute)
    ltac:(apply (bool_decide_unpack _); by vm_compute)
    ltac:(done) ltac:(done)) as (_ & _ & _ & H3 & _).
  vm_compute in H3. vm_compute. exact (f_equal Store.ids H3).
Defined.

Lemma add_default_status_witness :
  Hooks.tasks (World.hooks (step page_drafted AddClick)) =
  [Task.mk 1 "Buy milk" "2 litres" "To Do"].
Proof.
  pose proof (add_default_status (step World.init Mount)
    [TitleInput "Buy milk"; DescriptionInput "2 litres"]
    ltac:(apply reachable_ok, (reachable_run World.init [Mount]);
          [constructor|apply (bool_decide_unpack _); by vm_compute])
    ltac:(by vm_compute) ltac:(by vm_compute) ltac:(by vm_compute)
    ltac:(by vm_compute) ltac:(by vm_compute)) as H.
  vm_compute in H. vm_compute. exact H.
Defined.

Lemma delete_then_add_duplicates_witness :
  ¬ Store.unique_ids (Hooks.tasks (World.hooks page_duplicate)).
Proof.
  exact (proj2 (delete_then_add_duplicates page_seeded 0
    (Task.mk 1 "delectus aut autem" "No description provided" "To Do")
    "Buy milk" "2 litres"
    (reachable_ok _ page_seeded_reachable)
    ltac:(by vm_compute) ltac:(by vm_compute) ltac:(by vm_compute)
    ltac:(done) ltac:(done))).
Defined.

Lemma seed_then_add_duplicates_witness :
  ¬ Store.unique_ids (Hooks.tasks (World.hooks
      (run (World.init (T:=ListGrid.t))
         ([Mount; FetchResolved todos_from_two] ++ add_task "Buy milk" "2 litres")))).
Proof.
  exact (seed_then_add_duplicates (T:=ListGrid.t) todos_from_two "Buy milk" "2 litres"
    ltac:(apply (bool_decide_unpack _); by vm_compute) ltac:(done) ltac:(done)).
Defined.

Lemma delete_click_removes_duplicates_witness :
  length (Hooks.tasks (World.hooks (step page_duplicate (DeleteClick 1)))) + 2
  ≤ length (Hooks.tasks (World.hooks page_duplicate)).
Proof.
  exact (proj2 (proj2 (delete_click_removes_duplicates page_duplicate 1
    (Task.mk 3 "fugiat veniam minus" "No description provided" "Done") 1 2
    (Task.mk 3 "fugiat veniam minus" "No description provided" "Done")
    (Task.mk 3 "Buy milk" "2 litres" "To Do")
    (reachable_ok _ page_duplicate_reachable)
    ltac:(by vm_compute) ltac:(done) ltac:(by vm_compute) ltac:(by vm_compute)
    ltac:(done) ltac:(done)))).
Defined.

Lemma toast_stays_on_page_witness :
  Toast.mk_node 0 Toast.toast_class "Task added successfully"
    ∈ Toast.body (World.page (run page_drafted [AddClick; Tick 2999; TimerFire; Unmount])).
Proof.
  pose proof (proj1 (toast_stays_on_page page_drafted [Tick 2999; TimerFire; Unmount]
    (reachable_ok _ page_drafted_reachable) ltac:(by vm_compute) ltac:(by vm_compute))
    ltac:(by vm_compute) ltac:(by vm_compute)
    ltac:(apply (bool_decide_unpack _); by vm_compute)) as H.
  vm_compute in H. vm_compute. exact H.
Defined.

Lemma toasts_expire_on_page_witness :
  Toast.body (World.page
    (run page_duplicate [Tick 3000; TimerFire; TimerFire])) = [].
Proof.
  pose proof (toasts_expire_on_page page_duplicate 3000
    (reachable_ok _ page_duplicate_reachable) ltac:(done)) as (_ & H & _).
  vm_compute in H. vm_compute. exact H.
Defined.
