(* ===== verification/Similar.v ===== *)
(** * Pages up to the identity of the tables

    Two pages are [similar] when they differ only in what the user cannot
    observe: the identities of the table instances, and the internal state of
    the grid beyond its rows, its columns and the rows it displays
    ([grid_equiv]).  The relation is a partial equivalence (it relates the
    pages that have the shape of a reachable page), every handler and effect
    of the component respects it ([step], [run], [enabled], [view] and [abs]
    are morphisms), and so a page can be replaced by a similar one in any
    statement about runs. *)

From S2P Require Import Prelude Data Store Seed Toast Grid Component Invariant Pages Spec Scenarios.

Section similar.
Context {T : Type} `{!GridWidget T}.
Implicit Types (w : World.t T) (g : T) (h : Hooks.t) (cmds : list Cmd).

(** Grids with the same data, the same columns and the same rows on
    display. *)
Definition grid_equiv g g' : Prop :=
  grid_rows g = grid_rows g' ∧ grid_columns g = grid_columns g'
  ∧ grid_visible g = grid_visible g'.

Inductive similar : relation (World.t T) :=
| similar_gone h n n' r p : similar (gone h n r p) (gone h n' r p)
| similar_mounted h i i' g g' n n' r p :
    grid_equiv g g' → similar (mounted h i g n r p) (mounted h i' g' n' r p).

(** ** The relations *)

#[export] Instance grid_equiv_equivalence : Equivalence grid_equiv.
Proof.
  split.
  - by intros g.
  - by intros g g' (? & ? & ?).
  - intros g1 g2 g3 (? & ? & ?) (? & ? & ?). split_and!; congruence.
Qed.

#[export] Instance similar_symmetric : Symmetric similar.
Proof. intros w w' []; by constructor. Qed.

#[export] Instance similar_transitive : Transitive similar.
Proof.
  intros w1 w2 w3 H12 H23. destruct H12; inversion H23; simplify_eq;
    constructor. by etrans.
Qed.

Lemma ok_similar w : ok w → similar w w.
Proof. intros []; by constructor. Qed.

(** ** The grid operations respect the equivalence *)

#[export] Instance apply_filter_proper v : Proper (grid_equiv ==> grid_equiv) (apply_filter v).
Proof.
  intros g g' (Hr & Hc & Hv). unfold grid_equiv.
  by rewrite !apply_filter_rows, !apply_filter_columns, !apply_filter_visible, Hr, Hc.
Qed.

#[export] Instance grid_after_proper cmds h :
  Proper (grid_equiv ==> grid_equiv) (grid_after cmds h).
Proof.
  intros g g' Hg. unfold grid_after.
  destruct (calls_setTasks cmds); case_bool_decide; by rewrite ?Hg.
Qed.

(** ** Clicks on similar pages *)

Lemma click_row_equiv j h i i' g g' n n' r p :
  grid_equiv g g' →
  click_row j (mounted h i g n r p) = click_row j (mounted h i' g' n' r p).
Proof. intros (_ & Hc & Hv). unfold click_row. simpl. by rewrite Hc, Hv. Qed.

(** ** The component respects similarity *)

Lemma commit_similar cmds w w' : similar w w' → similar (commit cmds w) (commit cmds w').
Proof.
  intros [h n n' r p|h i i' g g' n n' r p Hg].
  - rewrite !commit_gone. constructor.
  - rewrite !commit_mounted. constructor. by rewrite Hg.
Qed.

Lemma set_page_similar p' w w' :
  similar w w' → similar (World.set_page p' w) (World.set_page p' w').
Proof. intros [h n n' r p|h i i' g g' n n' r p Hg]; by constructor. Qed.

Lemma set_request_similar r' w w' :
  similar w w' → similar (World.set_request r' w) (World.set_request r' w').
Proof. intros [h n n' r p|h i i' g g' n n' r p Hg]; by constructor. Qed.

Lemma mount_similar w w' : similar w w' → similar (step w Mount) (step w' Mount).
Proof.
  intros [h n n' r p|h i i' g g' n n' r p Hg]; [|by constructor].
  change (step (gone h ?m r p) Mount) with (mount (gone h m r p)).
  rewrite !mount_any. by constructor.
Qed.

Lemma unmount_similar w w' : similar w w' → similar (step w Unmount) (step w' Unmount).
Proof.
  intros [h n n' r p|h i i' g g' n n' r p Hg]; [by constructor|].
  rewrite !step_Unmount_mounted. constructor.
Qed.

Lemma similar_fields w w' :
  similar w w' →
  World.hooks w = World.hooks w' ∧ World.tableRef w = World.tableRef w'
  ∧ World.request w = World.request w' ∧ World.page w = World.page w'
  ∧ World.crashed w = World.crashed w' ∧ view w = view w'
  ∧ ∀ j, click_row j w = click_row j w'.
Proof.
  intros [h n n' r p|h i i' g g' n n' r p Hg]; [done|].
  rewrite !view_mounted. split_and!; try done; [apply Hg|].
  intros j. by apply click_row_equiv.
Qed.

#[export] Instance step_proper : Proper (similar ==> eq ==> similar) step.
Proof.
  intros w w' Hs e ? <-. destruct (similar_fields w w' Hs) as (Hh & Ht & Hr & Hp & _ & _ & Hc).
  destruct e as [|data| |v|v|v| |v|j|ms| |];
    [by apply mount_similar|..|by apply unmount_similar];
    simpl; rewrite <-?Hh, <-?Ht, <-?Hr, <-?Hp, <-?Hc;
    try (by apply commit_similar); try (by apply set_page_similar).
  - case_decide; [|done]. case_match; [apply commit_similar|]; by apply set_request_similar.
  - case_decide; [|done]. by apply set_request_similar.
Qed.

#[export] Instance run_proper : Proper (similar ==> eq ==> similar) run.
Proof.
  intros w w' Hs es ? <-. revert w w' Hs.
  induction es as [|e es IH]; intros w w' Hs; [done|].
  rewrite !run_cons. by apply IH, step_proper.
Qed.

#[export] Instance view_proper : Proper (similar ==> eq) view.
Proof. intros w w' Hs. apply (similar_fields w w' Hs). Qed.

#[export] Instance abs_proper : Proper (similar ==> eq) abs.
Proof.
  intros w w' Hs. destruct (similar_fields w w' Hs) as (Hh & Ht & Hr & _).
  unfold abs. by rewrite Hh, Ht, Hr.
Qed.

#[export] Instance page_proper : Proper (similar ==> eq) (World.page (T:=T)).
Proof. intros w w' Hs. apply (similar_fields w w' Hs). Qed.

#[export] Instance enabled_proper : Proper (similar ==> eq ==> iff) enabled.
Proof.
  intros w w' Hs e ? <-. destruct (similar_fields w w' Hs) as (Hh & Ht & Hr & _ & _ & Hv & _).
  destruct e; simpl; by rewrite <-?Hh, <-?Ht, <-?Hr, <-?Hv.
Qed.

#[export] Instance enabled_run_proper : Proper (similar ==> eq ==> iff) enabled_run.
Proof.
  intros w w' Hs es ? <-. revert w w' Hs.
  induction es as [|e es IH]; intros w w' Hs; [done|].
  simpl. rewrite (IH (step w e) (step w' e)) by (by apply step_proper). by rewrite Hs.
Qed.

(** A submission followed by a click on Delete in the row it added leads to
    a page similar to the page before, with a blank draft and the two
    toasts. *)
Lemma add_then_delete_similar title description h i g n r p :
  ok (mounted h i g n r p) → Hooks.filterStatus h = "" →
  Store.next_id (Hooks.tasks h) ∉ Store.ids (Hooks.tasks h) →
  title ≠ "" → description ≠ "" →
  similar
    (run (mounted h i g n r p)
       (add_task title description ++ [DeleteClick (length (Hooks.tasks h))]))
    (mounted (Hooks.mk (Hooks.tasks h) "" Draft.blank) i g n r
       (Toast.showToast "Task deleted successfully"
          (Toast.showToast "Task added successfully" p))).
Proof.
  intros Hok Hf Hfresh Ht Hd.
  inversion Hok as [|? ? ? ? ? ? _ _ _ _ _ Hrows Hcols Hs|]; simplify_eq.
  rewrite run_app, run_add_task by done. cbv zeta. autorewrite with tm_step.
  erewrite step_DeleteClick_mounted;
    [|by rewrite grid_new_columns
     |by rewrite grid_new_visible, lookup_app_r, Nat.sub_diag by done].
  cbv zeta. cbn [Hooks.tasks Hooks.filterStatus Hooks.newTask].
  change (Hooks.tasks h ++ [?task]) with (Store.append_one task (Hooks.tasks h)).
  rewrite remove_by_id_append_new, Hf by done.
  constructor. unfold grid_equiv.
  by rewrite grid_new_rows, grid_new_columns, grid_new_visible, Hrows, Hcols,
    (shows_unfiltered h g).
Qed.

(** ** Theorems *)

(** C30: Deleting the task just added undoes the addition.  On a page with
    no filter selected, where the id the rule computes is not in use, an
    accepted submission followed by a click on Delete in the row it added is
    a run the page accepts, and from then on the page behaves, under every
    run of events, as the page before with a blank draft and the two toasts:
    the same runs are accepted and they lead to the same tasks, selection,
    draft, rows on display and notifications. *)
Theorem add_then_delete_restores w title description es :
  ok w → World.tableRef w = true →
  Hooks.filterStatus (World.hooks w) = "" →
  Store.next_id (Hooks.tasks (World.hooks w)) ∉ Store.ids (Hooks.tasks (World.hooks w)) →
  title ≠ "" → description ≠ "" →
  let undo := add_task title description ++ [DeleteClick (length (Hooks.tasks (World.hooks w)))] in
  let w0 :=
    World.set_page
      (Toast.showToast "Task deleted successfully"
         (Toast.showToast "Task added successfully" (World.page w)))
      (World.set_hooks (Hooks.mk (Hooks.tasks (World.hooks w)) "" Draft.blank) w) in
  (enabled_run (run w undo) es ↔ enabled_run w0 es)
  ∧ abs (run (run w undo) es) = abs (run w0 es)
  ∧ view (run (run w undo) es) = view (run w0 es)
  ∧ World.page (run (run w undo) es) = World.page (run w0 es).
Proof.
  intros Hok Hm Hf Hfresh Ht Hd undo w0. subst undo w0. mounted_form w. simpl in Hf, Hfresh.
  pose proof (add_then_delete_similar title description h i g n r p Hok' Hf Hfresh Ht Hd) as Hs.
  change (World.hooks (mounted h i g n r p)) with h.
  change (World.page (mounted h i g n r p)) with p.
  change (World.set_page ?p' (World.set_hooks ?h' (mounted h i g n r p)))
    with (mounted h' i g n r p').
  by rewrite Hs.
Qed.

End similar.

(** ** Witness on the list grid *)

Lemma add_then_delete_restores_witness :
  Hooks.tasks (World.hooks
    (run page_seeded (add_task "Buy milk" "2 litres" ++ [DeleteClick 3; DeleteClick 0]))) =
  [Task.mk 2 "quis ut nam facilis" "No description provided" "To Do";
   Task.mk 3 "fugiat veniam minus" "No description provided" "Done"].
Proof.
  pose proof (add_then_delete_restores page_seeded "Buy milk" "2 litres" [DeleteClick 0]
    (reachable_ok _ page_seeded_reachable) ltac:(by vm_compute) ltac:(by vm_compute)
    ltac:(apply (bool_decide_unpack _); by vm_compute) ltac:(done) ltac:(done))
    as (_ & H & _).
  vm_compute in H. vm_compute. exact (f_equal Spec.tasks H).
Defined.
