(* ===== verification/Lifecycle.v ===== *)
(** * The removal of the component and the size of the store

    The component goes through three phases, told apart by the ref and the
    state of the request: [fresh] before the first commit, [live] while it
    is on the page, [removed] after React has unmounted it.  This file shows
    what the removal releases (lines 60-62 of [TaskManager.jsx], the cleanup
    of the table effect), that a removed page is inert (the [then] callback
    of lines 19-27 still runs when the response arrives late, and leaves no
    trace: its one call is [setTasks]; the toasts still expire), and the
    bound on the size of the store and on the ids the rule of line 70
    computes. *)

From S2P Require Import Prelude Data Store Seed Toast Grid Component Invariant Pages Spec.

Inductive Phase := fresh | live | removed.

#[export] Instance Phase_eq_dec : EqDecision Phase.
Proof. solve_decision. Defined.

(** The clicks on Add Task of a run. *)
Definition added (e : Event) : nat :=
  match e with
  | AddClick => 1
  | _ => 0
  end.

Definition adds (es : list Event) : nat := sum_list (added <$> es).

(** What a run does to the notifications of a page whose handlers do not
    run. *)
Definition page_steps (es : list Event) (p : Toast.dom) : Toast.dom :=
  foldl (λ p e, page_step e p) p es.

(** The largest integer a JavaScript number holds exactly together with its
    successor: [Number.MAX_SAFE_INTEGER]. *)
Definition MAX_SAFE_INTEGER : Z := 2 ^ 53 - 1.

(** The phase of the machine of the contract. *)
Definition Spec_phase (s : Spec.t) : Phase :=
  if Spec.mounted s then live
  else if decide (Spec.request s = fetch_idle) then fresh else removed.

Section lifecycle.
Context {T : Type} `{!GridWidget T}.
Implicit Types (w : World.t T) (e : Event) (es : list Event) (h : Hooks.t).

Definition phase w : Phase := Spec_phase (abs w).

(** ** Phases *)

Lemma phase_gone h n r p : r ≠ fetch_idle → phase (gone h n r p) = removed.
Proof. intros Hr. unfold phase, Spec_phase. simpl. by rewrite decide_False. Qed.

Lemma phase_removed w :
  phase w = removed ↔ World.tableRef w = false ∧ World.request w ≠ fetch_idle.
Proof.
  unfold phase, Spec_phase. simpl.
  destruct (World.tableRef w); [|case_decide]; split; by intros; destruct_and?.
Qed.

Lemma phase_removed_inv w :
  ok w → phase w = removed → ∃ h n r p, w = gone h n r p ∧ r ≠ fetch_idle.
Proof. intros Hok [Hm Hr]%phase_removed. by apply ok_inv_gone. Qed.

(** ** Removed pages *)

Lemma settled_or r (b : bool) :
  r ≠ fetch_idle → (if b then fetch_settled else r) ≠ fetch_idle.
Proof. by destruct b. Qed.

(** A run on a removed page, in closed form. *)
Lemma run_gone es h n r p :
  r ≠ fetch_idle → enabled_run (gone h n r p) es →
  run (gone h n r p) es =
  gone h n (if existsb settles es then fetch_settled else r) (page_steps es p).
Proof.
  revert r p. induction es as [|e es IH]; intros r p Hr Hes; [done|].
  destruct Hes as [Hen Hes]. rewrite run_cons. rewrite step_gone in Hes |- * by done.
  rewrite (IH _ _ (settled_or r (settles e) Hr) Hes). simpl.
  by destruct (settles e), (existsb settles es).
Qed.

(** ** The size of the store *)

Lemma Spec_step_length s a :
  length (Spec.tasks (Spec.step s a).1) ≤
  20 `max` length (Spec.tasks s) + match a with Spec.submit => 1 | _ => 0 end.
Proof.
  destruct a; cbn [Spec.step]; repeat case_decide; cbn [fst Spec.tasks Spec.with_draft];
    rewrite ?length_app; cbn [length]; try lia.
  - destruct (Spec.mounted s); unfold Spec.seeded; rewrite ?length_fmap, ?length_take; lia.
  - pose proof (length_filter (λ task, Task.id task ≠ id) (Spec.tasks s)). lia.
Qed.

Lemma step_length w e :
  ok w → enabled w e →
  length (Hooks.tasks (World.hooks (step w e))) ≤
  20 `max` length (Hooks.tasks (World.hooks w)) + added e.
Proof.
  intros Hok Hen. destruct (step_matched w e Hok Hen) as [Ha _].
  change (Hooks.tasks (World.hooks (step w e))) with (Spec.tasks (abs (step w e))).
  rewrite Ha. unfold spec_step.
  destruct e; simpl action_of; try destruct (view w !! _); simpl fmap; cbv iota beta;
    try (etrans; [apply Spec_step_length|]); simpl; try case_decide; simplify_eq; lia.
Qed.

Lemma adds_cons e es : adds (e :: es) = added e + adds es.
Proof. done. Qed.

Lemma run_length w es :
  ok w → enabled_run w es →
  length (Hooks.tasks (World.hooks (run w es))) ≤
  20 `max` length (Hooks.tasks (World.hooks w)) + adds es.
Proof.
  revert w. induction es as [|e es IH]; intros w Hok Hes; [rewrite run_nil; lia|].
  destruct Hes as [Hen Hes]. rewrite run_cons.
  pose proof (IH _ (ok_step _ _ Hok Hen) Hes). pose proof (step_length w e Hok Hen).
  rewrite adds_cons. lia.
Qed.

(** ** Theorems *)

(** C20: Removing the component releases the table and nothing else.  On a
    page that satisfies the invariant and is mounted, after React has
    unmounted the component the element holds no table (the cleanup of the
    table effect destroyed the one it had), no cleanup is pending, the ref is
    detached and nothing is on display, while the tasks, the filter
    selection, the draft, the state of the seed request and the
    notifications on the page are as before, and no effect has thrown. *)
Theorem unmount_releases_table w :
  ok w → World.tableRef w = true →
  let w' := step w Unmount in
  Registry.findTable (World.tables w') = [] ∧ World.cleanup w' = None
  ∧ World.tableRef w' = false ∧ view w' = [] ∧ phase w' = removed
  ∧ World.hooks w' = World.hooks w ∧ World.request w' = World.request w
  ∧ World.page w' = World.page w ∧ World.crashed w' = false.
Proof.
  intros Hok Hm w'. subst w'. pose proof (ok_request w Hok Hm) as Hr. mounted_form w.
  rewrite step_Unmount_mounted. split_and!; try done. by apply phase_gone.
Qed.

(** C25: A removed page is inert.  On a reachable page from which the
    component has been removed, after any run of events the page can still
    receive, the page is the page of the removal but for the request, which
    is settled when one of the events was its outcome, and the
    notifications, which are those the clock and the timers leave.  The
    [then] callback of a response that arrives late does run, but its one
    call is [setTasks], which React drops on a removed component: the
    tasks, the filter selection and the draft are those of the removal, no
    table is built on the detached element, nothing is on display, no toast
    is shown and no effect throws. *)
Theorem removed_page_inert w es :
  reachable w → phase w = removed → enabled_run w es →
  run w es =
    World.set_page (page_steps es (World.page w))
      (World.set_request
         (if existsb settles es then fetch_settled else World.request w) w)
  ∧ Registry.findTable (World.tables (run w es)) = [] ∧ view (run w es) = []
  ∧ phase (run w es) = removed.
Proof.
  intros Hok%reachable_ok Hph Hes.
  destruct (phase_removed_inv w Hok Hph) as (h & n & r & p & -> & Hr).
  rewrite (run_gone es h n r p Hr Hes).
  split_and!; try done. by apply phase_gone, settled_or.
Qed.

(** C31: The store stays small and the ids stay exact.  After any run of
    events from a reachable page the store holds at most max(20, n) + a
    tasks, where n is its size before the run and a the number of clicks on
    Add Task in the run: the seed brings at most 20 tasks, a submission one,
    and nothing else makes the store grow.  Hence the id the rule
    tasks.length + 1 computes next is between 1 and that bound plus one, and
    it is a safe integer of JavaScript as long as the bound is below
    Number.MAX_SAFE_INTEGER. *)
Theorem store_size_bounded w es :
  reachable w → enabled_run w es →
  let tasks' := Hooks.tasks (World.hooks (run w es)) in
  let bound := 20 `max` length (Hooks.tasks (World.hooks w)) + adds es in
  length tasks' ≤ bound
  ∧ (1 ≤ Store.next_id tasks' ≤ Z.of_nat bound + 1)%Z
  ∧ (Z.of_nat bound < MAX_SAFE_INTEGER → Store.next_id tasks' ≤ MAX_SAFE_INTEGER)%Z.
Proof.
  intros Hok%reachable_ok Hes tasks' bound. subst tasks' bound.
  pose proof (run_length w es Hok Hes). unfold Store.next_id. lia.
Qed.

End lifecycle.

(** ** Witnesses on the list grid *)

Lemma unmount_releases_table_witness :
  Registry.findTable (World.tables (step page_seeded Unmount)) = []
  ∧ Hooks.tasks (World.hooks (step page_seeded Unmount)) = Hooks.tasks (World.hooks page_seeded).
Proof.
  pose proof (unmount_releases_table page_seeded (reachable_ok _ page_seeded_reachable)
    ltac:(by vm_compute)) as (H1 & _ & _ & _ & _ & H2 & _).
  split; [exact H1|exact (f_equal Hooks.tasks H2)].
Defined.

Lemma removed_page_inert_witness :
  run page_removed [FetchResolved three_todos; Tick 5] =
  World.set_page (Toast.tick 5 (World.page page_removed))
    (World.set_request fetch_settled page_removed).
Proof.
  pose proof (removed_page_inert page_removed [FetchResolved three_todos; Tick 5]
    page_removed_reachable ltac:(by vm_compute)
    ltac:(apply (bool_decide_unpack _); by vm_compute)) as [H _].
  vm_compute in H. vm_compute. exact H.
Defined.

Lemma store_size_bounded_witness :
  length (Hooks.tasks (World.hooks
    (run page_seeded [TitleInput "Buy milk"; DescriptionInput "2 litres"; AddClick]))) ≤ 21.
Proof.
  exact (proj1 (store_size_bounded page_seeded
    [TitleInput "Buy milk"; DescriptionInput "2 litres"; AddClick]
    page_seeded_reachable ltac:(apply (bool_decide_unpack _); by vm_compute))).
Defined.
