(* ===== verification/Objects.v ===== *)
(** * Tasks as JavaScript objects: identity, sharing and in-grid edits

    [Store.v] and [Component.v] treat the [tasks] array as a list of task
    values.  In JavaScript it is an array of references to objects, and the
    expressions of the source differ in what they allocate: the object
    literals of lines 20-25 and 69-72 create objects, while the spread of
    line 73 and the [filter] of line 52 build new arrays of the objects they
    are given.  The array is then handed to the grid ([data: tasks], line
    34) and captured by the [cellClick] closure (line 52).

    This file models that level ([Obj]: a heap of task objects and arrays of
    locations; [Ref]: the handlers of the component over them) and proves
    that the value level is its abstraction ([absr]): as long as no cell of
    the grid is edited, the tasks the handlers of [Component.v] compute are
    the contents of the arrays the handlers of [Ref] build.

    It also models in-grid cell edits, as far as the source determines them.
    The [columns] option (lines 36-57) decides which cells can be edited and
    with which values ([editor_of], [accepts]); the component registers no
    edit callback, so an edit runs no line of the source: it writes a field
    of the row object the grid holds ([Ref.edit]), and whether the store
    sees it depends on whether the grid keeps the objects of the array it
    was given or copies of them.  Which of the two Tabulator does is not
    decided by the sources of this repository, so the grid's way of taking
    its data is an interface, [RowPolicy], with an instance for each
    ([shares_rows], [copies_rows]) and the theorems for both.  Rows are
    addressed by their position in the table's data; the filter, which only
    selects the rows on display, has no part in this file. *)

From S2P Require Import Prelude Data Store Seed Grid Component Invariant Pages.

(** ** Objects *)

Module Obj.

(** The identity of an object. *)
Abbreviation loc := nat.

(** The task objects created so far; an object's identity is its position.
    Nothing is freed while the page holds a reference to it. *)
Abbreviation heap := (list Task.t).

(** An object literal: a new object with the given fields. *)
Definition alloc (task : Task.t) (σ : heap) : loc * heap := (length σ, σ ++ [task]).

(** [map] with an object literal in its callback: one new object per
    element, in order. *)
Definition alloc_all (tasks : list Task.t) (σ : heap) : list loc * heap :=
  (seq (length σ) (length tasks), σ ++ tasks).

(** The contents of an array of references. *)
Definition read (σ : heap) (arr : list loc) : list Task.t := omap (σ !!.) arr.

(** Every reference of the array is to an object of the heap. *)
Definition closed (σ : heap) (arr : list loc) : Prop := Forall (λ l, l < length σ) arr.

(** [row.data[field] = value] on one of the three text fields of a task.
    An edit is made only where [accepts] lets it (see [Ref.edit]), and the
    Task ID column has no editor (line 37): [set_field] is not called on
    [id], whose value, a number, the text of an editor could not be, and it
    leaves the task alone there as on any name that is not a field. *)
Definition set_field (field value : string) (task : Task.t) : Task.t :=
  if decide (field = "title")
  then Task.mk (Task.id task) value (Task.description task) (Task.status task)
  else if decide (field = "description")
  then Task.mk (Task.id task) (Task.title task) value (Task.status task)
  else if decide (field = "status")
  then Task.mk (Task.id task) (Task.title task) (Task.description task) value
  else task.

#[global] Instance closed_dec σ arr : Decision (closed σ arr).
Proof. unfold closed. apply _. Defined.

End Obj.

(** ** Which cells can be edited *)

(** The editor of the column of a field in the [columns] option (lines
    36-57); a field with no column has none. *)
Definition editor_of (field : string) : editor :=
  from_option col_editor editor_false
    (head (filter (λ c, col_field c = Some field) (columns []))).

(** The values an editor lets the user enter: none without an editor, any
    text in an input, one of the listed values in a select. *)
Definition accepts (ed : editor) (value : string) : Prop :=
  match ed with
  | editor_false => False
  | editor_input => True
  | editor_select values => value ∈ values
  end.

#[export] Instance accepts_dec ed value : Decision (accepts ed value).
Proof. destruct ed; simpl; apply _. Defined.

(** ** How the grid takes its data *)

(** [adopt σ arr] is the array of row objects the grid holds after it was
    given [arr], with the heap after the construction.  Whatever the grid
    does, it does not touch the objects that exist, its rows are objects of
    the heap, they have the contents of the data in the order of the data,
    and distinct data objects give distinct rows. *)
Class RowPolicy := {
  adopt : Obj.heap → list Obj.loc → list Obj.loc * Obj.heap;
  adopt_heap σ arr : σ `prefix_of` (adopt σ arr).2;
  adopt_closed σ arr : Obj.closed σ arr → Obj.closed (adopt σ arr).2 (adopt σ arr).1;
  adopt_read σ arr :
    Obj.closed σ arr → Obj.read (adopt σ arr).2 (adopt σ arr).1 = Obj.read σ arr;
  adopt_NoDup σ arr : NoDup arr → NoDup (adopt σ arr).1
}.

(** ** The handlers over references *)

Module Ref.

(** The part of the page that holds references to tasks: the heap, the
    array of [useState] (line 7), the row objects of the table on the
    element, and the array its [cellClick] closure captured (line 52). *)
Record t := mk {
  heap : Obj.heap;
  tasks : list Obj.loc;
  rows : list Obj.loc;
  captured : list Obj.loc
}.

Inductive Op :=
| Add (newTask : Draft.t)               (* a click on Add Task *)
| Delete (k : nat)                      (* a click on Delete in row k *)
| Seed (data : list Todo.t)             (* the seed request resolves *)
| Edit (k : nat) (field value : string). (* a cell of row k is edited *)

Definition is_edit (o : Op) : bool :=
  match o with
  | Edit _ _ _ => true
  | _ => false
  end.

(** The operations that call [setTasks] on a page: an accepted submission,
    a click on Delete in a row of the table, the seed. *)
Definition commits (s : t) (o : Op) : bool :=
  match o with
  | Add newTask => truthy (Draft.title newTask) && truthy (Draft.description newTask)
  | Delete k => bool_decide (k < length (rows s))
  | Seed _ => true
  | Edit _ _ _ => false
  end.

Section handlers.
Context `{!RowPolicy}.

(** The table effect (lines 31-64) after the cleanup: a table built from
    the current array, whose [cellClick] captures that array. *)
Definition table_effect_refs (s : t) : t :=
  let r := adopt (heap s) (tasks s) in
  {| heap := r.2; tasks := tasks s; rows := r.1; captured := tasks s |}.

(** [setTasks(arr)] and the commit that follows: the array is new, so the
    table effect runs. *)
Definition setTasks (arr : list Obj.loc) (s : t) : t :=
  table_effect_refs {| heap := heap s; tasks := arr; rows := rows s; captured := captured s |}.

(** The page after the first commit. *)
Definition init : t := table_effect_refs {| heap := []; tasks := []; rows := []; captured := [] |}.

(** [handleAddTask] (lines 67-79): the object literal of lines 69-72, then
    the spread of line 73. *)
Definition handleAddTask_refs (newTask : Draft.t) (s : t) : t :=
  if truthy (Draft.title newTask) && truthy (Draft.description newTask) then
    let r := Obj.alloc (Draft.to_task (Z.of_nat (length (tasks s)) + 1) newTask) (heap s) in
    setTasks (tasks s ++ [r.1])
      {| heap := r.2; tasks := tasks s; rows := rows s; captured := captured s |}
  else s.

(** The [cellClick] of lines 50-55 on row [k]: [row.getData()] is the row
    object, and the [filter] of line 52 runs over the captured array. *)
Definition cellClick_refs (k : nat) (s : t) : t :=
  match rows s !! k ≫= (heap s !!.) with
  | Some data =>
      let updatedTasks :=
        filter (λ task, Task.id <$> heap s !! task ≠ Some (Task.id data)) (captured s) in
      setTasks updatedTasks s
  | None => s
  end.

(** The [then] callback of lines 19-27: [slice] and [map] with the object
    literal of lines 20-25. *)
Definition fetch_then_refs (data : list Todo.t) (s : t) : t :=
  let r := Obj.alloc_all (Seed.initialTasks data) (heap s) in
  setTasks r.1 {| heap := r.2; tasks := tasks s; rows := rows s; captured := captured s |}.

(** An edit of a cell of row [k]: when the column of the field has an
    editor that accepts the value, the field of the row object is written.
    No handler of the component runs. *)
Definition edit (k : nat) (field value : string) (s : t) : t :=
  match rows s !! k with
  | Some row =>
      if decide (accepts (editor_of field) value)
      then {| heap := alter (Obj.set_field field value) row (heap s);
              tasks := tasks s; rows := rows s; captured := captured s |}
      else s
  | None => s
  end.

Definition step_refs (s : t) (o : Op) : t :=
  match o with
  | Add newTask => handleAddTask_refs newTask s
  | Delete k => cellClick_refs k s
  | Seed data => fetch_then_refs data s
  | Edit k field value => edit k field value s
  end.

Definition run_refs (s : t) (ops : list Op) : t := foldl step_refs s ops.

End handlers.

(** The store as values: the contents of the [tasks] array. *)
Definition absr (s : t) : list Task.t := Obj.read (heap s) (tasks s).

(** The rows of the table as values. *)
Definition shown (s : t) : list Task.t := Obj.read (heap s) (rows s).

(** The references of the page are to objects of the heap, no object is
    twice in the [tasks] array or twice a row, the closure of the table
    captured the current array, the rows of the table have the ids of the
    tasks, in order, and they are the rows the grid made of the current
    array when it was built. *)
Record ok `{!RowPolicy} (s : t) : Prop := mk_ok {
  ok_tasks : Obj.closed (heap s) (tasks s);
  ok_rows : Obj.closed (heap s) (rows s);
  ok_NoDup : NoDup (tasks s);
  ok_rows_NoDup : NoDup (rows s);
  ok_captured : captured s = tasks s;
  ok_ids : Store.ids (shown s) = Store.ids (absr s);
  ok_adopted : ∃ σ, Obj.closed σ (tasks s) ∧ rows s = (adopt σ (tasks s)).1
}.

(** The table shows the store. *)
Definition synced (s : t) : Prop := shown s = absr s.

(** No row of the table is an object of the [tasks] array. *)
Definition apart (s : t) : Prop := ∀ l, l ∈ rows s → l ∉ tasks s.

End Ref.

(** ** The two policies *)

(** The grid keeps the objects it is given: its rows are the objects of the
    [tasks] array. *)
Definition shares (σ : Obj.heap) (arr : list Obj.loc) : list Obj.loc * Obj.heap := (arr, σ).

(** The grid copies the objects it is given: its rows are new objects with
    the same fields. *)
Definition copies (σ : Obj.heap) (arr : list Obj.loc) : list Obj.loc * Obj.heap :=
  Obj.alloc_all (Obj.read σ arr) σ.

(** ** The value level *)

(** The array a list of calls leaves in the [tasks] state. *)
Definition store_after (cmds : list Cmd) (tasks : list Task.t) : list Task.t :=
  foldl (λ tasks c, match c with setTasks tasks' => tasks' | _ => tasks end) tasks cmds.

(** What an operation does to the store as values: the handlers of
    [Component.v] for the three events of the component; an edit writes
    the field of the [k]-th task when edits write [through] to the store,
    and does nothing to it otherwise. *)
Definition vstep (through : bool) (tasks : list Task.t) (o : Ref.Op) : list Task.t :=
  match o with
  | Ref.Add newTask => store_after (handleAddTask tasks newTask) tasks
  | Ref.Delete k =>
      match tasks !! k with
      | Some row => store_after (cellClick tasks row) tasks
      | None => tasks
      end
  | Ref.Seed data => store_after (fetch_then data) tasks
  | Ref.Edit k field value =>
      if through && bool_decide (accepts (editor_of field) value)
      then alter (Obj.set_field field value) k tasks else tasks
  end.

(** ** Reading arrays of references *)

Section read.
Implicit Types (σ : Obj.heap) (arr : list Obj.loc) (l : Obj.loc).

Lemma read_nil σ : Obj.read σ [] = [].
Proof. done. Qed.

Lemma read_unfold σ l arr :
  Obj.read σ (l :: arr) =
  match σ !! l with Some task => task :: Obj.read σ arr | None => Obj.read σ arr end.
Proof. done. Qed.

Lemma read_cons σ l arr task :
  σ !! l = Some task → Obj.read σ (l :: arr) = task :: Obj.read σ arr.
Proof. intros Hl. by rewrite read_unfold, Hl. Qed.

Lemma read_app σ arr1 arr2 : Obj.read σ (arr1 ++ arr2) = Obj.read σ arr1 ++ Obj.read σ arr2.
Proof. apply omap_app. Qed.

Lemma closed_cons σ l arr : Obj.closed σ (l :: arr) ↔ l < length σ ∧ Obj.closed σ arr.
Proof. unfold Obj.closed. by rewrite Forall_cons. Qed.

Lemma closed_app σ arr1 arr2 :
  Obj.closed σ (arr1 ++ arr2) ↔ Obj.closed σ arr1 ∧ Obj.closed σ arr2.
Proof. apply Forall_app. Qed.

Lemma closed_prefix σ σ' arr : σ `prefix_of` σ' → Obj.closed σ arr → Obj.closed σ' arr.
Proof.
  intros Hp%prefix_length Hc. eapply Forall_impl; [done|]. simpl. intros. lia.
Qed.

Lemma closed_lookup σ arr k l : Obj.closed σ arr → arr !! k = Some l → is_Some (σ !! l).
Proof. intros Hc Hk. apply lookup_lt_is_Some, (Forall_lookup_1 _ _ _ _ Hc Hk). Qed.

(** Objects are not touched by what is allocated after them. *)
Lemma read_prefix σ σ' arr :
  σ `prefix_of` σ' → Obj.closed σ arr → Obj.read σ' arr = Obj.read σ arr.
Proof.
  intros [σ2 ->]. induction arr as [|l arr IH]; intros Hc; [done|].
  apply closed_cons in Hc as [Hl Hc]. destruct (lookup_lt_is_Some_2 σ l Hl) as [task Htask].
  rewrite (read_cons _ _ _ task) by (by rewrite lookup_app_l).
  rewrite (read_cons _ _ _ task) by done. f_equal. by apply IH.
Qed.

Lemma read_length σ arr : Obj.closed σ arr → length (Obj.read σ arr) = length arr.
Proof.
  induction arr as [|l arr IH]; intros Hc; [done|]. apply closed_cons in Hc as [Hl Hc].
  destruct (lookup_lt_is_Some_2 σ l Hl) as [task Htask].
  rewrite (read_cons _ _ _ task) by done. simpl. by rewrite IH.
Qed.

Lemma read_lookup σ arr k : Obj.closed σ arr → Obj.read σ arr !! k = arr !! k ≫= (σ !!.).
Proof.
  revert k. induction arr as [|l arr IH]; intros k Hc; [done|].
  apply closed_cons in Hc as [Hl Hc]. destruct (lookup_lt_is_Some_2 σ l Hl) as [task Htask].
  rewrite (read_cons _ _ _ task) by done. destruct k; simpl; [done|by apply IH].
Qed.

(** The objects of [alloc_all] have the given contents. *)
Lemma read_alloc_all σ tasks :
  Obj.read (Obj.alloc_all tasks σ).2 (Obj.alloc_all tasks σ).1 = tasks.
Proof.
  unfold Obj.alloc_all. cbn [fst snd]. revert σ.
  induction tasks as [|task tasks IH]; intros σ; [done|].
  cbn [length seq]. rewrite (read_cons _ _ _ task) by (by rewrite lookup_app_r, Nat.sub_diag).
  f_equal. specialize (IH (σ ++ [task])). by rewrite length_app, Nat.add_1_r, <-app_assoc in IH.
Qed.

Lemma closed_alloc_all σ tasks :
  Obj.closed (Obj.alloc_all tasks σ).2 (Obj.alloc_all tasks σ).1.
Proof.
  unfold Obj.alloc_all, Obj.closed. simpl. apply Forall_forall. intros l Hl%elem_of_seq.
  rewrite length_app. lia.
Qed.

(** The [filter] of line 52 on references is the filter on values. *)
Lemma read_filter_id σ arr id :
  Obj.closed σ arr →
  Obj.read σ (filter (λ l, Task.id <$> σ !! l ≠ Some id) arr) =
  Store.remove_by_id id (Obj.read σ arr).
Proof.
  unfold Store.remove_by_id. induction arr as [|l arr IH]; intros Hc; [done|].
  apply closed_cons in Hc as [Hl Hc]. destruct (lookup_lt_is_Some_2 σ l Hl) as [task Htask].
  rewrite (read_cons _ _ _ task), !filter_cons, Htask by done. simpl.
  destruct (decide (Task.id task = id)) as [->|Hne].
  - rewrite decide_False, decide_False by naive_solver. by apply IH.
  - rewrite decide_True, decide_True by naive_solver.
    rewrite (read_cons _ _ _ task) by done. f_equal. by apply IH.
Qed.

(** A write to an object that the array does not hold is not seen through
    the array. *)
Lemma read_alter_ne σ arr l f : l ∉ arr → Obj.read (alter f l σ) arr = Obj.read σ arr.
Proof.
  induction arr as [|l' arr IH]; intros Hl; [done|]. apply not_elem_of_cons in Hl as [Hne Hl].
  by rewrite !read_unfold, list_lookup_alter_ne, IH.
Qed.

(** A write to the object at position [k] of the array is a write at
    position [k] of its contents. *)
Lemma read_alter σ arr k l f :
  Obj.closed σ arr → NoDup arr → arr !! k = Some l →
  Obj.read (alter f l σ) arr = alter f k (Obj.read σ arr).
Proof.
  revert k. induction arr as [|l' arr IH]; intros k Hc Hnd Hk; [done|].
  apply closed_cons in Hc as [Hl Hc]. apply NoDup_cons in Hnd as [Hnot Hnd].
  destruct (lookup_lt_is_Some_2 σ l' Hl) as [task Htask].
  destruct k as [|k]; simpl in Hk; simplify_eq.
  - rewrite (read_cons _ _ _ (f task)) by (by rewrite list_lookup_alter_eq, Htask).
    by rewrite (read_cons _ _ _ task), read_alter_ne.
  - assert (l ≠ l') as Hne by (intros ->; by apply list_elem_of_lookup_2 in Hk).
    rewrite (read_cons _ _ _ task) by (by rewrite list_lookup_alter_ne).
    rewrite (read_cons _ _ _ task) by done. simpl. f_equal. by apply IH.
Qed.

(** No editor writes the id of a task. *)
Lemma set_field_id field value task : Task.id (Obj.set_field field value task) = Task.id task.
Proof. unfold Obj.set_field. by repeat case_decide. Qed.

Lemma read_alter_ids σ arr l field value :
  Store.ids (Obj.read (alter (Obj.set_field field value) l σ) arr) = Store.ids (Obj.read σ arr).
Proof.
  unfold Store.ids. induction arr as [|l' arr IH]; [done|]. rewrite !read_unfold.
  destruct (decide (l = l')) as [->|Hne].
  - rewrite list_lookup_alter_eq.
    destruct (σ !! l'); cbn [fmap option_fmap option_map]; [|exact IH].
    by rewrite !fmap_cons, set_field_id, IH.
  - rewrite list_lookup_alter_ne by done. destruct (σ !! l'); [|exact IH].
    by rewrite !fmap_cons, IH.
Qed.

End read.

(** ** The policies satisfy the interface *)

Lemma copies_heap σ arr : σ `prefix_of` (copies σ arr).2.
Proof. by apply prefix_app_r. Qed.

Lemma copies_read σ arr :
  Obj.closed σ arr → Obj.read (copies σ arr).2 (copies σ arr).1 = Obj.read σ arr.
Proof. intros _. apply read_alloc_all. Qed.

(** The rows of a grid that copies are new objects. *)
Lemma copies_fresh σ arr l : l ∈ (copies σ arr).1 → length σ ≤ l.
Proof. intros Hl%elem_of_seq. lia. Qed.

Definition shares_rows : RowPolicy :=
  {| adopt := shares;
     adopt_heap σ arr := reflexivity σ;
     adopt_closed σ arr H := H;
     adopt_read σ arr H := eq_refl;
     adopt_NoDup σ arr H := H |}.

Definition copies_rows : RowPolicy :=
  {| adopt := copies;
     adopt_heap := copies_heap;
     adopt_closed σ arr H := closed_alloc_all σ (Obj.read σ arr);
     adopt_read := copies_read;
     adopt_NoDup σ arr H := NoDup_seq (length σ) (length (Obj.read σ arr)) |}.

(** ** Concrete pages *)

(** The draft of the examples. *)
Definition milk : Draft.t := Draft.mk "Buy milk" "2 litres" "To Do".

(** Seeded with three tasks, for each policy. *)
Definition seeded_sharing : Ref.t := @Ref.run_refs shares_rows (@Ref.init shares_rows) [Ref.Seed three_todos].
Definition seeded_copying : Ref.t := @Ref.run_refs copies_rows (@Ref.init copies_rows) [Ref.Seed three_todos].

(** ** The handlers, whatever the policy *)

Section specs.
Context `{!RowPolicy}.
Implicit Types (s : Ref.t) (o : Ref.Op) (arr : list nat).

Lemma read_ids_length σ arr1 arr2 :
  Obj.closed σ arr1 → Obj.closed σ arr2 →
  Store.ids (Obj.read σ arr1) = Store.ids (Obj.read σ arr2) → length arr1 = length arr2.
Proof.
  intros H1 H2 Hids%(f_equal length). unfold Store.ids in Hids.
  by rewrite !length_fmap, !read_length in Hids.
Qed.

Lemma ok_length s : Ref.ok s → length (Ref.rows s) = length (Ref.tasks s).
Proof. intros [? ? _ _ _ ? _]. by eapply read_ids_length. Qed.

(** [setTasks] with an array of objects of the heap: the store holds the
    contents of the array and the table is rebuilt from it. *)
Lemma setTasks_spec arr s :
  Obj.closed (Ref.heap s) arr → NoDup arr →
  Ref.ok (Ref.setTasks arr s) ∧ Ref.synced (Ref.setTasks arr s)
  ∧ Ref.absr (Ref.setTasks arr s) = Obj.read (Ref.heap s) arr
  ∧ Ref.tasks (Ref.setTasks arr s) = arr
  ∧ Ref.rows (Ref.setTasks arr s) = (adopt (Ref.heap s) arr).1.
Proof.
  intros Hc Hnd. pose proof (adopt_heap (Ref.heap s) arr) as Hp.
  pose proof (adopt_read _ _ Hc) as Hread. pose proof (read_prefix _ _ _ Hp Hc) as Hpre.
  unfold Ref.synced, Ref.absr, Ref.shown. simpl. rewrite Hread, Hpre.
  split_and!; [split; simpl; unfold Ref.absr, Ref.shown; simpl|done..];
    rewrite ?Hread, ?Hpre; eauto using closed_prefix, adopt_closed, adopt_NoDup.
Qed.

(** Replaces the facts on a call of [setTasks] in the goal by those of
    [setTasks_spec], leaving its two premises first. *)
Ltac use_setTasks_spec :=
  match goal with
  | |- context [Ref.setTasks ?arr ?s0] =>
      let Ha := fresh "Ha" in
      destruct (setTasks_spec arr s0) as (? & ? & Ha & _); [| |rewrite Ha]
  end.

Lemma init_spec : Ref.ok Ref.init ∧ Ref.synced Ref.init ∧ Ref.absr Ref.init = [].
Proof.
  destruct (setTasks_spec [] (Ref.mk [] [] [] [])) as (? & ? & ? & _); [constructor..|done].
Qed.

Lemma handleAddTask_spec newTask s :
  Ref.ok s →
  let s' := Ref.handleAddTask_refs newTask s in
  Ref.ok s' ∧ Ref.absr s' = store_after (handleAddTask (Ref.absr s) newTask) (Ref.absr s)
  ∧ (Ref.commits s (Ref.Add newTask) ∨ Ref.synced s → Ref.synced s').
Proof.
  intros Hok s'. subst s'. unfold Ref.handleAddTask_refs, handleAddTask, Ref.commits.
  destruct (truthy _ && truthy _); [|split_and!; [done..|by intros [[]|]]].
  destruct Hok as [Ht Hr Hnd _ _ _ _]. cbv zeta. unfold Obj.alloc. cbn [fst snd].
  use_setTasks_spec.
  - apply closed_app. split; [by eapply closed_prefix; [apply prefix_app_r|]|].
    apply Forall_singleton. simpl. rewrite length_app. simpl. lia.
  - apply NoDup_app. split_and!; [done| |apply NoDup_singleton].
    intros l Hl ->%list_elem_of_singleton.
    apply (proj1 (Forall_forall _ _) Ht) in Hl. lia.
  - split_and!; [done| |done]. simpl.
    rewrite read_app, (read_prefix (Ref.heap s)) by (done || by apply prefix_app_r).
    rewrite (read_cons _ _ _ (Draft.to_task (Z.of_nat (length (Ref.tasks s)) + 1) newTask))
      by (by rewrite lookup_app_r, Nat.sub_diag).
    unfold Store.append_one, Store.next_id, Ref.absr. by rewrite read_length.
Qed.

Lemma fetch_then_spec data s :
  let s' := Ref.fetch_then_refs data s in
  Ref.ok s' ∧ Ref.absr s' = Seed.initialTasks data ∧ Ref.synced s'.
Proof.
  intros s'. subst s'. unfold Ref.fetch_then_refs. cbv zeta.
  use_setTasks_spec; [apply closed_alloc_all|apply NoDup_seq|].
  split_and!; [done| |done]. apply read_alloc_all.
Qed.

(** The row a click is on, as the store sees it: the task at the same
    position, which has the same id. *)
Lemma ok_row k s :
  Ref.ok s →
  match Ref.rows s !! k ≫= (Ref.heap s !!.) with
  | Some data => ∃ row, Ref.absr s !! k = Some row ∧ Task.id row = Task.id data
  | None => Ref.absr s !! k = None ∧ length (Ref.rows s) ≤ k
  end.
Proof.
  intros Hok. pose proof (ok_length s Hok) as Hlen. destruct Hok as [Ht Hr _ _ _ Hids _].
  rewrite <-(read_lookup _ _ k Hr). fold (Ref.shown s).
  apply (f_equal (.!! k)) in Hids. unfold Store.ids in Hids. rewrite !list_lookup_fmap in Hids.
  destruct (Ref.shown s !! k) as [data|] eqn:Hd; destruct (Ref.absr s !! k) as [row|] eqn:Ha;
    simplify_eq/=; [by exists row|].
  split; [done|]. apply lookup_ge_None in Ha. unfold Ref.absr in Ha.
  rewrite read_length in Ha by done. lia.
Qed.

Lemma cellClick_spec k s :
  Ref.ok s →
  let s' := Ref.cellClick_refs k s in
  Ref.ok s' ∧ Ref.absr s' = vstep false (Ref.absr s) (Ref.Delete k)
  ∧ (Ref.commits s (Ref.Delete k) ∨ Ref.synced s → Ref.synced s').
Proof.
  intros Hok s'. subst s'. pose proof (ok_row k s Hok) as Hrow.
  unfold Ref.cellClick_refs, vstep, Ref.commits.
  destruct (Ref.rows s !! k ≫= _) as [data|].
  - destruct Hrow as (row & -> & Hid). destruct Hok as [Ht Hr Hnd _ Hcap _ _]. rewrite Hcap.
    cbv zeta. use_setTasks_spec; [by apply Forall_filter_keep|by apply NoDup_filter|].
    split_and!; [done| |done]. rewrite read_filter_id by done. simpl. by rewrite Hid.
  - destruct Hrow as [-> Hk]. split_and!; [done..|].
    intros [Hlt%bool_decide_unpack|]; [lia|done].
Qed.

Lemma edit_ok k field value s : Ref.ok s → Ref.ok (Ref.edit k field value s).
Proof.
  intros Hok. unfold Ref.edit. destruct (Ref.rows s !! k); [|done]. case_decide; [|done].
  destruct Hok as [Ht Hr Hnd Hrnd Hcap Hids Had].
  split; unfold Ref.shown, Ref.absr, Obj.closed in *; simpl;
    rewrite ?length_alter, ?read_alter_ids; done.
Qed.

(** An operation of the component, on the store as values. *)
Lemma step_noedit (through : bool) s o :
  Ref.ok s → Ref.is_edit o = false →
  Ref.ok (Ref.step_refs s o) ∧ Ref.absr (Ref.step_refs s o) = vstep through (Ref.absr s) o
  ∧ (Ref.commits s o ∨ Ref.synced s → Ref.synced (Ref.step_refs s o)).
Proof.
  intros Hok He. destruct o; [apply handleAddTask_spec|apply cellClick_spec| |]; try done.
  destruct (fetch_then_spec data s) as (? & ? & ?). by split_and!.
Qed.

Lemma step_ok s o : Ref.ok s → Ref.ok (Ref.step_refs s o).
Proof.
  intros Hok. destruct (Ref.is_edit o) eqn:He; [|by apply (step_noedit false)].
  destruct o; try done. by apply edit_ok.
Qed.

Lemma ref_run_cons s o ops : Ref.run_refs s (o :: ops) = Ref.run_refs (Ref.step_refs s o) ops.
Proof. done. Qed.

Lemma run_ok s ops : Ref.ok s → Ref.ok (Ref.run_refs s ops).
Proof. revert s. induction ops as [|o ops IH]; intros s Hok; [done|]. by apply IH, step_ok. Qed.

(** A run of operations of the component, on the store as values. *)
Lemma run_noedit through s ops :
  Ref.ok s → Ref.synced s → Forall (λ o, ¬ Ref.is_edit o) ops →
  Ref.absr (Ref.run_refs s ops) = foldl (vstep through) (Ref.absr s) ops
  ∧ Ref.synced (Ref.run_refs s ops).
Proof.
  revert s. induction ops as [|o ops IH]; intros s Hok Hs Hops; [done|].
  apply Forall_cons in Hops as [Ho%negb_prop_intro%Is_true_true Hops].
  apply negb_true_iff in Ho.
  destruct (step_noedit through s o Hok Ho) as (Hok' & Ha & Hs').
  rewrite ref_run_cons. simpl. rewrite <-Ha. apply IH; auto.
Qed.

(** ** Theorems on any policy *)

(** C18: The store as values is the abstraction of the store as
    JavaScript holds it.  Whatever the grid does with the data it is given
    (within the interface [RowPolicy]), on a page whose table shows the
    store and as long as no cell is edited, after any run of submissions,
    clicks on Delete and seeds the contents of the [tasks] array are the
    tasks the handlers of the component compute on values ([handleAddTask],
    [cellClick] and [fetch_then] of [Component.v], with the id of the
    clicked row read from the table), the table shows the store again, and
    the references of the page are in order. *)
Theorem values_abstract_references s ops :
  Ref.ok s → Ref.synced s → Forall (λ o, ¬ Ref.is_edit o) ops →
  Ref.absr (Ref.run_refs s ops) = foldl (vstep false) (Ref.absr s) ops
  ∧ Ref.shown (Ref.run_refs s ops) = Ref.absr (Ref.run_refs s ops)
  ∧ Ref.ok (Ref.run_refs s ops).
Proof.
  intros Hok Hs Hops. destruct (run_noedit false s ops Hok Hs Hops) as [Ha Hs'].
  split_and!; [done..|by apply run_ok].
Qed.

End specs.

(** Where edits do not write through, the run on values skips them. *)
Lemma vstep_skip_edits tasks ops :
  foldl (vstep false) tasks ops =
  foldl (vstep false) tasks (filter (λ o, ¬ Ref.is_edit o) ops).
Proof.
  revert tasks. induction ops as [|o ops IH]; intros tasks; [done|].
  rewrite filter_cons. case_decide as He; destruct o; simpl in *; try done; by destruct He.
Qed.

(** ** A grid that keeps the objects it is given *)

Section sharing.
#[local] Existing Instance shares_rows.
Implicit Types (s : Ref.t) (o : Ref.Op).

(** The rows of the table are the objects of the [tasks] array. *)
Lemma shares_aliased s : Ref.ok s → Ref.rows s = Ref.tasks s.
Proof. by intros [_ _ _ _ _ _ (σ & _ & ->)]. Qed.

Lemma shares_synced s : Ref.ok s → Ref.synced s.
Proof. intros Hok. unfold Ref.synced, Ref.shown. by rewrite shares_aliased. Qed.

(** An edit is a write to the task at the same position of the store. *)
Lemma shares_edit k field value s :
  Ref.ok s →
  Ref.absr (Ref.edit k field value s) = vstep true (Ref.absr s) (Ref.Edit k field value).
Proof.
  intros Hok. pose proof (shares_aliased s Hok) as Hr. destruct Hok as [Ht _ Hnd _ _ _ _].
  unfold Ref.edit, vstep. rewrite Hr. simpl.
  destruct (Ref.tasks s !! k) as [l|] eqn:Hk; case_bool_decide; try done.
  - rewrite decide_True by done. by apply read_alter.
  - by rewrite decide_False.
  - rewrite list_alter_ge; [done|]. apply lookup_ge_None in Hk.
    unfold Ref.absr. by rewrite read_length.
Qed.

Lemma shares_step s o :
  Ref.ok s → Ref.absr (Ref.step_refs s o) = vstep true (Ref.absr s) o.
Proof.
  intros Hok. destruct (Ref.is_edit o) eqn:He; [|by apply step_noedit].
  destruct o; try done. by apply shares_edit.
Qed.

(** C22: With a grid that keeps the objects it is given, an edit of a
    cell writes through to the store without a call of [setTasks].  After
    any run of submissions, deletions, seeds and edits, the contents of the
    [tasks] array are those of the run on values in which an accepted edit
    of row k writes the field of the k-th task: the edited value is in
    the store, it stays there through later submissions and deletions
    (which copy references, not objects), it is what a later click on
    Delete filters, and only the seed replaces it.  The table shows the
    store at every moment. *)
Theorem shared_rows_write_through s ops :
  Ref.ok s →
  Ref.absr (Ref.run_refs s ops) = foldl (vstep true) (Ref.absr s) ops
  ∧ Ref.shown (Ref.run_refs s ops) = Ref.absr (Ref.run_refs s ops)
  ∧ Ref.rows (Ref.run_refs s ops) = Ref.tasks (Ref.run_refs s ops).
Proof.
  intros Hok. split; [|split; [apply shares_synced|apply shares_aliased]; by apply run_ok].
  revert s Hok. induction ops as [|o ops IH]; intros s Hok; [done|].
  rewrite ref_run_cons. simpl. rewrite <-shares_step by done. by apply IH, step_ok.
Qed.

End sharing.

(** ** A grid that copies the objects it is given *)

Section copying.
#[local] Existing Instance copies_rows.
Implicit Types (s : Ref.t) (o : Ref.Op).

(** No row of the table is an object of the [tasks] array. *)
Lemma copies_apart s : Ref.ok s → Ref.apart s.
Proof.
  intros [_ _ _ _ _ _ (σ & Hc & Hr)]. unfold Ref.apart. rewrite Hr.
  intros l Hl%copies_fresh Ht. apply (proj1 (Forall_forall _ _) Hc) in Ht. lia.
Qed.

(** An edit is not seen by the store, and is seen in the table. *)
Lemma copies_edit k field value s :
  Ref.ok s →
  Ref.absr (Ref.edit k field value s) = Ref.absr s
  ∧ (accepts (editor_of field) value →
     Ref.shown (Ref.edit k field value s) = alter (Obj.set_field field value) k (Ref.shown s)).
Proof.
  intros Hok. pose proof (copies_apart s Hok) as Hap. pose proof (ok_length s Hok) as Hlen.
  destruct Hok as [Ht Hr _ Hnd _ _ _]. unfold Ref.edit, Ref.absr, Ref.shown.
  destruct (Ref.rows s !! k) as [l|] eqn:Hk.
  - case_decide; [|done]. simpl. split; [|intros _; by apply read_alter].
    apply read_alter_ne, Hap. by eapply list_elem_of_lookup_2.
  - split; [done|]. intros _. rewrite list_alter_ge; [done|].
    apply lookup_ge_None in Hk. by rewrite read_length.
Qed.

Lemma copies_step s o :
  Ref.ok s → Ref.absr (Ref.step_refs s o) = vstep false (Ref.absr s) o.
Proof.
  intros Hok. destruct (Ref.is_edit o) eqn:He; [|by apply step_noedit].
  destruct o; try done. by apply copies_edit.
Qed.

Lemma copies_run s ops :
  Ref.ok s → Ref.absr (Ref.run_refs s ops) = foldl (vstep false) (Ref.absr s) ops.
Proof.
  revert s. induction ops as [|o ops IH]; intros s Hok; [done|].
  rewrite ref_run_cons. simpl. rewrite <-copies_step by done. by apply IH, step_ok.
Qed.

(** C21: With a grid that copies the objects it is given, an edit of a
    cell never reaches the store and is lost when the table is rebuilt.
    After any run of submissions, deletions, seeds and edits, the contents
    of the [tasks] array are those of the run on values in which the edits
    do nothing.  An accepted edit changes the field in the row of the
    table and leaves the store as it was, so the table no longer shows the
    store; the next operation that calls [setTasks] rebuilds the table from
    the store, and the table shows the tasks of that operation on the store
    before the edit: the edited value is gone. *)
Theorem copied_rows_edits_lost s ops k field value o :
  Ref.ok s → accepts (editor_of field) value →
  let s1 := Ref.edit k field value s in
  Ref.absr (Ref.run_refs s ops) = foldl (vstep false) (Ref.absr s) ops
  ∧ Ref.absr s1 = Ref.absr s
  ∧ Ref.shown s1 = alter (Obj.set_field field value) k (Ref.shown s)
  ∧ (Ref.commits s1 o → Ref.shown (Ref.step_refs s1 o) = vstep false (Ref.absr s) o).
Proof.
  intros Hok Hacc s1. split; [by apply copies_run|].
  subst s1. destruct (copies_edit k field value s Hok) as [Ha Hs].
  split_and!; [done|by apply Hs|].
  intros Hc. assert (Ref.is_edit o = false) as He by (by destruct o).
  destruct (step_noedit false (Ref.edit k field value s) o) as (_ & Ha' & Hs');
    [by apply edit_ok|done|].
  rewrite <-Ha, <-Ha'. apply Hs'. by left.
Qed.

End copying.

(** ** Witnesses *)

Lemma seeded_sharing_ok : @Ref.ok shares_rows seeded_sharing.
Proof. apply run_ok, init_spec. Qed.

Lemma seeded_copying_ok : @Ref.ok copies_rows seeded_copying.
Proof. apply run_ok, init_spec. Qed.

Lemma values_abstract_references_witness :
  Ref.absr (@Ref.run_refs copies_rows (@Ref.init copies_rows)
    [Ref.Seed three_todos; Ref.Add milk; Ref.Delete 0]) =
  [ Task.mk 2 "quis ut nam facilis" "No description provided" "To Do";
    Task.mk 3 "fugiat veniam minus" "No description provided" "Done";
    Task.mk 4 "Buy milk" "2 litres" "To Do" ].
Proof.
  pose proof (@values_abstract_references copies_rows (@Ref.init copies_rows)
    [Ref.Seed three_todos; Ref.Add milk; Ref.Delete 0]
    (proj1 init_spec) (proj1 (proj2 init_spec))
    ltac:(apply (bool_decide_unpack _); by vm_compute)) as [H _].
  vm_compute in H. vm_compute. exact H.
Defined.

Lemma shared_rows_write_through_witness :
  Ref.absr (@Ref.run_refs shares_rows seeded_sharing
    [Ref.Edit 0 "title" ""; Ref.Add milk; Ref.Delete 1]) =
  [ Task.mk 1 "" "No description provided" "To Do";
    Task.mk 3 "fugiat veniam minus" "No description provided" "Done";
    Task.mk 4 "Buy milk" "2 litres" "To Do" ].
Proof.
  pose proof (shared_rows_write_through seeded_sharing
    [Ref.Edit 0 "title" ""; Ref.Add milk; Ref.Delete 1] seeded_sharing_ok) as [H _].
  vm_compute in H. vm_compute. exact H.
Defined.

Lemma copied_rows_edits_lost_witness :
  Ref.shown (@Ref.step_refs copies_rows (Ref.edit 0 "title" "" seeded_copying) (Ref.Add milk)) =
  [ Task.mk 1 "delectus aut autem" "No description provided" "To Do";
    Task.mk 2 "quis ut nam facilis" "No description provided" "To Do";
    Task.mk 3 "fugiat veniam minus" "No description provided" "Done";
    Task.mk 4 "Buy milk" "2 litres" "To Do" ].
Proof.
  pose proof (copied_rows_edits_lost seeded_copying [] 0 "title" "" (Ref.Add milk)
    seeded_copying_ok ltac:(by vm_compute)) as (_ & _ & _ & H).
  specialize (H ltac:(by vm_compute)). vm_compute in H. vm_compute. exact H.
Defined.
