(* ===== verification/PageObjects.v ===== *)
(** * The page over its task objects

    [Component.v] runs the page on task values, [Objects.v] runs the three
    writers of the store on task objects.  This file puts the two together:
    each event of the page stands for at most one operation on objects
    ([op_of]: a click on Add Task with the draft of the render, a click on
    Delete with the position of the clicked row in the table's data, the
    response of the seed request while it is awaited and the component is
    on the page), and after any run of events the [tasks] state of the page
    is the contents of the [tasks] array of references after the
    operations of the run, whatever the grid widget and whatever it does
    with the objects it is given.  The rows of the table on display are
    the contents of the rows on objects.  Cells are not edited in these
    runs: the page model has no event for an edit. *)

From S2P Require Import Prelude Data Store Seed Toast Grid Component Invariant Pages Objects.

(** ** Events as operations on objects *)

(** The position in the table's data of the clicked row: the first task
    with its id.  The [cellClick] of line 52 reads the id of the row and
    nothing else, so when two tasks share the id any of their positions
    stands for the same click. *)
Definition data_index (row : Task.t) (tasks : list Task.t) : option nat :=
  fst <$> list_find (λ task, Task.id task = Task.id row) tasks.

Section page.
Context {T : Type} `{!GridWidget T}.
Implicit Types (w : World.t T) (es : list Event).

(** The operation on objects an event stands for, if any. *)
Definition op_of w (e : Event) : option Ref.Op :=
  match e with
  | AddClick => Some (Ref.Add (Hooks.newTask (World.hooks w)))
  | DeleteClick j =>
      row ← view w !! j;
      Ref.Delete <$> data_index row (Hooks.tasks (World.hooks w))
  | FetchResolved data =>
      if decide (World.request w = fetch_pending)
      then (if World.tableRef w then Some (Ref.Seed data) else None)
      else None
  | _ => None
  end.

(** The operations of a run of events. *)
Fixpoint ops_of w es : list Ref.Op :=
  match es with
  | [] => []
  | e :: es => option_list (op_of w e) ++ ops_of (step w e) es
  end.

(** ** One event *)

Lemma store_after_hooks cmds (h : Hooks.t) :
  Hooks.tasks (hooks_after cmds h) = store_after cmds (Hooks.tasks h).
Proof.
  revert h. induction cmds as [|c cmds IH]; intros h; [done|].
  simpl. rewrite IH. by destruct c.
Qed.

Lemma store_after_commit cmds w :
  Hooks.tasks (World.hooks (commit cmds w)) = store_after cmds (Hooks.tasks (World.hooks w)).
Proof. by rewrite (proj1 (commit_frame cmds w)), store_after_hooks. Qed.

Lemma data_index_Some row tasks :
  row ∈ tasks →
  ∃ k row', data_index row tasks = Some k ∧ tasks !! k = Some row'
            ∧ Task.id row' = Task.id row.
Proof.
  intros Hin. unfold data_index.
  destruct (list_find_elem_of (λ task, Task.id task = Task.id row) tasks row Hin eq_refl)
    as [[k row'] Hfind].
  rewrite Hfind. apply list_find_Some in Hfind as (? & ? & _). by exists k, row'.
Qed.

(** A click on Delete in a row on display is the deletion at the position
    of that row in the data. *)
Lemma delete_click_op j row h i g n r p :
  ok (mounted h i g n r p) → grid_visible g !! j = Some row →
  ∃ k, op_of (mounted h i g n r p) (DeleteClick j) = Some (Ref.Delete k)
       ∧ vstep false (Hooks.tasks h) (Ref.Delete k) =
         store_after (cellClick (Hooks.tasks h) row) (Hooks.tasks h).
Proof.
  intros Hok Hrow. assert (shows h g) as Hs by (by inversion Hok; simplify_eq).
  destruct (data_index_Some row (Hooks.tasks h)) as (k & row' & Hk & Hrow' & Hid).
  { eapply elem_of_sublist; [by eapply list_elem_of_lookup_2|by apply shows_sublist]. }
  exists k. cbn [op_of]. rewrite view_mounted, Hrow. simpl. rewrite Hk. split; [done|].
  simpl. rewrite Hrow'. unfold cellClick. by rewrite Hid.
Qed.

(** What an event does to the [tasks] state is what its operation does to
    the store as values. *)
Lemma step_tasks w e :
  ok w → enabled w e →
  Hooks.tasks (World.hooks (step w e)) =
  from_option (vstep false (Hooks.tasks (World.hooks w))) (Hooks.tasks (World.hooks w))
    (op_of w e).
Proof.
  intros Hok Hen. destruct e; simpl in Hen;
    try (cbn [step op_of from_option]; by rewrite store_after_commit).
  - cbn [step op_of from_option]. rewrite (proj1 Hen). unfold mount.
    rewrite (proj1 (filter_effect_frame _)), (proj1 (table_effect_frame _)).
    by destruct w.
  - cbn [step op_of]. rewrite !decide_True by done.
    destruct (World.tableRef w); [by rewrite store_after_commit|by destruct w].
  - cbn [step op_of from_option]. rewrite decide_True by done. by destruct w.
  - destruct Hen as [Hm [row Hrow]]. mounted_form w. rewrite view_mounted in Hrow.
    destruct (delete_click_op _ _ _ _ _ _ _ _ Hok' Hrow) as (k & -> & Hk).
    cbn [step from_option]. rewrite store_after_commit, click_row_mounted by done.
    rewrite Hrow. symmetry. apply Hk.
  - by destruct w.
  - by destruct w.
  - cbn [step op_of from_option]. rewrite Hen. unfold unmount.
    by rewrite <- (proj1 (table_cleanup_frame w)); destruct (table_cleanup w).
Qed.

(** ** Runs *)

(** No event of the page stands for an edit. *)
Lemma op_of_noedit w e o : op_of w e = Some o → ¬ Ref.is_edit o.
Proof.
  destruct e; simpl; intros Ho; repeat case_match; simplify_option_eq; simpl; auto.
Qed.

Lemma ops_of_noedit w es : Forall (λ o, ¬ Ref.is_edit o) (ops_of w es).
Proof.
  revert w. induction es as [|e es IH]; intros w; [constructor|].
  cbn [ops_of]. apply Forall_app. split; [|apply IH].
  destruct (op_of w e) eqn:Ho; repeat constructor. by eapply op_of_noedit.
Qed.

Lemma run_tasks w es :
  ok w → enabled_run w es →
  Hooks.tasks (World.hooks (run w es)) =
  foldl (vstep false) (Hooks.tasks (World.hooks w)) (ops_of w es).
Proof.
  revert w. induction es as [|e es IH]; intros w Hok Hen; [done|].
  destruct Hen as [Hen Hes]. rewrite run_cons. cbn [ops_of].
  rewrite foldl_app, IH, step_tasks by eauto using ok_step.
  by destruct (op_of w e).
Qed.

(** The table on display holds the tasks of the state. *)
Lemma displayed_rows w i g :
  ok w → Registry.displayed (World.tables w) = Some (i, g) →
  grid_rows g = Hooks.tasks (World.hooks w).
Proof. intros [| |] Hd; vm_compute in Hd; by simplify_eq. Qed.

(** C19: The page runs on task objects.  From a reachable page and a store
    of objects with the same contents, after any run of events the page
    can receive, the [tasks] state of the page (on values) is the contents
    of the [tasks] array of references after the operations the events
    stand for, the references are well formed, and the rows of the table
    on display are the contents of the rows on objects: whatever the grid
    widget, and whether it keeps the objects it is given or copies them. *)
Theorem page_runs_on_objects `{!RowPolicy} w (s : Ref.t) es :
  reachable w → enabled_run w es →
  Ref.ok s → Ref.synced s → Ref.absr s = Hooks.tasks (World.hooks w) →
  let s' := Ref.run_refs s (ops_of w es) in
  Ref.ok s'
  ∧ Ref.absr s' = Hooks.tasks (World.hooks (run w es))
  ∧ (∀ i g, Registry.displayed (World.tables (run w es)) = Some (i, g) →
            grid_rows g = Ref.shown s').
Proof.
  intros Hw Hes Hok Hsync Habs s'. subst s'.
  destruct (run_noedit false s (ops_of w es) Hok Hsync (ops_of_noedit w es)) as [Hrun Hs].
  assert (Ref.absr (Ref.run_refs s (ops_of w es)) = Hooks.tasks (World.hooks (run w es))) as Heq.
  { rewrite Hrun, Habs. symmetry. by apply run_tasks; [apply reachable_ok|]. }
  split_and!; [by apply run_ok|done|].
  intros i g Hd. rewrite Hs, Heq.
  eapply displayed_rows; [|done]. by apply reachable_ok, reachable_run.
Qed.

End page.

(** ** Edits on a grid that copies *)

Section copied_edits.
Context {T : Type} `{!GridWidget T}.
#[local] Existing Instance copies_rows.

(** With a grid that copies its data the cells of the table can be edited
    at any moment of a run, and what the page model says of the store
    stands: whatever edits are made between the events, the [tasks] state
    of the page is the contents of the array of references. *)
Corollary page_store_under_copied_edits (w : World.t T) (s : Ref.t) es ops :
  reachable w → enabled_run w es →
  Ref.ok s → Ref.absr s = Hooks.tasks (World.hooks w) →
  filter (λ o, ¬ Ref.is_edit o) ops = ops_of w es →
  Ref.absr (Ref.run_refs s ops) = Hooks.tasks (World.hooks (run w es)).
Proof.
  intros Hw Hes Hok Habs Hops.
  rewrite copies_run, vstep_skip_edits, Hops, Habs by done.
  symmetry. by apply run_tasks; [apply reachable_ok|].
Qed.

End copied_edits.

(** ** Witness on the list grid *)

Lemma page_runs_on_objects_witness :
  let es := [Mount; FetchResolved three_todos; TitleInput "Buy milk";
             DescriptionInput "2 litres"; AddClick; FilterSelect "Done"; DeleteClick 0] in
  Ref.absr (@Ref.run_refs copies_rows (@Ref.init copies_rows)
    [Ref.Seed three_todos; Ref.Add milk; Ref.Delete 2]) =
  Hooks.tasks (World.hooks (run (World.init (T:=ListGrid.t)) es)).
Proof.
  intros es.
  pose proof (@page_runs_on_objects _ _ copies_rows (World.init (T:=ListGrid.t))
    (@Ref.init copies_rows) es ltac:(constructor)
    ltac:(apply (bool_decide_unpack _); by vm_compute)
    (proj1 init_spec) (proj1 (proj2 init_spec)) eq_refl) as (_ & H & _).
  vm_compute in H. vm_compute. exact H.
Defined.
