(* ===== verification/Untyped.v ===== *)
(** * The writers of the store on the tasks JavaScript holds

    [Component.v] runs [handleAddTask] and the [cellClick] of the Actions
    column on typed tasks.  The tasks of the source are the objects the
    [then] callback built ([JsTask.t] of [Response.v]): their [id] and
    [title] are whatever the response held.  This file runs the two
    handlers on those objects:

    - [cellClick_js] is the [filter] of line 52 with the comparison [!==] of
      JavaScript on the ids;
    - [handleAddTask_js] is lines 68-73: the id is a number, [tasks.length
      + 1], whatever the ids of the store are.

    On the tasks of the typed model the two are the handlers of
    [Component.v].  On the tasks a response without ids leaves in the store
    they are not what a user expects: every id is [undefined], so a click
    on Delete in any row removes every task. *)

From Stdlib Require Import QArith Qcanon.
From S2P Require Import Prelude Data Store Seed Json Component Response Objects.

(** [arr.filter(f)] with a callback that may fail to give an answer: the
    elements are tested in order. *)
Fixpoint filter_opt {A} (f : A → option bool) (l : list A) : option (list A) :=
  match l with
  | [] => Some []
  | x :: l =>
      keep ← f x;
      l' ← filter_opt f l;
      Some (if keep : bool then x :: l' else l')
  end.

(** [tasks.filter((task) => task.id !== row.getData().id)] (lines 51-52),
    with the [tasks] the closure captured and the data of the clicked row:
    the array passed to [setTasks] (line 53). *)
Definition cellClick_js (tasks : list JsTask.t) (row : JsTask.t) : option (list JsTask.t) :=
  filter_opt (λ task, Js.strict_ne (JsTask.id task) (JsTask.id row)) tasks.

(** [handleAddTask] (lines 67-79): the [tasks] state after the handler,
    which is the array of line 73 when the guard of line 68 passes. *)
Definition handleAddTask_js (tasks : list JsTask.t) (newTask : Draft.t) : list JsTask.t :=
  if truthy (Draft.title newTask) && truthy (Draft.description newTask) then
    let task := JsTask.embed (Draft.to_task (Z.of_nat (length tasks) + 1) newTask) in
    tasks ++ [task]
  else tasks.

(** The elements of a response that have no [id]: any value but [null]
    and [undefined] that is not an object with a property of that name. *)
Definition no_id (v : Js.value) : Prop := Js.get "id" v = Some Js.undefined.

#[export] Instance no_id_dec v : Decision (no_id v).
Proof. unfold no_id. apply _. Defined.

(** ** The filter *)

Section filter_opt.
Context {A : Type}.
Implicit Types (f : A → option bool) (p : A → bool) (l : list A).

(** With a callback that always answers, [filter_opt] is [filter]. *)
Lemma filter_opt_total f p l :
  Forall (λ x, f x = Some (p x)) l → filter_opt f l = Some (filter p l).
Proof.
  induction 1 as [|x l Hx _ IH]; [done|]. simpl. rewrite Hx, IH. simpl.
  rewrite filter_cons. by destruct (p x).
Qed.

Lemma filter_opt_fmap {B} (g : B → A) f (l : list B) :
  filter_opt f (g <$> l) = (λ l' : list B, g <$> l') <$> filter_opt (f ∘ g) l.
Proof.
  induction l as [|x l IH]; [done|]. rewrite fmap_cons. cbn [filter_opt]. rewrite IH.
  simpl. destruct (f (g x)) as [[]|]; simpl; by destruct (filter_opt (f ∘ g) l).
Qed.

End filter_opt.

(** ** The handlers on typed tasks *)

Section typed.
Implicit Types (tasks : list Task.t) (row task : Task.t) (newTask : Draft.t).

(** On the ids of typed tasks [!==] is the comparison of the integers. *)
Lemma strict_ne_embed task row :
  Js.strict_ne (JsTask.id (JsTask.embed task)) (JsTask.id (JsTask.embed row)) =
  Some (bool_decide (Task.id task ≠ Task.id row)).
Proof.
  unfold Js.strict_ne. simpl. f_equal.
  rewrite <-bool_decide_not. apply bool_decide_ext. by rewrite Z2Qc_inj_iff.
Qed.

Lemma cellClick_js_embed tasks row :
  cellClick_js (JsTask.embed <$> tasks) (JsTask.embed row) =
  Some (JsTask.embed <$> Store.remove_by_id (Task.id row) tasks).
Proof.
  unfold cellClick_js. rewrite filter_opt_fmap.
  rewrite (filter_opt_total _ (λ task, bool_decide (Task.id task ≠ Task.id row))).
  - simpl. do 2 f_equal. unfold Store.remove_by_id.
    apply list_filter_iff. intros task. by rewrite bool_decide_spec.
  - apply Forall_forall. intros task _. apply strict_ne_embed.
Qed.

Lemma handleAddTask_js_embed tasks newTask :
  handleAddTask_js (JsTask.embed <$> tasks) newTask =
  JsTask.embed <$> store_after (handleAddTask tasks newTask) tasks.
Proof.
  unfold handleAddTask_js, handleAddTask. case_match; [|done].
  simpl. unfold Store.append_one, Store.next_id. by rewrite length_fmap, fmap_app.
Qed.

End typed.

(** ** The handlers on tasks without ids *)

Section untyped.
Implicit Types (objects : list JsTask.t) (row : JsTask.t) (vs : list Js.value).

Lemma seed_task_js_no_id v :
  no_id v → ∃ o, seed_task_js v = Some o ∧ JsTask.id o = Js.undefined.
Proof.
  unfold no_id, seed_task_js. intros Hid. rewrite Hid. simpl.
  destruct v; try done; simpl; by eexists.
Qed.

(** The callback on elements without ids: it returns, and every task it
    builds has the id [undefined]. *)
Lemma initialTasks_js_no_id vs :
  Forall no_id (take 20 vs) →
  ∃ objects, initialTasks_js (Js.array vs) = Some objects
    ∧ length objects = 20 `min` length vs
    ∧ Forall (λ o, JsTask.id o = Js.undefined) objects.
Proof.
  rewrite initialTasks_js_array, <-length_take. generalize (take 20 vs).
  induction 1 as [|v vs' (o & Ho & Hid)%seed_task_js_no_id _ (os & Hos & Hlen & Hids)].
  - by exists [].
  - exists (o :: os). simpl. rewrite Ho. simpl. rewrite Hos. simpl.
    split_and!; [done|by rewrite Hlen|by constructor].
Qed.

(** A click on Delete in a row whose id is [undefined] keeps the tasks
    whose id is not [undefined]. *)
Lemma cellClick_js_undefined objects row :
  JsTask.id row = Js.undefined →
  cellClick_js objects row =
  Some (filter (λ o, JsTask.id o ≠ Js.undefined) objects).
Proof.
  intros Hrow. unfold cellClick_js. rewrite Hrow.
  rewrite (filter_opt_total _ (λ o, bool_decide (JsTask.id o ≠ Js.undefined))).
  - f_equal. apply list_filter_iff. intros o. by rewrite bool_decide_spec.
  - apply Forall_forall. intros o _. unfold Js.strict_ne.
    rewrite strict_eq_undefined. simpl. by rewrite bool_decide_not.
Qed.

Lemma filter_undefined_ids objects :
  Forall (λ o, JsTask.id o = Js.undefined) objects →
  filter (λ o, JsTask.id o ≠ Js.undefined) objects = [].
Proof.
  induction 1 as [|o os Hid _ IH]; [done|]. by rewrite filter_cons_False by naive_solver.
Qed.

End untyped.

(** ** Theorems *)

(** C29: The typed handlers are the handlers of the source on typed tasks.
    On a store of tasks whose ids are integers and whose titles are
    strings, the array the delete handler passes to [setTasks] (the
    [filter] of line 52 with JavaScript's [!==]) is the array of the typed
    [cellClick], and the [tasks] state after [handleAddTask] is the one the
    typed handler leaves: the typed model loses nothing on the stores it
    speaks of. *)
Theorem typed_handlers_exact (tasks : list Task.t) (row : Task.t) (newTask : Draft.t) :
  cellClick_js (JsTask.embed <$> tasks) (JsTask.embed row) =
    Some (JsTask.embed <$> store_after (cellClick tasks row) tasks)
  ∧ handleAddTask_js (JsTask.embed <$> tasks) newTask =
    JsTask.embed <$> store_after (handleAddTask tasks newTask) tasks.
Proof. split; [apply cellClick_js_embed|apply handleAddTask_js_embed]. Qed.

(** C17: A response without ids makes Delete remove every task.  When none
    of the first 20 elements of the response has an [id] (they are strings,
    numbers, arrays, or objects without that property), the callback
    returns one task per element, each with the id [undefined]; the typed
    model has no such store.  A click on Delete in any row then passes the
    empty array to [setTasks]: [undefined !== undefined] is false for every
    task.  After a task has been added (its id is a number, the length plus
    one), a click on Delete in a seeded row removes all the seeded tasks
    and leaves the added one. *)
Theorem delete_without_ids_removes_all (vs : list Js.value) (newTask : Draft.t) :
  Forall no_id (take 20 vs) →
  ∃ objects, initialTasks_js (Js.array vs) = Some objects
    ∧ length objects = 20 `min` length vs
    ∧ Forall (λ o, JsTask.id o = Js.undefined) objects
    ∧ (objects ≠ [] → mapM JsTask.project objects = None)
    ∧ ∀ row, row ∈ objects →
        cellClick_js objects row = Some []
        ∧ (Draft.title newTask ≠ "" → Draft.description newTask ≠ "" →
           cellClick_js (handleAddTask_js objects newTask) row =
           Some [JsTask.embed (Draft.to_task (Z.of_nat (length objects) + 1) newTask)]).
Proof.
  intros (objects & Ho & Hlen & Hids)%initialTasks_js_no_id.
  exists objects. split_and!; [done..| |].
  - destruct Hids as [|o os Hid _]; [done|]. intros _.
    assert (JsTask.project o = None) as Hp by (unfold JsTask.project; by rewrite Hid).
    simpl. by rewrite Hp.
  - intros row Hrow. rewrite Forall_forall in Hids.
    rewrite !cellClick_js_undefined by auto. rewrite <-Forall_forall in Hids. split.
    + by rewrite filter_undefined_ids.
    + intros Ht Hd. unfold handleAddTask_js.
      rewrite (proj2 (truthy_and _ _)) by done.
      by rewrite filter_app, filter_undefined_ids.
Qed.

(** ** Witnesses *)

Lemma delete_without_ids_removes_all_witness :
  initialTasks_js response_untyped ≫= (λ objects, head objects ≫= cellClick_js objects) = Some [].
Proof.
  destruct (delete_without_ids_removes_all [Js.object []; Js.text "task"; Js.array []]
    Draft.blank ltac:(apply (bool_decide_unpack _); by vm_compute))
    as (objects & Ho & _ & _ & _ & Hrow).
  change (initialTasks_js response_untyped) with
    (initialTasks_js (Js.array [Js.object []; Js.text "task"; Js.array []])).
  rewrite Ho. simpl. destruct objects as [|row objects]; [by vm_compute in Ho|].
  simpl. apply Hrow. left.
Defined.
